(** * A DNS client for WIZnet 5k ethernet modules: the resolver of
      [adafruit_wiznet5k_dns.py], embedded and verified.

    The module is CircuitPython code.  Its class [DNS] owns a datagram
    socket, a packet buffer, the host name and the request identifier; the
    method [gethostbyname] builds a query, sends it once and then polls for
    a response up to three times.

    Conventions of the embedding.
    - A [bytes] / [bytearray] value is a list of [byte]; integers are [Z].
    - A method is a computation in the monad [M]: it reads and updates the
      object and its surroundings ([State]) and ends with a value, with a
      raised exception, or with no result when a loop's fuel runs out (the
      totality lemmas show that this last case never occurs).
    - What the surroundings answer (the socket's [available] and [recv], the
      random source) is a script [Env], indexed by how often it was asked.
    - [time.monotonic] is read in milliseconds: [1.0] is [1000] and
      [time.sleep(0.05)] advances the clock by [50].  The readings are
      floats in the code.  Two of them that lie less than a second apart
      differ by less than [1.0] and two that lie more than a second apart
      by more, but of two readings a second apart the difference falls on
      either side of [1.0] ([4.15 - 3.15] is [1.0000000000000004],
      [1.15 - 0.15] is [0.9999999999999999]); how it falls is part of the
      script.
    - Debug printing and [gc.collect] have no effect on the state modelled
      here and are left out. *)

From Stdlib Require Import ZArith List Bool Lia.
From Stdlib Require Import Strings.Byte.
From Stdlib Require Strings.String.
Import ListNotations.
Import String.StringSyntax.
Local Open Scope string_scope.
Local Open Scope Z_scope.

(** ** Bytes *)

Definition bytes := list byte.

Definition byte_val (b : byte) : Z := Z.of_N (Byte.to_N b).

Definition byte_of_Z (v : Z) : option byte :=
  if 0 <=? v then Byte.of_N (Z.to_N v) else None.

(** ** Exceptions and results *)

Inductive exn := IndexError | ValueError | UnicodeError.

Inductive Res (A : Type) : Type :=
| Ok (a : A)
| Raise (e : exn).
Arguments Ok {A} a.
Arguments Raise {A} e.

(** A value [gethostbyname] hands back: an [int] code or a byte string. *)
Inductive pyval :=
| PInt (z : Z)
| PBytes (b : bytes).

Definition bytes_eqb (a b : bytes) : bool :=
  if list_eq_dec Byte.byte_eq_dec a b then true else false.

(** Python's [==] between the two kinds of value the module compares. *)
Definition py_eq (a b : pyval) : bool :=
  match a, b with
  | PInt x, PInt y => x =? y
  | PBytes x, PBytes y => bytes_eqb x y
  | _, _ => false
  end.

(** ** Sequence primitives of the runtime *)

(** [bytearray.append(v)]: one byte in [0, 255], anything else raises. *)
Definition append (buf : bytes) (v : Z) : Res bytes :=
  match byte_of_Z v with
  | Some b => Ok (buf ++ [b])
  | None => Raise ValueError
  end.

(** [int.from_bytes(b, byteorder)].  The runtime reads the buffer least
    significant byte first only when [byteorder] is the word little, and
    most significant byte first for every other argument, so the module's
    ['l'] reads big-endian. *)
Definition int_from_bytes (b : bytes) (byteorder : String.string) : Z :=
  if String.eqb byteorder "little"
  then fold_right (fun x acc => byte_val x + 256 * acc) 0 b
  else fold_left (fun acc x => 256 * acc + byte_val x) b 0.

(** A slice bound as Python normalises it against the length. *)
Definition clamp (len i : Z) : Z :=
  if i <? 0 then Z.max 0 (i + len) else Z.min i len.

(** [b[i:j]]. *)
Definition slice (b : bytes) (i j : Z) : bytes :=
  let len := Z.of_nat (length b) in
  let lo := clamp len i in
  let hi := clamp len j in
  firstn (Z.to_nat (hi - lo)) (skipn (Z.to_nat lo) b).

(** [b[i]]: a negative index counts from the end, an index outside the
    sequence raises [IndexError]. *)
Definition getitem (b : bytes) (i : Z) : Res byte :=
  let len := Z.of_nat (length b) in
  let k := if i <? 0 then i + len else i in
  if (0 <=? k) && (k <? len)
  then match nth_error b (Z.to_nat k) with
       | Some x => Ok x
       | None => Raise IndexError
       end
  else Raise IndexError.

Fixpoint starts_with (pat b : bytes) : bool :=
  match pat, b with
  | [], _ => true
  | _ :: _, [] => false
  | p :: pat', x :: b' => if Byte.eqb p x then starts_with pat' b' else false
  end.

Fixpoint find_from (b pat : bytes) (i : Z) : Z :=
  if starts_with pat b then i
  else match b with
       | [] => -1
       | _ :: b' => find_from b' pat (i + 1)
       end.

(** [b.find(pat)]: the lowest index at which [pat] occurs, or [-1]. *)
Definition find (b pat : bytes) : Z := find_from b pat 0.

(** [s.split(sep)] for a one-element separator. *)
Fixpoint split {A : Type} (eqb : A -> A -> bool) (sep : A) (s : list A)
  : list (list A) :=
  match s with
  | [] => [[]]
  | c :: t =>
      if eqb c sep then [] :: split eqb sep t
      else match split eqb sep t with
           | [] => [[c]]
           | w :: ws => (c :: w) :: ws
           end
  end.

(** ** Text *)

(** A [str] is its sequence of code points. *)
Definition str := list N.

Definition is_ascii (b : byte) : Prop := (Byte.to_N b < 128)%N.

(** What the module needs of the runtime's text handling:
    [bytes.decode('utf-8')] and the bytes that [bytearray += str] appends.
    Both are fixed on 7-bit text, where a byte is a code point; the
    embedding takes no position on other input. *)
Class TextCodec := {
  decode_utf8 : bytes -> Res str;
  str_buffer : str -> bytes;
  decode_utf8_ascii :
    forall b, Forall is_ascii b -> decode_utf8 b = Ok (map Byte.to_N b);
  str_buffer_ascii :
    forall b, Forall is_ascii b -> str_buffer (map Byte.to_N b) = b
}.

(** ** Constants of the module *)

Definition QUERY_FLAG : Z := 0x00.
Definition OPCODE_STANDARD_QUERY : Z := 0x00.
Definition RECURSION_DESIRED_FLAG : Z := Z.shiftl 1 8.

Definition TYPE_A : Z := 0x0001.
Definition CLASS_IN : Z := 0x0001.
Definition DATA_LEN : Z := 0x0004.

Definition SUCCESS : Z := 1.
Definition TIMED_OUT : Z := -1.
Definition INVALID_SERVER : Z := -2.
Definition TRUNCATED : Z := -3.
Definition INVALID_RESPONSE : Z := -4.

Definition DNS_PORT : Z := 0x35.

(** Modelled from the spec: [htons] of the socket module
    [adafruit_wiznet5k_socket], which is not among the sources.  The spec
    has QTYPE and QCLASS transmitted in network byte order; [htons] is the
    16-bit host-to-network conversion, the swap of the two bytes. *)
Definition htons (x : Z) : Z :=
  Z.lor (Z.land (Z.shiftl x 8) 0xFF00) (Z.land (Z.shiftr x 8) 0xFF).

(** ** The object, its socket and the surroundings *)

(** The datagram socket of [adafruit_wiznet5k_socket], as far as the
    resolver drives it.  [sent] lists the datagrams handed to [send], oldest
    first; [polls] and [recvs] count the calls of [available] and [recv];
    [closes] counts the calls of [close]. *)
Record Socket := mkSocket {
  timeout : Z;
  peer : option (bytes * Z);
  is_open : bool;
  sent : list bytes;
  polls : nat;
  recvs : nat;
  closes : nat
}.

(** The attributes of a [DNS] object ([_iface] is only passed on to the
    socket module and is not kept here). *)
Record DNS := mkDNS {
  _debug : bool;
  _sock : Socket;
  _dns_server : option bytes;
  _host : bytes;
  _request_id : Z;
  _pkt_buf : bytes
}.

(** The object together with the clock (milliseconds) and the number of
    draws taken from the random source. *)
Record State := mkState {
  self : DNS;
  clock : Z;
  draws : nat
}.

(** The script of the surroundings: what the [n]-th call of [available]
    reports, what the [n]-th call of [recv] returns, the raw value behind
    the [n]-th random draw, and whether the clock reading one second behind
    the reading [start] differs from it, as floats, by more than [1.0]. *)
Record Env := mkEnv {
  available_at : nat -> Z;
  recv_at : nat -> bytes;
  entropy_at : nat -> Z;
  tie_at : Z -> bool
}.

(** ** The monad of methods *)

Definition M (A : Type) : Type := State -> option (Res A * State).

Definition ret {A} (a : A) : M A := fun s => Some (Ok a, s).

Definition raise {A} (e : exn) : M A := fun s => Some (Raise e, s).

Definition out_of_fuel {A} : M A := fun _ => None.

Definition bind {A B} (m : M A) (k : A -> M B) : M B :=
  fun s =>
    match m s with
    | Some (Ok a, s') => k a s'
    | Some (Raise e, s') => Some (Raise e, s')
    | None => None
    end.

Notation "x <- m ;; k" := (bind m (fun x => k))
  (at level 61, m at next level, right associativity).
Notation "m ;; k" := (bind m (fun _ => k))
  (at level 61, right associativity).

Definition lift {A} (r : Res A) : M A := fun s => Some (r, s).

Definition lift_fuel {A} (o : option (Res A)) : M A :=
  fun s => match o with Some r => Some (r, s) | None => None end.

Definition get_self : M DNS := fun s => Some (Ok (self s), s).

Definition put_self (d : DNS) : M unit :=
  fun s => Some (Ok tt, mkState d (clock s) (draws s)).

Definition with_sock (d : DNS) (k : Socket) : DNS :=
  mkDNS (_debug d) k (_dns_server d) (_host d) (_request_id d) (_pkt_buf d).

Definition with_host (d : DNS) (h : bytes) : DNS :=
  mkDNS (_debug d) (_sock d) (_dns_server d) h (_request_id d) (_pkt_buf d).

Definition with_request_id (d : DNS) (r : Z) : DNS :=
  mkDNS (_debug d) (_sock d) (_dns_server d) (_host d) r (_pkt_buf d).

Definition with_pkt_buf (d : DNS) (b : bytes) : DNS :=
  mkDNS (_debug d) (_sock d) (_dns_server d) (_host d) (_request_id d) b.

Definition set_host (h : bytes) : M unit :=
  d <- get_self ;; put_self (with_host d h).

Definition set_request_id (r : Z) : M unit :=
  d <- get_self ;; put_self (with_request_id d r).

Definition set_pkt_buf (b : bytes) : M unit :=
  d <- get_self ;; put_self (with_pkt_buf d b).

Definition get_pkt_buf : M bytes :=
  d <- get_self ;; ret (_pkt_buf d).

(** [self._pkt_buf.append(v)] *)
Definition pkt_append (v : Z) : M unit :=
  b <- get_pkt_buf ;; b' <- lift (append b v) ;; set_pkt_buf b'.

(** [self._pkt_buf += data] *)
Definition pkt_extend (data : bytes) : M unit :=
  b <- get_pkt_buf ;; set_pkt_buf (b ++ data).

(** ** The surroundings' operations *)

(** [socket.socket(type=SOCK_DGRAM)] followed by [settimeout]. *)
Definition socket_new (t : Z) : Socket :=
  mkSocket t None true [] 0 0 0.

Definition sock_update (f : Socket -> Socket) : M unit :=
  d <- get_self ;; put_self (with_sock d (f (_sock d))).

Definition sock_connect (address : bytes * Z) : M unit :=
  sock_update (fun k =>
    mkSocket (timeout k) (Some address) true (sent k) (polls k) (recvs k)
             (closes k)).

Definition sock_send (data : bytes) : M unit :=
  sock_update (fun k =>
    mkSocket (timeout k) (peer k) (is_open k) (sent k ++ [data]) (polls k)
             (recvs k) (closes k)).

Definition sock_available (E : Env) : M Z :=
  d <- get_self ;;
  sock_update (fun k =>
    mkSocket (timeout k) (peer k) (is_open k) (sent k) (S (polls k))
             (recvs k) (closes k)) ;;
  ret (available_at E (polls (_sock d))).

Definition sock_recv (E : Env) : M bytes :=
  d <- get_self ;;
  sock_update (fun k =>
    mkSocket (timeout k) (peer k) (is_open k) (sent k) (polls k)
             (S (recvs k)) (closes k)) ;;
  ret (recv_at E (recvs (_sock d))).

Definition sock_close : M unit :=
  sock_update (fun k =>
    mkSocket (timeout k) (peer k) false (sent k) (polls k) (recvs k)
             (S (closes k))).

(** [time.monotonic()] *)
Definition monotonic : M Z := fun s => Some (Ok (clock s), s).

(** [time.sleep(ms / 1000)] *)
Definition sleep (ms : Z) : M unit :=
  fun s => Some (Ok tt, mkState (self s) (clock s + ms) (draws s)).

(** [getrandbits(k)]: the low [k] bits of the next raw value. *)
Definition getrandbits (E : Env) (k : Z) : M Z :=
  fun s => Some (Ok (Z.land (entropy_at E (draws s)) (Z.ones k)),
                 mkState (self s) (clock s) (S (draws s))).

(** ** The class [DNS] *)

(** [DNS.__init__(iface, dns_address, debug)].  The constructor stores the
    integer 0 as [_host]; no method reads it before [gethostbyname] has
    stored the host name, and the empty byte string stands for it here. *)
Definition __init__ (dns_address : option bytes) (debug : bool) : DNS :=
  mkDNS debug (socket_new 1) dns_address [] 0 [].

(** [DNS._build_dns_header] *)
Definition _build_dns_header (E : Env) : M unit :=
  rid <- getrandbits E 16 ;;
  set_request_id rid ;;
  (* ID, 16-bit identifier *)
  pkt_append (Z.shiftr rid 8) ;;
  pkt_append (Z.land rid 0xFF) ;;
  (* Flags (0x0100) *)
  pkt_append 0x01 ;;
  pkt_append 0x00 ;;
  (* QDCOUNT *)
  pkt_append 0x00 ;;
  pkt_append 0x01 ;;
  (* ANCOUNT *)
  pkt_append 0x00 ;;
  pkt_append 0x00 ;;
  (* NSCOUNT *)
  pkt_append 0x00 ;;
  pkt_append 0x00 ;;
  (* ARCOUNT *)
  pkt_append 0x00 ;;
  pkt_append 0x00.

(** The loop of [_build_dns_question] over the sections of the host. *)
Fixpoint write_sections `{TextCodec} (host : list str) : M unit :=
  match host with
  | [] => ret tt
  | section :: rest =>
      pkt_append (Z.of_nat (length section)) ;;
      pkt_extend (str_buffer section) ;;
      write_sections rest
  end.

(** [DNS._build_dns_question] *)
Definition _build_dns_question `{TextCodec} : M unit :=
  d <- get_self ;;
  host <- lift (decode_utf8 (_host d)) ;;
  let host := split N.eqb 46%N host in
  write_sections host ;;
  (* end of the name *)
  pkt_append 0x00 ;;
  (* Type A record *)
  pkt_append (Z.land (htons TYPE_A) 0xFF) ;;
  pkt_append (Z.shiftr (htons TYPE_A) 8) ;;
  (* Class IN *)
  pkt_append (Z.land (htons CLASS_IN) 0xFF) ;;
  pkt_append (Z.shiftr (htons CLASS_IN) 8).

(** The test of the deadline, [(now - start_time) > 1.0] on floats: decided
    by the milliseconds that lie between the two readings, except when these
    are exactly 1000. *)
Definition deadline_passed (E : Env) (start_time now : Z) : bool :=
  (now - start_time >? 1000)
  || ((now - start_time =? 1000) && tie_at E start_time).

(** The polling loop at the head of [_parse_dns_response]:
    [while packet_sz <= 0: ...].  The result tells whether the loop left
    through its [return -1]. *)
Fixpoint wait_for_packet (E : Env) (fuel : nat) (start_time packet_sz : Z)
  : M bool :=
  if packet_sz <=? 0 then
    match fuel with
    | O => out_of_fuel
    | S fuel' =>
        packet_sz <- sock_available E ;;
        now <- monotonic ;;
        if deadline_passed E start_time now then ret true
        else sleep 50 ;; wait_for_packet E fuel' start_time packet_sz
    end
  else ret false.

(** Iterations the polling loop can need: the clock moves by 50 per round
    and the loop leaves once more than 1000 have passed, if not at 1000. *)
Definition wait_fuel : nat := 22.

(** The walk over the question name: [while name_len > 0: ...], giving the
    value of [ptr] after the loop. *)
Fixpoint skip_name (fuel : nat) (buf : bytes) (ptr name_len : Z)
  : option (Res Z) :=
  if name_len >? 0 then
    match fuel with
    | O => None
    | S fuel' =>
        (* read the length of the name *)
        match getitem buf ptr with
        | Raise e => Some (Raise e)
        | Ok b =>
            let name_len := byte_val b in
            if name_len =? 0x00
            then (* we reached the end of this name *) Some (Ok (ptr + 1))
            else (* advance pointer *)
              skip_name fuel' buf (ptr + (name_len + 1)) name_len
        end
    end
  else Some (Ok ptr).

(** [DNS._parse_dns_response] *)
Definition _parse_dns_response (E : Env) : M pyval :=
  (* wait for a response *)
  start_time <- monotonic ;;
  packet_sz <- sock_available E ;;
  timed_out <- wait_for_packet E wait_fuel start_time packet_sz ;;
  if timed_out : bool then ret (PInt (-1)) else
  (* recv packet into buf *)
  data <- sock_recv E ;;
  set_pkt_buf data ;;
  d <- get_self ;;
  let buf := _pkt_buf d in
  (* Validate request identifier *)
  let xid := int_from_bytes (slice buf 0 2) "l" in
  if negb (xid =? _request_id d) then ret (PInt (-1)) else
  (* Validate flags *)
  let flags := int_from_bytes (slice buf 2 4) "l" in
  if negb (flags =? 0x8180) then ret (PInt (-1)) else
  (* Number of questions *)
  let qr_count := int_from_bytes (slice buf 4 6) "l" in
  if negb (qr_count >=? 1) then ret (PInt (-1)) else
  (* Number of answers *)
  let an_count := int_from_bytes (slice buf 6 8) "l" in
  if negb (an_count >=? 1) then ret (PInt (-1)) else
  (* Parse query *)
  ptr <- lift_fuel (skip_name (S (length buf)) buf 12 1) ;;
  (* Validate Query is Type A *)
  let q_type := int_from_bytes (slice buf ptr (ptr + 2)) "l" in
  if negb (q_type =? TYPE_A) then ret (PInt (-1)) else
  let ptr := ptr + 2 in
  let q_class := int_from_bytes (slice buf ptr (ptr + 2)) "l" in
  if negb (q_class =? TYPE_A) then ret (PInt (-1)) else
  let ptr := ptr + 2 in
  (* find answer response *)
  let idx := find buf [xc0; x0c] in
  (* Validate Type A *)
  let ans_type := int_from_bytes (slice buf (idx + 2) (idx + 4)) "l" in
  if negb (ans_type =? TYPE_A) then ret (PInt (-1)) else
  (* Validate Class IN *)
  let class_type := int_from_bytes (slice buf (idx + 4) (idx + 6)) "l" in
  if negb (class_type =? CLASS_IN) then ret (PInt (-1)) else
  (* Validate addr is IPv4 *)
  let data_length := int_from_bytes (slice buf (idx + 10) (idx + 12)) "l" in
  if negb (data_length =? DATA_LEN) then ret (PInt (-1)) else
  (* Return address *)
  ret (PBytes (slice buf (idx + 12) (idx + 16))).

(** The loop of [gethostbyname]:
    [while (retries < 3) and (addr == -1): ...], giving [addr]. *)
Fixpoint retry (E : Env) (fuel : nat) (retries : Z) (addr : pyval)
  : M pyval :=
  if (retries <? 3) && py_eq addr (PInt (-1)) then
    match fuel with
    | O => out_of_fuel
    | S fuel' =>
        addr <- _parse_dns_response E ;;
        retry E fuel' (retries + 1) addr
    end
  else ret addr.

(** [DNS.gethostbyname] *)
Definition gethostbyname `{TextCodec} (E : Env) (hostname : bytes)
  : M pyval :=
  d <- get_self ;;
  match _dns_server d with
  | None => ret (PInt INVALID_SERVER)
  | Some server =>
      set_host hostname ;;
      (* build DNS request packet *)
      _build_dns_header E ;;
      _build_dns_question ;;
      (* Send DNS request packet *)
      sock_connect (server, DNS_PORT) ;;
      buf <- get_pkt_buf ;;
      sock_send buf ;;
      (* wait and retry 3 times for a response *)
      addr <- retry E 3 0 (PInt (-1)) ;;
      sock_close ;;
      ret addr
  end.

(** ** Reference descriptions, after the specification *)

(** The byte with value [v], for [v] in [0, 255]. *)
Definition byte_of (v : Z) : byte :=
  match byte_of_Z v with Some b => b | None => x00 end.

(** The 12-byte header of a query with transaction id [id]: the id most
    significant byte first, flags [0x0100], one question, no other record. *)
Definition spec_header (id : Z) : bytes :=
  [byte_of (id / 256); byte_of (id mod 256);
   x01; x00; x00; x01; x00; x00; x00; x00; x00; x00].

(** The question section for a dot-separated host name: per label its
    length and its bytes, a zero byte, then QTYPE 1 and QCLASS 1. *)
Definition spec_question (hostname : bytes) : bytes :=
  flat_map (fun label => byte_of (Z.of_nat (length label)) :: label)
           (split Byte.eqb x2e hostname)
  ++ [x00] ++ [x00; x01] ++ [x00; x01].

(** The ways a response can fail, as the specification names them. *)
Inductive failure :=
| NoData
| IdMismatch
| UnexpectedFlags
| NoQuestion
| NoAnswer
| MalformedName
| UnexpectedQType
| UnexpectedQClass
| UnexpectedAnswerType
| UnexpectedAnswerClass
| UnexpectedDataLength.

(** The 16-bit field at [off], as transmitted. *)
Definition field16 (buf : bytes) (off : Z) : Z :=
  int_from_bytes (slice buf off (off + 2)) "big".

(** The first check of the specification's parsing algorithm that a
    received buffer fails, if any, for the expected transaction id. *)
Definition spec_first_failure (buf : bytes) (id : Z) : option failure :=
  if negb (field16 buf 0 =? id) then Some IdMismatch
  else if negb (field16 buf 2 =? 0x8180) then Some UnexpectedFlags
  else if field16 buf 4 <? 1 then Some NoQuestion
  else if field16 buf 6 <? 1 then Some NoAnswer
  else match skip_name (S (length buf)) buf 12 1 with
       | Some (Ok ptr) =>
           if negb (field16 buf ptr =? 1) then Some UnexpectedQType
           else if negb (field16 buf (ptr + 2) =? 1) then Some UnexpectedQClass
           else
             let idx := find buf [xc0; x0c] in
             if negb (field16 buf (idx + 2) =? 1)
             then Some UnexpectedAnswerType
             else if negb (field16 buf (idx + 4) =? 1)
             then Some UnexpectedAnswerClass
             else if negb (field16 buf (idx + 10) =? 4)
             then Some UnexpectedDataLength
             else None
       | _ => Some MalformedName
       end.

(** The positions at which the walk over the question name reads a length
    byte: offset 12, and from a position inside the buffer whose byte [b] is
    not zero the position [b + 1] further on. *)
Inductive visits (buf : bytes) : Z -> Prop :=
| visits_start : visits buf 12
| visits_next p b :
    visits buf p ->
    nth_error buf (Z.to_nat p) = Some b ->
    byte_val b <> 0 ->
    visits buf (p + (byte_val b + 1)).

(** ** A runtime for 7-bit host names, and sample traffic *)

Definition is_asciib (b : byte) : bool := (Byte.to_N b <? 128)%N.

Definition byte_of_N (n : N) : byte :=
  match Byte.of_N n with Some b => b | None => x00 end.

Definition ascii_decode (b : bytes) : Res str :=
  if forallb is_asciib b then Ok (map Byte.to_N b) else Raise UnicodeError.

Definition ascii_buffer (s : str) : bytes := map byte_of_N s.

(** A codec that serves 7-bit text and refuses everything else; it shows
    that the assumptions of [TextCodec] can be met, and is the runtime of
    the examples. *)
#[export] Instance ascii_codec : TextCodec.
Proof.
  refine {| decode_utf8 := ascii_decode; str_buffer := ascii_buffer |}.
  - intros b F. unfold ascii_decode.
    replace (forallb is_asciib b) with true; [reflexivity|].
    symmetry. apply forallb_forall. intros x Hx. apply N.ltb_lt.
    rewrite Forall_forall in F. exact (F x Hx).
  - intros b _. unfold ascii_buffer.
    induction b as [|x b IH]; simpl; [reflexivity|].
    unfold byte_of_N at 1. rewrite Byte.of_to_N. now rewrite IH.
Defined.

(** The host name [example.com] and the resolver 8.8.8.8. *)
Definition example_com : bytes :=
  [x65; x78; x61; x6d; x70; x6c; x65; x2e; x63; x6f; x6d].

Definition resolver : bytes := [x08; x08; x08; x08].

(** A newly constructed client, with the clock at 0. *)
Definition fresh (dns_address : option bytes) : State :=
  mkState (__init__ dns_address false) 0 0.

(** A response to the query for [example.com]: header with the given id
    bytes, the question echoed, one A record with address 93.184.216.34. *)
Definition example_question : bytes :=
  [x07; x65; x78; x61; x6d; x70; x6c; x65; x03; x63; x6f; x6d; x00;
   x00; x01; x00; x01].

Definition example_answer : bytes :=
  [xc0; x0c; x00; x01; x00; x01; x00; x00; x00; x3c; x00; x04;
   x5d; xb8; xd8; x22].

Definition example_reply (id : bytes) (ancount : byte) : bytes :=
  id ++ [x81; x80; x00; x01; x00; ancount; x00; x00; x00; x00]
     ++ example_question ++ example_answer.

(** Surroundings in which the random source yields [0xBEEF], [0xBEF0],
    ..., readings a second apart do not differ by more than [1.0],
    and ... *)
Definition sample_entropy (n : nat) : Z := 0xBEEF + Z.of_nat n.

(** ... no datagram ever arrives; *)
Definition silent : Env :=
  mkEnv (fun _ => 0) (fun _ => []) sample_entropy (fun _ => false).

(** ... the datagram [data] is there from the first poll on; *)
Definition prompt (data : bytes) : Env :=
  mkEnv (fun _ => Z.of_nat (length data)) (fun _ => data) sample_entropy
        (fun _ => false).

(** ... the datagram [data] arrives after [n] polls that report nothing. *)
Definition late (n : nat) (data : bytes) : Env :=
  mkEnv (fun k => if (k <? n)%nat then 0 else Z.of_nat (length data))
        (fun _ => data) sample_entropy (fun _ => false).

(** The state in which the call for [example.com] ends when the reply for
    the identifier [0xBEEF] is there at the first poll. *)
Definition example_resolved : State :=
  Eval vm_compute in
    match gethostbyname (prompt (example_reply [xbe; xef] x01)) example_com
                        (fresh (Some resolver)) with
    | Some (_, s) => s
    | None => fresh None
    end.

(** A response cut off behind its 12-byte header, and one whose question
    name announces a label of five bytes and holds two. *)
Definition header_only : bytes :=
  [xbe; xef; x81; x80; x00; x01; x00; x01; x00; x00; x00; x00].

Definition short_label : bytes := header_only ++ [x05; x61; x62].

(** The reply to [example.com] cut off in the middle of the address. *)
Definition cut_reply : bytes :=
  [xbe; xef; x81; x80; x00; x01; x00; x01; x00; x00; x00; x00]
    ++ example_question
    ++ [xc0; x0c; x00; x01; x00; x01; x00; x00; x00; x3c; x00; x04;
        x5d; xb8].

(** A response that passes the checks of header and question and holds no
    answer record, and with it no pair [C0 0C]. *)
Definition no_pointer : bytes := header_only ++ example_question.

(** ** Changes of state, for the statements below *)

(** [s] after one more call of [available]. *)
Definition polled (s : State) : State :=
  let k := _sock (self s) in
  mkState (with_sock (self s)
             (mkSocket (timeout k) (peer k) (is_open k) (sent k)
                       (S (polls k)) (recvs k) (closes k)))
          (clock s) (draws s).

(** [s] after [n] more calls of [available] and [t] more milliseconds. *)
Definition advance (s : State) (n : nat) (t : Z) : State :=
  let k := _sock (self s) in
  mkState (with_sock (self s)
             (mkSocket (timeout k) (peer k) (is_open k) (sent k)
                       (n + polls k) (recvs k) (closes k)))
          (clock s + t) (draws s).

(** [s] after one call of [recv] whose datagram went to the packet
    buffer. *)
Definition received (s : State) (data : bytes) : State :=
  let k := _sock (self s) in
  mkState (with_pkt_buf
             (with_sock (self s)
                (mkSocket (timeout k) (peer k) (is_open k) (sent k)
                          (polls k) (S (recvs k)) (closes k)))
             data)
          (clock s) (draws s).

(** [s] after an attempt in which nothing was there to receive: 23 polls
    and 21 sleeps, or 22 polls and 20 sleeps when the test of the deadline
    comes out true at the second. *)
Definition timed_out (E : Env) (s : State) : State :=
  if tie_at E (clock s) then advance s 22 1000 else advance s 23 1050.

(** What one attempt to receive leaves alone: everything but the clock,
    the poll and receive counters and the packet buffer. *)
Definition same_call (s s' : State) : Prop :=
  let k := _sock (self s) in
  let k' := _sock (self s') in
  timeout k' = timeout k /\ peer k' = peer k /\ is_open k' = is_open k
  /\ sent k' = sent k /\ closes k' = closes k
  /\ _debug (self s') = _debug (self s)
  /\ _dns_server (self s') = _dns_server (self s)
  /\ _host (self s') = _host (self s)
  /\ _request_id (self s') = _request_id (self s)
  /\ draws s' = draws s.

(** The validation of [_parse_dns_response], from the identifier check
    on, as a function of the received buffer and the expected identifier
    (lemma [parse_unfold] relates the two). *)
Definition check_response (buf : bytes) (rid : Z) : option (Res pyval) :=
  if negb (int_from_bytes (slice buf 0 2) "l" =? rid)
  then Some (Ok (PInt (-1))) else
  if negb (int_from_bytes (slice buf 2 4) "l" =? 0x8180)
  then Some (Ok (PInt (-1))) else
  if negb (int_from_bytes (slice buf 4 6) "l" >=? 1)
  then Some (Ok (PInt (-1))) else
  if negb (int_from_bytes (slice buf 6 8) "l" >=? 1)
  then Some (Ok (PInt (-1))) else
  match skip_name (S (length buf)) buf 12 1 with
  | None => None
  | Some (Raise e) => Some (Raise e)
  | Some (Ok ptr) =>
      if negb (int_from_bytes (slice buf ptr (ptr + 2)) "l" =? TYPE_A)
      then Some (Ok (PInt (-1))) else
      if negb (int_from_bytes (slice buf (ptr + 2) (ptr + 2 + 2)) "l" =? TYPE_A)
      then Some (Ok (PInt (-1))) else
      let idx := find buf [xc0; x0c] in
      if negb (int_from_bytes (slice buf (idx + 2) (idx + 4)) "l" =? TYPE_A)
      then Some (Ok (PInt (-1))) else
      if negb (int_from_bytes (slice buf (idx + 4) (idx + 6)) "l" =? CLASS_IN)
      then Some (Ok (PInt (-1))) else
      if negb (int_from_bytes (slice buf (idx + 10) (idx + 12)) "l" =? DATA_LEN)
      then Some (Ok (PInt (-1))) else
      Some (Ok (PBytes (slice buf (idx + 12) (idx + 16))))
  end.

(** [s] with the packet buffer replaced. *)
Definition upd_buf (s : State) (b : bytes) : State :=
  mkState (with_pkt_buf (self s) b) (clock s) (draws s).

(** [s] at the entry of the retry loop of [gethostbyname]: host and request
    identifier stored, one random draw taken, the packet [pkt] built, the
    socket connected to [server] and the packet sent. *)
Definition dispatched (s : State) (server hostname : bytes) (rid : Z)
  (pkt : bytes) : State :=
  let k := _sock (self s) in
  mkState
    (mkDNS (_debug (self s))
           (mkSocket (timeout k) (Some (server, DNS_PORT)) true
                     (sent k ++ [pkt]) (polls k) (recvs k) (closes k))
           (_dns_server (self s)) hostname rid pkt)
    (clock s) (S (draws s)).

(** [s] after [close]. *)
Definition closed (s : State) : State :=
  let k := _sock (self s) in
  mkState (with_sock (self s)
             (mkSocket (timeout k) (peer k) false (sent k) (polls k)
                       (recvs k) (S (closes k))))
          (clock s) (draws s).

(** The end of [gethostbyname] after the retry loop: close, then return. *)
Definition finish (o : option (Res pyval * State))
  : option (Res pyval * State) :=
  match o with
  | Some (Ok addr, s) => Some (Ok addr, closed s)
  | other => other
  end.

(** The request identifier the next call of [getrandbits(16)] yields. *)
Definition next_id (E : Env) (s : State) : Z :=
  Z.land (entropy_at E (draws s)) (Z.ones 16).

(** ** Well-formed names and replies *)

(** A label as the wire format takes it: 1 to 63 bytes of 7-bit text. *)
Definition plain_label (l : bytes) : Prop :=
  (1 <= length l <= 63)%nat /\ Forall is_ascii l.

(** The header of a response to the query with identifier [id]: the
    identifier, flags [0x8180], one question, one answer, nothing else. *)
Definition reply_header (id : Z) : bytes :=
  [byte_of (id / 256); byte_of (id mod 256);
   x81; x80; x00; x01; x00; x01; x00; x00; x00; x00].

(** A response as a resolver sends it: header, the question echoed, one A
    record whose name is the pointer [C0 0C], with TTL [ttl] and address
    [addr], and whatever follows. *)
Definition valid_reply (id : Z) (hostname ttl addr rest : bytes) : bytes :=
  reply_header id ++ spec_question hostname
    ++ [xc0; x0c; x00; x01; x00; x01] ++ ttl ++ [x00; x04] ++ addr ++ rest.

(** ** More sample traffic *)

(** Surroundings in which every random draw yields [id] and the datagram
    [data] is there at every poll. *)
Definition fixed_id (id : Z) (data : bytes) : Env :=
  mkEnv (fun _ => Z.of_nat (length data)) (fun _ => data) (fun _ => id)
        (fun _ => false).

(** ** What a call may use up *)

(** [s'] comes from [s] within one call by at most [p] polls, [r]
    receptions and [t] milliseconds. *)
Definition within (p r : nat) (t : Z) (s s' : State) : Prop :=
  same_call s s'
  /\ (polls (_sock (self s)) <= polls (_sock (self s'))
      <= p + polls (_sock (self s)))%nat
  /\ (recvs (_sock (self s)) <= recvs (_sock (self s'))
      <= r + recvs (_sock (self s)))%nat
  /\ clock s <= clock s' <= clock s + t.

(** The state in which the call for [example.com] ends when the datagram
    received is cut off behind its header. *)
Definition example_failed : State :=
  Eval vm_compute in
    match gethostbyname (prompt header_only) example_com
                        (fresh (Some resolver)) with
    | Some (_, s) => s
    | None => fresh None
    end.

(** The wire form of a list of labels: each label behind its length. *)
Definition wire_name (labels : list bytes) : bytes :=
  flat_map (fun label => byte_of (Z.of_nat (length label)) :: label) labels.

(** [s] with [hostname] stored as the host to look up. *)
Definition hosting (s : State) (hostname : bytes) : State :=
  mkState (with_host (self s) hostname) (clock s) (draws s).

(** A response to the query for [example.com] whose first record is a
    CNAME and whose second record is the A record: what follows the
    pointer [C0 0C] of the first record, and the whole response. *)
Definition cname_records : bytes :=
  [x00; x05; x00; x01; x00; x00; x00; x3c; x00; x02; xc0; x10;
   xc0; x29; x00; x01; x00; x01; x00; x00; x00; x3c; x00; x04;
   x5d; xb8; xd8; x22].

Definition cname_reply : bytes :=
  reply_header 0xBEEF ++ spec_question example_com
    ++ [xc0; x0c] ++ cname_records.

(** * The NTP helper of [adafruit_wiznet5k_ntp.py]

    The class [NTP] owns a datagram socket and a fixed request packet; the
    method [get_time] sends the packet and reads until a datagram arrives,
    whose bytes 40 to 43 it takes for the seconds since 1900.

    - [recv] answers from the script [Env] as for the resolver; only
      [recv_at] is used.
    - The offset [utc] is a whole number of hours, an [int]; fractional
      offsets bring in the floating point arithmetic of the runtime and are
      not covered.
    - [time.localtime] belongs to the runtime.  The method ends with
      whatever [localtime] makes of the seconds handed to it, a time or an
      exception (on some boards it turns down a time before the year
      2000), and the embedding is parameterised by it: [struct_time]
      stands for that outcome.
    - The loop [while True] has fuel; a run that outlasts every fuel is one
      that does not end. *)
Module Ntp.

(** The datagram socket as the helper drives it: the address given to
    [bind], the datagrams handed to [sendto] with their destinations,
    oldest first, and the number of calls of [recv]. *)
Record Socket := mkSocket {
  timeout : Z;
  bound : option (option str * Z);
  sent_to : list (bytes * (str * Z));
  recvs : nat
}.

(** The attributes of an [NTP] object ([_iface] is only passed on to the
    socket module). *)
Record NTP := mkNTP {
  _debug : bool;
  _sock : Socket;
  _utc : Z;
  _ntp_server : str;
  _host : Z;
  _request_id : Z;
  _pkt_buf_ : bytes
}.

Definition with_sock (d : NTP) (k : Socket) : NTP :=
  mkNTP (_debug d) k (_utc d) (_ntp_server d) (_host d) (_request_id d)
        (_pkt_buf_ d).

(** [NTP.__init__(iface, ntp_address, utc, debug)] *)
Definition __init__ (ntp_address : str) (utc : Z) (debug : bool) : NTP :=
  mkNTP debug (mkSocket 1 None [] 0) utc ntp_address 0 0
        ([x23] ++ repeat x00 55).

Definition sock_bind (address : option str * Z) (d : NTP) : NTP :=
  let k := _sock d in
  with_sock d (mkSocket (timeout k) (Some address) (sent_to k) (recvs k)).

Definition sock_sendto (data : bytes) (address : str * Z) (d : NTP) : NTP :=
  let k := _sock d in
  with_sock d (mkSocket (timeout k) (bound k) (sent_to k ++ [(data, address)])
                        (recvs k)).

Definition sock_recv (E : Env) (d : NTP) : bytes * NTP :=
  let k := _sock d in
  (recv_at E (recvs k),
   with_sock d (mkSocket (timeout k) (bound k) (sent_to k) (S (recvs k)))).

(** The truth value of a byte string: it is not empty. *)
Definition truthy (data : bytes) : bool :=
  match data with [] => false | _ :: _ => true end.

(** Seconds between 1900-01-01 and 1970-01-01. *)
Definition NTP_TO_UNIX_EPOCH : Z := 2208988800.

Section GetTime.
Variable struct_time : Type.
Variable localtime : Z -> struct_time.

(** The loop of [get_time]: [while True: data = recv(); if data: ...]. *)
Fixpoint read_time (E : Env) (fuel : nat) (d : NTP)
  : option (struct_time * NTP) :=
  match fuel with
  | O => None
  | S fuel' =>
      let (data, d) := sock_recv E d in
      if truthy data then
        let sec := slice data 40 44 in
        let int_cal := int_from_bytes sec "big" in
        (* the offset is an int; int() leaves the sum as it is *)
        let cal := int_cal - NTP_TO_UNIX_EPOCH + _utc d * 3600 in
        let cal := localtime cal in
        Some (cal, d)
      else read_time E fuel' d
  end.

(** [NTP.get_time] *)
Definition get_time (E : Env) (fuel : nat) (d : NTP)
  : option (struct_time * NTP) :=
  let d := sock_bind (None, 50001) d in
  let d := sock_sendto (_pkt_buf_ d) (_ntp_server d, 123) d in
  read_time E fuel d.

End GetTime.

(** The four bytes of a 32-bit count of seconds, most significant first. *)
Definition seconds_field (n : Z) : bytes :=
  [byte_of (n / 16777216); byte_of (n / 65536 mod 256);
   byte_of (n / 256 mod 256); byte_of (n mod 256)].

(** [d] after a call of [get_time] that read [n] times. *)
Definition called (d : NTP) (n : nat) : NTP :=
  let k := _sock d in
  with_sock d
    (mkSocket (timeout k) (Some (None, 50001))
              (sent_to k ++ [(_pkt_buf_ d, (_ntp_server d, 123))])
              (n + recvs k)).

End Ntp.

(** Sample traffic for the NTP helper: a server name, and surroundings in
    which the datagram [data] is read after [n] empty reads. *)
Definition ntp_pool : str := [112; 111; 111; 108]%N.

Definition ntp_late (n : nat) (data : bytes) : Env :=
  mkEnv (fun _ => 0) (fun k => if (k <? n)%nat then [] else data)
        (fun _ => 0) (fun _ => false).

(** * Properties *)

(** ** Bytes and integers *)

Lemma byte_val_range b : 0 <= byte_val b < 256.
Proof.
  unfold byte_val. pose proof (Byte.to_N_bounded b). lia.
Qed.

Lemma byte_of_Z_val v b : byte_of_Z v = Some b -> byte_val b = v.
Proof.
  unfold byte_of_Z, byte_val.
  destruct (0 <=? v) eqn:E; [|discriminate].
  intros H. apply Byte.to_of_N in H. rewrite H.
  apply Z.leb_le in E. now rewrite Z2N.id.
Qed.

Lemma byte_of_Z_some v : 0 <= v < 256 -> byte_of_Z v = Some (byte_of v).
Proof.
  intros Hv. unfold byte_of.
  destruct (byte_of_Z v) eqn:E; [reflexivity|].
  exfalso. unfold byte_of_Z in E.
  replace (0 <=? v) with true in E by (symmetry; apply Z.leb_le; lia).
  apply Byte.of_N_None_iff in E. lia.
Qed.

Lemma byte_of_Z_byte_val b : byte_of_Z (byte_val b) = Some b.
Proof.
  unfold byte_of_Z, byte_val.
  replace (0 <=? Z.of_N (Byte.to_N b)) with true
    by (symmetry; apply Z.leb_le; lia).
  rewrite N2Z.id. apply Byte.of_to_N.
Qed.

Lemma byte_of_byte_val b : byte_of (byte_val b) = b.
Proof. unfold byte_of. now rewrite byte_of_Z_byte_val. Qed.

Lemma byte_val_byte_of v : 0 <= v < 256 -> byte_val (byte_of v) = v.
Proof.
  intros Hv. apply byte_of_Z_val. now apply byte_of_Z_some.
Qed.

Lemma byte_val_inj a b : byte_val a = byte_val b -> a = b.
Proof.
  intros H. rewrite <- (byte_of_byte_val a), <- (byte_of_byte_val b).
  now rewrite H.
Qed.

Lemma append_ok buf v :
  0 <= v < 256 -> append buf v = Ok (buf ++ [byte_of v]).
Proof.
  intros Hv. unfold append. now rewrite byte_of_Z_some.
Qed.

(** Two bytes read most significant first. *)
Lemma int_from_bytes_two a b :
  int_from_bytes [a; b] "l" = 256 * byte_val a + byte_val b.
Proof. unfold int_from_bytes. simpl. lia. Qed.

Lemma int_from_bytes_one a : int_from_bytes [a] "l" = byte_val a.
Proof. unfold int_from_bytes. simpl. lia. Qed.

Lemma int_from_bytes_nil : int_from_bytes [] "l" = 0.
Proof. reflexivity. Qed.

Lemma int_from_bytes_l_big b : int_from_bytes b "l" = int_from_bytes b "big".
Proof. reflexivity. Qed.

(** ** Slices *)

Lemma slice_nonneg b i j :
  0 <= i ->
  slice b i j =
  firstn (Z.to_nat (Z.min j (Z.of_nat (length b)) - Z.min i (Z.of_nat (length b))))
         (skipn (Z.to_nat (Z.min i (Z.of_nat (length b)))) b)
  \/ j < 0.
Proof.
  intros Hi. destruct (Z.ltb_spec j 0) as [Hj|Hj]; [now right|left].
  unfold slice, clamp.
  destruct (Z.ltb_spec i 0); [lia|].
  destruct (Z.ltb_spec j 0); [lia|]. reflexivity.
Qed.

Lemma slice_length_le b i j : 0 <= i -> i <= j ->
  Z.of_nat (length (slice b i j)) <= j - i.
Proof.
  intros Hi Hij.
  destruct (slice_nonneg b i j Hi) as [E|E]; [|lia].
  rewrite E, length_firstn, length_skipn.
  destruct (Z.min_spec j (Z.of_nat (length b))) as [[? ->]|[? ->]];
    destruct (Z.min_spec i (Z.of_nat (length b))) as [[? ->]|[? ->]]; lia.
Qed.

Lemma slice_length_in b i j :
  0 <= i -> i <= j -> j <= Z.of_nat (length b) ->
  Z.of_nat (length (slice b i j)) = j - i.
Proof.
  intros Hi Hij Hj.
  destruct (slice_nonneg b i j Hi) as [E|E]; [|lia].
  rewrite E, length_firstn, length_skipn.
  rewrite !Z.min_l by lia. lia.
Qed.

(** The first two bytes of a buffer. *)
Lemma slice_0_2 b : slice b 0 2 = firstn 2 b.
Proof.
  destruct b as [|x [|y b]]; try reflexivity.
  unfold slice, clamp. simpl (0 <? 0). simpl (2 <? 0). cbv iota.
  replace (Z.min 0 (Z.of_nat (length (x :: y :: b)))) with 0
    by (simpl length; lia).
  replace (Z.min 2 (Z.of_nat (length (x :: y :: b)))) with 2
    by (simpl length; lia).
  reflexivity.
Qed.

(** ** States *)

Lemma polled_advance s : polled s = advance s 1 0.
Proof.
  unfold polled, advance. simpl. now rewrite Z.add_0_r.
Qed.

Lemma advance_0 s : advance s 0 0 = s.
Proof.
  destruct s as [[dbg [to pe op se po re cl] srv h rid buf] clk dr].
  unfold advance. simpl. now rewrite Z.add_0_r.
Qed.

Lemma advance_advance s n t m u :
  advance (advance s n t) m u = advance s (n + m) (t + u).
Proof.
  unfold advance. simpl. f_equal; [|lia]. unfold with_sock. simpl.
  do 2 f_equal. lia.
Qed.

Lemma same_call_refl s : same_call s s.
Proof. unfold same_call. intuition. Qed.

Lemma same_call_trans s1 s2 s3 :
  same_call s1 s2 -> same_call s2 s3 -> same_call s1 s3.
Proof.
  unfold same_call. intros H1 H2.
  repeat match goal with H : _ /\ _ |- _ => destruct H end.
  repeat split; congruence.
Qed.

Lemma same_call_advance s n t : same_call s (advance s n t).
Proof. unfold same_call, advance. simpl. intuition. Qed.

Lemma same_call_received s data : same_call s (received s data).
Proof. unfold same_call, received. simpl. intuition. Qed.

(** ** The walk over the question name *)

Lemma getitem_ok buf i b :
  0 <= i -> getitem buf i = Ok b ->
  i < Z.of_nat (length buf) /\ nth_error buf (Z.to_nat i) = Some b.
Proof.
  intros Hi. unfold getitem.
  destruct (Z.ltb_spec i 0); [lia|].
  destruct (Z.leb_spec 0 i); [|lia].
  destruct (Z.ltb_spec i (Z.of_nat (length buf))); simpl; [|discriminate].
  destruct (nth_error buf (Z.to_nat i)) eqn:E; [|discriminate].
  intros [= ->]. auto.
Qed.

Lemma getitem_raise buf i e :
  0 <= i -> getitem buf i = Raise e ->
  e = IndexError /\ Z.of_nat (length buf) <= i.
Proof.
  intros Hi. unfold getitem.
  destruct (Z.ltb_spec i 0); [lia|].
  destruct (Z.leb_spec 0 i); [|lia].
  destruct (Z.ltb_spec i (Z.of_nat (length buf))); simpl.
  - destruct (nth_error buf (Z.to_nat i)) eqn:E; [discriminate|].
    apply nth_error_None in E. lia.
  - intros [= <-]. auto.
Qed.

(** The walk always comes to an end: it finds a zero byte or runs into
    the end of the buffer before its fuel is used up. *)
Lemma skip_name_total fuel : forall buf ptr name_len,
  0 <= ptr -> (1 <= fuel)%nat ->
  Z.of_nat (length buf) - ptr < Z.of_nat fuel ->
  exists r, skip_name fuel buf ptr name_len = Some r.
Proof.
  induction fuel as [|fuel IH]; intros buf ptr name_len Hp Hf Hlen; [lia|].
  simpl. destruct (name_len >? 0); [|eauto].
  destruct (getitem buf ptr) as [b|e] eqn:G; [|eauto].
  destruct (getitem_ok _ _ _ Hp G) as [Hlt _].
  pose proof (byte_val_range b).
  destruct (byte_val b =? 0); [eauto|].
  apply IH; lia.
Qed.

(** What the walk yields: a position just behind a zero byte that lies
    inside the buffer, or [IndexError] once it stands at or behind the
    end. *)
Lemma skip_name_result fuel : forall buf ptr name_len r,
  0 <= ptr ->
  skip_name fuel buf ptr name_len = Some r ->
  0 < name_len ->
  match r with
  | Ok p => ptr < p <= Z.of_nat (length buf)
            /\ nth_error buf (Z.to_nat (p - 1)) = Some x00
  | Raise e => e = IndexError
  end.
Proof.
  induction fuel as [|fuel IH]; intros buf ptr name_len r Hp H Hn; simpl in H.
  - destruct (Z.gtb_spec name_len 0); [discriminate|lia].
  - destruct (Z.gtb_spec name_len 0); [|lia].
    destruct (getitem buf ptr) as [b|e] eqn:G.
    + destruct (getitem_ok _ _ _ Hp G) as [Hlt Hnth].
      pose proof (byte_val_range b).
      destruct (Z.eqb_spec (byte_val b) 0) as [Hz|Hz].
      * injection H as <-. split; [lia|].
        replace (ptr + 1 - 1) with ptr by lia. rewrite Hnth. f_equal.
        apply byte_val_inj. now rewrite Hz.
      * apply IH in H; [|lia|lia].
        destruct r; [|assumption]. intuition lia.
    + injection H as <-. now destruct (getitem_raise _ _ _ Hp G).
Qed.

(** ** The polling loop *)

Lemma wait_ready E fuel start packet_sz s :
  0 < packet_sz ->
  wait_for_packet E fuel start packet_sz s = Some (Ok false, s).
Proof.
  intros H. destruct fuel; simpl;
    (destruct (Z.leb_spec packet_sz 0); [lia|reflexivity]).
Qed.

(** The test of the deadline follows the milliseconds off the second. *)
Lemma deadline_early E start now :
  now - start < 1000 -> deadline_passed E start now = false.
Proof.
  intros H. unfold deadline_passed.
  destruct (Z.gtb_spec (now - start) 1000); [lia|].
  destruct (Z.eqb_spec (now - start) 1000); [lia|reflexivity].
Qed.

Lemma deadline_late E start now :
  1000 < now - start -> deadline_passed E start now = true.
Proof.
  intros H. unfold deadline_passed.
  destruct (Z.gtb_spec (now - start) 1000); [reflexivity|lia].
Qed.

Lemma deadline_tie E start now :
  now - start = 1000 -> deadline_passed E start now = tie_at E start.
Proof.
  intros H. unfold deadline_passed. rewrite H. reflexivity.
Qed.

Lemma deadline_not_passed E start now :
  deadline_passed E start now = false -> now - start <= 1000.
Proof.
  intros H. destruct (Z.le_gt_cases (now - start) 1000) as [Hle|Hgt];
    [assumption|].
  rewrite deadline_late in H by lia. discriminate H.
Qed.

Lemma wait_step E fuel start packet_sz s :
  packet_sz <= 0 ->
  wait_for_packet E (S fuel) start packet_sz s =
  if deadline_passed E start (clock s) then Some (Ok true, polled s)
  else wait_for_packet E fuel start
         (available_at E (polls (_sock (self s)))) (advance s 1 50).
Proof.
  intros H. simpl. destruct (Z.leb_spec packet_sz 0); [|lia].
  unfold bind, sock_available, sock_update, get_self, put_self, ret,
    monotonic, sleep. simpl.
  destruct (deadline_passed E start (clock s)); reflexivity.
Qed.

(** The loop ends within its fuel, never raises, and only polls and
    lets time pass. *)
Lemma wait_total E fuel : forall start packet_sz s,
  (1 <= fuel)%nat ->
  1050 - (clock s - start) < 50 * Z.of_nat fuel ->
  exists b n t,
    wait_for_packet E fuel start packet_sz s = Some (Ok b, advance s n t).
Proof.
  induction fuel as [|fuel IH]; intros start packet_sz s Hf Hc; [lia|].
  destruct (Z.leb_spec packet_sz 0) as [Hz|Hz].
  - rewrite wait_step by assumption.
    destruct (deadline_passed E start (clock s)) eqn:Hd.
    + exists true, 1%nat, 0. now rewrite polled_advance.
    + apply deadline_not_passed in Hd.
      destruct (IH start (available_at E (polls (_sock (self s))))
                   (advance s 1 50)) as (b & n & t & Hw).
      * lia.
      * change (clock (advance s 1 50)) with (clock s + 50). lia.
      * exists b, (1 + n)%nat, (50 + t).
        now rewrite Hw, advance_advance.
  - exists false, 0%nat, 0. rewrite advance_0. now apply wait_ready.
Qed.

(** With nothing to receive the loop gives up once more than a second has
    passed, or at the second when the float difference comes out above
    [1.0]: [m] rounds before the deadline is exceeded take [m] polls and
    [m - 1] sleeps, or one less of each. *)
Lemma wait_quiet E m : forall fuel start packet_sz s,
  (2 <= m)%nat -> (m <= fuel)%nat ->
  packet_sz <= 0 ->
  clock s - start = 50 * (22 - Z.of_nat m) ->
  (forall k, (k < m - 1)%nat ->
             available_at E (k + polls (_sock (self s))) <= 0) ->
  wait_for_packet E fuel start packet_sz s
  = Some (Ok true,
          if tie_at E start
          then advance s (m - 1) (50 * (Z.of_nat m - 2))
          else advance s m (50 * (Z.of_nat m - 1))).
Proof.
  induction m as [|m IH]; intros fuel start packet_sz s Hm Hf Hz Hc Hq; [lia|].
  destruct fuel as [|fuel]; [lia|].
  rewrite wait_step by assumption.
  destruct (Nat.eq_dec m 1) as [->|Hm1].
  - rewrite deadline_tie by (rewrite Hc; reflexivity).
    destruct (tie_at E start).
    + now rewrite polled_advance.
    + destruct fuel as [|fuel]; [lia|].
      rewrite wait_step by (apply (Hq 0%nat); lia).
      rewrite deadline_late
        by (change (clock (advance s 1 50)) with (clock s + 50); lia).
      now rewrite polled_advance, advance_advance.
  - rewrite deadline_early by lia.
    rewrite (IH fuel start _ (advance s 1 50)).
    + rewrite !advance_advance.
      destruct (tie_at E start); do 2 f_equal.
      * replace (1 + (m - 1))%nat with (S m - 1)%nat by lia.
        f_equal. lia.
      * f_equal. lia.
    + lia.
    + lia.
    + apply (Hq 0%nat). lia.
    + change (clock (advance s 1 50)) with (clock s + 50). lia.
    + intros k Hk.
      change (polls (_sock (self (advance s 1 50))))
        with (S (polls (_sock (self s)))).
      replace (k + S (polls (_sock (self s))))%nat
        with (S k + polls (_sock (self s)))%nat by lia.
      apply Hq. lia.
Qed.

(** ** One attempt to receive *)

(** [_parse_dns_response] is the polling loop followed, when a datagram is
    there, by [recv] and the validation [check_response]. *)
Lemma parse_unfold E s :
  _parse_dns_response E s =
  match wait_for_packet E wait_fuel (clock s)
          (available_at E (polls (_sock (self s)))) (polled s) with
  | Some (Ok true, s1) => Some (Ok (PInt (-1)), s1)
  | Some (Ok false, s1) =>
      let data := recv_at E (recvs (_sock (self s1))) in
      match check_response data (_request_id (self s1)) with
      | Some r => Some (r, received s1 data)
      | None => None
      end
  | Some (Raise e, s1) => Some (Raise e, s1)
  | None => None
  end.
Proof.
  cbv beta iota zeta delta
    [_parse_dns_response bind monotonic sock_available sock_recv sock_update
     set_pkt_buf get_self put_self ret lift_fuel polled received
     check_response self clock draws _sock polls recvs _pkt_buf _request_id
     with_pkt_buf with_sock].
  match goal with
  | |- context [wait_for_packet ?a ?b ?c ?d ?e] =>
      destruct (wait_for_packet a b c d e) as [[[[|]|e'] s1]|]
  end; try reflexivity.
  destruct s1 as [[dbg [to pe op se po re cl] srv h rid buf] clk dr].
  cbv beta iota.
  repeat match goal with
         | |- context [if negb ?c then _ else _] =>
             destruct c; cbn [negb]; try reflexivity
         end.
  all: match goal with
       | |- context [skip_name ?a ?b ?c ?d] =>
           destruct (skip_name a b c d) as [[ptr|e']|]
       end; try reflexivity.
  all: repeat match goal with
         | |- context [if negb ?c then _ else _] =>
             destruct c; cbn [negb]; try reflexivity
         end.
Qed.

(** ** Sequencing *)

Lemma bind_ok {A B} (m : M A) (k : A -> M B) s a s' :
  m s = Some (Ok a, s') -> bind m k s = k a s'.
Proof. intros H. unfold bind. now rewrite H. Qed.

Lemma bind_raise {A B} (m : M A) (k : A -> M B) s e s' :
  m s = Some (Raise e, s') -> bind m k s = Some (Raise e, s').
Proof. intros H. unfold bind. now rewrite H. Qed.

Lemma upd_buf_same s : upd_buf s (_pkt_buf (self s)) = s.
Proof.
  now destruct s as [[dbg k srv h rid buf] clk dr].
Qed.

Lemma upd_buf_upd_buf s a b : upd_buf (upd_buf s a) b = upd_buf s b.
Proof. reflexivity. Qed.

Lemma pkt_buf_upd_buf s b : _pkt_buf (self (upd_buf s b)) = b.
Proof. reflexivity. Qed.

Lemma pkt_append_run v s :
  0 <= v < 256 ->
  pkt_append v s
  = Some (Ok tt, upd_buf s (_pkt_buf (self s) ++ [byte_of v])).
Proof.
  intros Hv. unfold pkt_append, get_pkt_buf, set_pkt_buf, bind, get_self,
    put_self, ret, lift. cbn [self clock draws].
  now rewrite append_ok.
Qed.

Lemma pkt_append_cases v s :
  pkt_append v s
  = Some (Ok tt, upd_buf s (_pkt_buf (self s) ++ [byte_of v]))
  \/ pkt_append v s = Some (Raise ValueError, s).
Proof.
  unfold pkt_append, get_pkt_buf, set_pkt_buf, bind, get_self, put_self, ret,
    lift, append, byte_of. cbn [self clock draws].
  destruct (byte_of_Z v); auto.
Qed.

Lemma pkt_extend_run data s :
  pkt_extend data s = Some (Ok tt, upd_buf s (_pkt_buf (self s) ++ data)).
Proof. reflexivity. Qed.

(** ** Building the query *)

Lemma next_id_range E s : 0 <= next_id E s < 65536.
Proof.
  unfold next_id. rewrite Z.land_ones by lia.
  change (2 ^ 16) with 65536. apply Z.mod_pos_bound. lia.
Qed.

(** [_build_dns_header] draws the identifier, stores it and appends the
    twelve header bytes. *)
Lemma build_header_run E s :
  _build_dns_header E s =
  Some (Ok tt,
        mkState (with_pkt_buf (with_request_id (self s) (next_id E s))
                   (_pkt_buf (self s) ++ spec_header (next_id E s)))
                (clock s) (S (draws s))).
Proof.
  pose proof (next_id_range E s) as Hr.
  unfold _build_dns_header.
  erewrite bind_ok by reflexivity. fold (next_id E s).
  erewrite bind_ok by reflexivity.
  erewrite bind_ok
    by (apply pkt_append_run; rewrite Z.shiftr_div_pow2 by lia;
        change (2 ^ 8) with 256; split;
        [apply Z.div_pos; lia | apply Z.div_lt_upper_bound; lia]).
  erewrite bind_ok
    by (apply pkt_append_run; change 255 with (Z.ones 8);
        rewrite Z.land_ones by lia; apply Z.mod_pos_bound; lia).
  do 9 (erewrite bind_ok by (apply pkt_append_run; lia)).
  rewrite pkt_append_run by lia.
  rewrite !upd_buf_upd_buf. rewrite !pkt_buf_upd_buf.
  unfold upd_buf. cbn [self clock draws _pkt_buf with_pkt_buf
                       with_request_id _debug _sock _dns_server _host
                       _request_id].
  rewrite <- !app_assoc. cbn [app].
  rewrite Z.shiftr_div_pow2 by lia. change (2 ^ 8) with 256.
  change 255 with (Z.ones 8). rewrite Z.land_ones by lia.
  reflexivity.
Qed.

(** *** Labels *)

Lemma split_map {A B} (f : A -> B) eqA eqB sep l :
  (forall a, eqB (f a) (f sep) = eqA a sep) ->
  split eqB (f sep) (map f l) = map (map f) (split eqA sep l).
Proof.
  intros Hf. induction l as [|c l IH]; [reflexivity|].
  simpl. rewrite Hf, IH.
  destruct (eqA c sep); [reflexivity|].
  now destruct (split eqA sep l).
Qed.

Lemma split_Forall {A} (P : A -> Prop) eqb sep l :
  Forall P l -> Forall (Forall P) (split eqb sep l).
Proof.
  induction 1 as [|c l Hc Hl IH]; simpl.
  - repeat constructor.
  - destruct (eqb c sep); [constructor; auto|].
    destruct (split eqb sep l) as [|w ws].
    + repeat constructor; assumption.
    + inversion IH; subst. constructor; [constructor|]; assumption.
Qed.

Lemma dot_code_point c : N.eqb (Byte.to_N c) (Byte.to_N x2e) = Byte.eqb c x2e.
Proof.
  destruct (Byte.eqb c x2e) eqn:E.
  - apply Byte.byte_dec_bl in E. subst. reflexivity.
  - apply N.eqb_neq. intros H. apply Byte.eqb_false in E. apply E.
    apply (f_equal Byte.of_N) in H. rewrite !Byte.of_to_N in H.
    now injection H.
Qed.

(** *** The question *)

Section Question.
Context `{TextCodec}.

(** Whatever the host name, the loop over its sections only appends. *)
Lemma write_sections_appends host : forall s r s',
  write_sections host s = Some (r, s') ->
  exists q, s' = upd_buf s (_pkt_buf (self s) ++ q).
Proof.
  induction host as [|section rest IH]; intros s r s' Hw; simpl in Hw.
  - injection Hw as <- <-. exists []. now rewrite app_nil_r, upd_buf_same.
  - destruct (pkt_append_cases (Z.of_nat (length section)) s) as [E|E].
    + rewrite (bind_ok _ _ _ _ _ E) in Hw.
      rewrite (bind_ok _ _ _ _ _ (pkt_extend_run _ _)) in Hw.
      apply IH in Hw. destruct Hw as [q ->].
      rewrite !pkt_buf_upd_buf, !upd_buf_upd_buf, <- !app_assoc.
      eauto.
    + rewrite (bind_raise _ _ _ _ _ E) in Hw. injection Hw as <- <-.
      exists []. now rewrite app_nil_r, upd_buf_same.
Qed.

(** On 7-bit labels of at most 255 bytes the loop appends, per label, its
    length and its bytes. *)
Lemma write_sections_ascii labels : forall s,
  Forall (Forall is_ascii) labels ->
  Forall (fun l : bytes => (length l <= 255)%nat) labels ->
  write_sections (map (map Byte.to_N) labels) s =
  Some (Ok tt,
        upd_buf s (_pkt_buf (self s)
                   ++ flat_map (fun l => byte_of (Z.of_nat (length l)) :: l)
                               labels)).
Proof.
  induction labels as [|l labels IH]; intros s Ha Hl; simpl.
  - now rewrite app_nil_r, upd_buf_same.
  - inversion Ha as [|? ? Ha1 Ha2]; inversion Hl as [|? ? Hl1 Hl2]; subst.
    rewrite length_map.
    erewrite bind_ok by (apply pkt_append_run; lia).
    erewrite bind_ok by apply pkt_extend_run.
    rewrite IH by assumption.
    rewrite str_buffer_ascii by assumption.
    rewrite !pkt_buf_upd_buf, !upd_buf_upd_buf, <- !app_assoc.
    reflexivity.
Qed.

(** The five bytes that close the question. *)
Lemma question_tail_run s :
  (pkt_append 0x00 ;;
   pkt_append (Z.land (htons TYPE_A) 0xFF) ;;
   pkt_append (Z.shiftr (htons TYPE_A) 8) ;;
   pkt_append (Z.land (htons CLASS_IN) 0xFF) ;;
   pkt_append (Z.shiftr (htons CLASS_IN) 8)) s
  = Some (Ok tt,
          upd_buf s (_pkt_buf (self s) ++ [x00; x00; x01; x00; x01])).
Proof.
  do 4 (erewrite bind_ok by (apply pkt_append_run; vm_compute; intuition discriminate)).
  rewrite pkt_append_run by (vm_compute; intuition discriminate).
  rewrite !pkt_buf_upd_buf, !upd_buf_upd_buf, <- !app_assoc.
  reflexivity.
Qed.

(** [_build_dns_question] only appends to the packet buffer, whether it
    completes or raises. *)
Lemma build_question_appends s r s' :
  _build_dns_question s = Some (r, s') ->
  exists q, s' = upd_buf s (_pkt_buf (self s) ++ q).
Proof.
  unfold _build_dns_question. intros Hq.
  erewrite bind_ok in Hq by reflexivity.
  destruct (decode_utf8 (_host (self s))) as [host|e] eqn:D.
  - erewrite bind_ok in Hq by reflexivity.
    destruct (write_sections (split N.eqb 46%N host) s)
      as [[[[]|e] s1]|] eqn:W.
    + rewrite (bind_ok _ _ _ _ _ W) in Hq.
      rewrite question_tail_run in Hq. injection Hq as <- <-.
      apply write_sections_appends in W. destruct W as [q ->].
      rewrite pkt_buf_upd_buf, upd_buf_upd_buf, <- app_assoc. eauto.
    + rewrite (bind_raise _ _ _ _ _ W) in Hq. injection Hq as <- <-.
      now apply write_sections_appends in W.
    + unfold bind in Hq. rewrite W in Hq. discriminate.
  - erewrite bind_raise in Hq by reflexivity.
    injection Hq as <- <-. exists []. now rewrite app_nil_r, upd_buf_same.
Qed.

(** For a 7-bit host name whose labels have at most 255 bytes it appends
    exactly the question section. *)
Lemma build_question_ascii s :
  Forall is_ascii (_host (self s)) ->
  Forall (fun l : bytes => (length l <= 255)%nat)
         (split Byte.eqb x2e (_host (self s))) ->
  _build_dns_question s =
  Some (Ok tt,
        upd_buf s (_pkt_buf (self s) ++ spec_question (_host (self s)))).
Proof.
  intros Ha Hl. unfold _build_dns_question.
  erewrite bind_ok by reflexivity.
  erewrite bind_ok by (unfold lift; now rewrite decode_utf8_ascii).
  change 46%N with (Byte.to_N x2e).
  rewrite (split_map Byte.to_N Byte.eqb N.eqb) by apply dot_code_point.
  erewrite bind_ok
    by (apply write_sections_ascii; [now apply split_Forall|assumption]).
  rewrite question_tail_run.
  rewrite pkt_buf_upd_buf, upd_buf_upd_buf, <- app_assoc.
  reflexivity.
Qed.

End Question.

(** ** Validation of a received buffer *)

Lemma check_response_total buf rid : exists r, check_response buf rid = Some r.
Proof.
  unfold check_response.
  repeat match goal with
         | |- exists r, (if negb ?c then _ else _) = Some r =>
             destruct c; cbn [negb]; [|eexists; reflexivity]
         end.
  destruct (skip_name_total (S (length buf)) buf 12 1) as [r ->]; try lia.
  destruct r as [ptr|e]; [|eexists; reflexivity].
  cbv zeta.
  repeat match goal with
         | |- exists r, (if negb ?c then _ else _) = Some r =>
             destruct c; cbn [negb]; [|eexists; reflexivity]
         end.
  eexists; reflexivity.
Qed.

(** The validation knows one failure value, [-1]; what it raises is the
    [IndexError] of the walk over the question name. *)
Lemma check_response_values buf rid r :
  check_response buf rid = Some r ->
  match r with
  | Ok (PInt z) => z = -1
  | Ok (PBytes a) =>
      a = slice buf (find buf [xc0; x0c] + 12) (find buf [xc0; x0c] + 16)
  | Raise e => e = IndexError
  end.
Proof.
  unfold check_response.
  repeat match goal with
         | |- (if negb ?c then _ else _) = _ -> _ =>
             destruct c; cbn [negb]; [|intros [= <-]; reflexivity]
         end.
  destruct (skip_name (S (length buf)) buf 12 1) as [[ptr|e]|] eqn:W;
    [| |discriminate].
  - repeat match goal with
           | |- (if negb ?c then _ else _) = _ -> _ =>
               destruct c; cbn [negb]; [|intros [= <-]; reflexivity]
           end.
    cbv zeta.
    repeat match goal with
           | |- (if negb ?c then _ else _) = _ -> _ =>
               destruct c; cbn [negb]; [|intros [= <-]; reflexivity]
           end.
    intros [= <-]. reflexivity.
  - intros [= <-].
    apply (skip_name_result _ _ _ _ (Raise e)) in W; [assumption|lia|lia].
Qed.

(** ** One attempt, by cases *)

(** An attempt ends, after some polls and some waiting, either without a
    datagram and with [-1], or with the outcome of validating the datagram
    it received. *)
Lemma parse_cases E s :
  exists n t,
    _parse_dns_response E s = Some (Ok (PInt (-1)), advance s n t)
    \/ exists r,
        check_response (recv_at E (recvs (_sock (self s))))
                       (_request_id (self s)) = Some r
        /\ _parse_dns_response E s
           = Some (r, received (advance s n t)
                               (recv_at E (recvs (_sock (self s))))).
Proof.
  rewrite parse_unfold.
  destruct (wait_total E wait_fuel (clock s)
              (available_at E (polls (_sock (self s)))) (polled s))
    as (b & n & t & Hw).
  - unfold wait_fuel. lia.
  - change (clock (polled s)) with (clock s). unfold wait_fuel. lia.
  - rewrite Hw, polled_advance, advance_advance.
    exists (1 + n)%nat, (0 + t). destruct b; [now left|right].
    cbn zeta.
    change (recvs (_sock (self (advance s (1 + n) (0 + t)))))
      with (recvs (_sock (self s))).
    change (_request_id (self (advance s (1 + n) (0 + t))))
      with (_request_id (self s)).
    destruct (check_response_total (recv_at E (recvs (_sock (self s))))
                (_request_id (self s))) as [r Hr].
    rewrite Hr. eauto.
Qed.

Lemma parse_total E s :
  exists r s', _parse_dns_response E s = Some (r, s') /\ same_call s s'.
Proof.
  destruct (parse_cases E s) as (n & t & [H|(r & _ & H)]); rewrite H.
  - eexists _, _. split; [reflexivity|apply same_call_advance].
  - eexists _, _. split; [reflexivity|].
    eapply same_call_trans; [apply same_call_advance|apply same_call_received].
Qed.

(** An attempt in which no poll reports data before the deadline test
    comes out true: result [-1], nothing received, after 23 polls and 1050
    milliseconds or after 22 polls and 1000 milliseconds. *)
Lemma parse_quiet E s :
  (forall k, (k < 22)%nat -> available_at E (k + polls (_sock (self s))) <= 0) ->
  _parse_dns_response E s = Some (Ok (PInt (-1)), timed_out E s).
Proof.
  intros Hq. rewrite parse_unfold.
  rewrite (wait_quiet E 22 wait_fuel (clock s) _ (polled s)).
  - unfold timed_out. change (clock (polled s)) with (clock s).
    rewrite polled_advance, !advance_advance.
    destruct (tie_at E (clock s)); reflexivity.
  - lia.
  - unfold wait_fuel. lia.
  - apply (Hq 0%nat). lia.
  - change (clock (polled s)) with (clock s). simpl. lia.
  - intros k Hk.
    change (polls (_sock (self (polled s))))
      with (S (polls (_sock (self s)))).
    replace (k + S (polls (_sock (self s))))%nat
      with (S k + polls (_sock (self s)))%nat by lia.
    apply Hq. lia.
Qed.

Lemma timed_out_advance E s :
  exists n : nat,
    (n = 22 \/ n = 23)%nat
    /\ timed_out E s = advance s n (50 * (Z.of_nat n - 2)).
Proof.
  unfold timed_out. destruct (tie_at E (clock s)).
  - exists 22%nat. split; [now left|reflexivity].
  - exists 23%nat. split; [now right|reflexivity].
Qed.

(** ** The retry loop *)

Lemma retry_step E fuel retries s :
  retries < 3 ->
  retry E (S fuel) retries (PInt (-1)) s =
  (addr <- _parse_dns_response E ;; retry E fuel (retries + 1) addr) s.
Proof.
  intros H. simpl. destruct (Z.ltb_spec retries 3); [reflexivity|lia].
Qed.

Lemma retry_stop_value E fuel retries addr s :
  py_eq addr (PInt (-1)) = false ->
  retry E fuel retries addr s = Some (Ok addr, s).
Proof.
  intros H. destruct fuel; simpl; rewrite H, andb_false_r; reflexivity.
Qed.

Lemma retry_stop_count E fuel retries addr s :
  3 <= retries -> retry E fuel retries addr s = Some (Ok addr, s).
Proof.
  intros H.
  destruct fuel; simpl; (destruct (Z.ltb_spec retries 3); [lia|reflexivity]).
Qed.

(** The loop ends within its fuel and leaves alone what an attempt leaves
    alone. *)
Lemma retry_total E fuel : forall retries addr s,
  3 - retries <= Z.of_nat fuel ->
  exists r s', retry E fuel retries addr s = Some (r, s') /\ same_call s s'.
Proof.
  induction fuel as [|fuel IH]; intros retries addr s Hf.
  - rewrite retry_stop_count by lia.
    eexists _, _. split; [reflexivity|apply same_call_refl].
  - simpl. destruct ((retries <? 3) && py_eq addr (PInt (-1))).
    + destruct (parse_total E s) as (r1 & s1 & Hp & Hs1).
      destruct r1 as [addr1|e].
      * rewrite (bind_ok _ _ _ _ _ Hp).
        destruct (IH (retries + 1) addr1 s1) as (r & s' & Hr & Hs'); [lia|].
        rewrite Hr. eexists _, _. split; [reflexivity|].
        eapply same_call_trans; eassumption.
      * rewrite (bind_raise _ _ _ _ _ Hp). eauto.
    + eexists _, _. split; [reflexivity|apply same_call_refl].
Qed.

(** ** [gethostbyname] as a whole *)

Section Resolve.
Context `{TextCodec}.

(** Without a resolver address nothing happens at all. *)
Lemma gethostbyname_no_server E hostname s :
  _dns_server (self s) = None ->
  gethostbyname E hostname s = Some (Ok (PInt INVALID_SERVER), s).
Proof.
  intros Hs. unfold gethostbyname.
  erewrite bind_ok by reflexivity. now rewrite Hs.
Qed.

(** The state in which the question is built: host stored, header
    appended. *)
Let headed (E : Env) (hostname : bytes) (s : State) : State :=
  mkState (with_pkt_buf
             (with_request_id (with_host (self s) hostname) (next_id E s))
             (_pkt_buf (self s) ++ spec_header (next_id E s)))
          (clock s) (S (draws s)).

(** The state after [connect] and [send]. *)
Let sendoff (server : bytes) (s : State) : State :=
  let k := _sock (self s) in
  mkState (with_sock (self s)
             (mkSocket (timeout k) (Some (server, DNS_PORT)) true
                       (sent k ++ [_pkt_buf (self s)]) (polls k) (recvs k)
                       (closes k)))
          (clock s) (draws s).

Lemma gethostbyname_unfold E hostname s server :
  _dns_server (self s) = Some server ->
  gethostbyname E hostname s =
  match _build_dns_question (headed E hostname s) with
  | Some (Ok _, s1) => finish (retry E 3 0 (PInt (-1)) (sendoff server s1))
  | Some (Raise e, s1) => Some (Raise e, s1)
  | None => None
  end.
Proof.
  intros Hs. unfold gethostbyname.
  erewrite bind_ok by reflexivity. rewrite Hs.
  erewrite bind_ok by reflexivity.
  erewrite bind_ok by apply build_header_run.
  match goal with
  | |- bind _ _ ?s0 = _ => change s0 with (headed E hostname s)
  end.
  unfold bind at 1.
  destruct (_build_dns_question (headed E hostname s))
    as [[[[]|e] s1]|]; try reflexivity.
  destruct s1 as [[dbg [to pe op se po re cl] srv h rid buf] clk dr].
  cbv beta iota zeta delta
    [bind sock_connect sock_send sock_close sock_update get_pkt_buf
     get_self put_self ret finish sendoff closed self clock draws _sock
     _pkt_buf with_sock timeout peer is_open sent polls recvs closes _debug
     _dns_server _host _request_id].
  match goal with
  | |- context [retry ?a ?b ?c ?d ?e] =>
      destruct (retry a b c d e) as [[[a'|e'] s2]|]
  end; reflexivity.
Qed.

(** Whatever the host name: either building the question raises, before
    the socket is touched, or the packet that goes out is the buffer as
    it was, the header and some question bytes, and the call ends with
    the retry loop and [close]. *)
Lemma gethostbyname_cases E hostname s server :
  _dns_server (self s) = Some server ->
  exists q,
    (exists e s1, gethostbyname E hostname s = Some (Raise e, s1)
                  /\ _sock (self s1) = _sock (self s))
    \/ gethostbyname E hostname s =
       finish (retry E 3 0 (PInt (-1))
                 (dispatched s server hostname (next_id E s)
                    (_pkt_buf (self s) ++ spec_header (next_id E s) ++ q))).
Proof.
  intros Hs. rewrite (gethostbyname_unfold E hostname s server Hs).
  destruct (_build_dns_question (headed E hostname s))
    as [[[[]|e] s1]|] eqn:Q.
  - destruct (build_question_appends _ _ _ Q) as [q ->].
    exists q. right. unfold headed, sendoff, dispatched, upd_buf.
    cbn [self clock draws _sock _pkt_buf with_sock with_pkt_buf
         with_request_id with_host timeout peer is_open sent polls recvs
         closes _debug _dns_server _host _request_id].
    now rewrite <- app_assoc.
  - destruct (build_question_appends _ _ _ Q) as [q ->].
    exists q. left. eexists _, _. split; reflexivity.
  - exfalso. revert Q. unfold _build_dns_question.
    erewrite bind_ok by reflexivity.
    destruct (decode_utf8 (_host (self (headed E hostname s))))
      as [host|e].
    + erewrite bind_ok by reflexivity.
      destruct (write_sections (split N.eqb 46%N host)
                  (headed E hostname s)) as [[[[]|e] s1]|] eqn:W.
      * rewrite (bind_ok _ _ _ _ _ W), question_tail_run. discriminate.
      * rewrite (bind_raise _ _ _ _ _ W). discriminate.
      * exfalso. clear -W. revert W.
        generalize (headed E hostname s).
        induction (split N.eqb 46%N host) as [|sec rest IH]; intros s0;
          simpl; [discriminate|].
        destruct (pkt_append_cases (Z.of_nat (length sec)) s0) as [A|A].
        -- rewrite (bind_ok _ _ _ _ _ A).
           rewrite (bind_ok _ _ _ _ _ (pkt_extend_run _ _)). apply IH.
        -- rewrite (bind_raise _ _ _ _ _ A). discriminate.
    + erewrite bind_raise by reflexivity. discriminate.
Qed.

(** For a 7-bit host name with labels of at most 255 bytes the packet is
    the buffer as it was, the header and the question section. *)
Lemma gethostbyname_ascii E hostname s server :
  _dns_server (self s) = Some server ->
  Forall is_ascii hostname ->
  Forall (fun l : bytes => (length l <= 255)%nat)
         (split Byte.eqb x2e hostname) ->
  gethostbyname E hostname s =
  finish (retry E 3 0 (PInt (-1))
            (dispatched s server hostname (next_id E s)
               (_pkt_buf (self s) ++ spec_header (next_id E s)
                ++ spec_question hostname))).
Proof.
  intros Hs Ha Hl. rewrite (gethostbyname_unfold E hostname s server Hs).
  rewrite build_question_ascii by assumption.
  unfold headed, sendoff, dispatched, upd_buf.
  cbn [self clock draws _sock _pkt_buf with_sock with_pkt_buf
       with_request_id with_host timeout peer is_open sent polls recvs
       closes _debug _dns_server _host _request_id].
  now rewrite <- app_assoc.
Qed.

End Resolve.

(** The retry loop of a call always ends, and the call then closes the
    socket unless an exception passes through. *)
Lemma finish_retry E s :
  exists r s1,
    retry E 3 0 (PInt (-1)) s = Some (r, s1)
    /\ same_call s s1
    /\ finish (retry E 3 0 (PInt (-1)) s)
       = Some (r, match r with Ok _ => closed s1 | Raise _ => s1 end).
Proof.
  destruct (retry_total E 3 0 (PInt (-1)) s) as (r & s1 & Hr & Hs);
    [simpl; lia|].
  exists r, s1. rewrite Hr.
  split; [reflexivity|split; [assumption|destruct r; reflexivity]].
Qed.

(** ** The sample host name *)

Lemma example_com_ascii : Forall is_ascii example_com.
Proof. repeat constructor. Qed.

Lemma example_com_labels :
  Forall (fun l : bytes => (length l <= 255)%nat)
         (split Byte.eqb x2e example_com).
Proof. vm_compute. repeat constructor. Qed.

(** ** The query packet *)

Lemma field16_two a b rest :
  field16 (a :: b :: rest) 0 = 256 * byte_val a + byte_val b.
Proof.
  unfold field16. change (0 + 2) with 2. rewrite slice_0_2.
  apply int_from_bytes_two.
Qed.

Lemma header_id id : 0 <= id < 65536 -> field16 (spec_header id) 0 = id.
Proof.
  intros Hid. unfold spec_header. rewrite field16_two.
  assert (0 <= id / 256 < 256)
    by (split; [apply Z.div_pos; lia | apply Z.div_lt_upper_bound; lia]).
  assert (0 <= id mod 256 < 256) by (apply Z.mod_pos_bound; lia).
  rewrite !byte_val_byte_of by assumption.
  symmetry. apply Z_div_mod_eq_full.
Qed.

Lemma slice_app_l pre rest i j :
  0 <= i -> i <= j -> j <= Z.of_nat (length pre) ->
  slice (pre ++ rest) i j = slice pre i j.
Proof.
  intros Hi Hij Hj.
  destruct (slice_nonneg (pre ++ rest) i j Hi) as [E|E]; [|lia].
  destruct (slice_nonneg pre i j Hi) as [E'|E']; [|lia].
  rewrite E, E', length_app, Nat2Z.inj_add.
  rewrite !Z.min_l by lia.
  rewrite skipn_app, firstn_app, length_skipn.
  replace (Z.to_nat (j - i) - (length pre - Z.to_nat i))%nat with 0%nat by lia.
  rewrite firstn_O. now rewrite app_nil_r.
Qed.

Lemma header_fields id q :
  0 <= id < 65536 ->
  let pkt := spec_header id ++ q in
  firstn 12 pkt = spec_header id
  /\ skipn 12 pkt = q
  /\ field16 pkt 0 = id
  /\ field16 pkt 2 = 0x0100
  /\ field16 pkt 4 = 1
  /\ field16 pkt 6 = 0
  /\ field16 pkt 8 = 0
  /\ field16 pkt 10 = 0.
Proof.
  intros Hid pkt. subst pkt.
  split; [reflexivity|]. split; [reflexivity|].
  unfold field16.
  rewrite !slice_app_l by (simpl; lia).
  split; [apply (header_id id Hid)|].
  repeat split; reflexivity.
Qed.

(** What stays of a state once the call has run its loop and closed. *)
Lemma after_call r s s1 :
  same_call s s1 ->
  let s' := match r : Res pyval with Ok _ => closed s1 | Raise _ => s1 end in
  sent (_sock (self s')) = sent (_sock (self s))
  /\ _request_id (self s') = _request_id (self s)
  /\ _dns_server (self s') = _dns_server (self s)
  /\ _host (self s') = _host (self s)
  /\ draws s' = draws s.
Proof.
  unfold same_call. intros Hs.
  repeat match goal with H : _ /\ _ |- _ => destruct H end.
  destruct r; cbn; repeat split; assumption.
Qed.

(** The first call on a client.  For a 7-bit, dot-separated host name
    (labels of at most 255 bytes, so that a length fits its byte)
    [gethostbyname] on a newly constructed client sends one packet.  Its
    first 12 bytes are the header:
    the 16-bit identifier just drawn, most significant byte first, flags
    [0x0100], QDCOUNT 1, ANCOUNT, NSCOUNT and ARCOUNT 0.  Behind the header
    come, per label, a length byte and the label's bytes, then a zero byte,
    then QTYPE [00 01] and QCLASS [00 01].  For [example.com] the bytes
    behind the header are
    [07 65 78 61 6D 70 6C 65 03 63 6F 6D 00 00 01 00 01]. *)
Theorem first_call_packet `{TextCodec} E server debug hostname clk dr :
  Forall is_ascii hostname ->
  Forall (fun l : bytes => (length l <= 255)%nat)
         (split Byte.eqb x2e hostname) ->
  let s0 := mkState (__init__ (Some server) debug) clk dr in
  let id := next_id E s0 in
  exists r s' pkt,
    gethostbyname E hostname s0 = Some (r, s')
    /\ sent (_sock (self s')) = [pkt]
    /\ _request_id (self s') = id
    /\ 0 <= id < 65536
    /\ firstn 12 pkt = spec_header id
    /\ field16 pkt 0 = id
    /\ field16 pkt 2 = 0x0100
    /\ field16 pkt 4 = 1
    /\ field16 pkt 6 = 0
    /\ field16 pkt 8 = 0
    /\ field16 pkt 10 = 0
    /\ skipn 12 pkt = spec_question hostname
    /\ (hostname = example_com ->
        skipn 12 pkt =
        [x07; x65; x78; x61; x6d; x70; x6c; x65; x03; x63; x6f; x6d; x00;
         x00; x01; x00; x01]).
Proof.
  intros Ha Hl s0 id.
  pose proof (next_id_range E s0) as Hid. fold id in Hid.
  rewrite (gethostbyname_ascii E hostname s0 server eq_refl Ha Hl).
  fold id.
  destruct (finish_retry E
              (dispatched s0 server hostname id
                 (_pkt_buf (self s0) ++ spec_header id
                  ++ spec_question hostname)))
    as (r & s1 & _ & Hs & Hf).
  rewrite Hf.
  destruct (after_call r _ _ Hs) as (Hsent & Hrid & _).
  destruct (header_fields id (spec_question hostname) Hid)
    as (F0 & F1 & F2 & F3 & F4 & F5 & F6 & F7).
  eexists r, _, (spec_header id ++ spec_question hostname).
  split; [reflexivity|].
  split; [rewrite Hsent; reflexivity|].
  split; [rewrite Hrid; reflexivity|].
  repeat (split; [assumption|]).
  intros ->. rewrite F1. reflexivity.
Qed.

Lemma first_call_packet_witness :
  exists r s' pkt,
    gethostbyname silent example_com (fresh (Some resolver)) = Some (r, s')
    /\ sent (_sock (self s')) = [pkt]
    /\ _request_id (self s') = 0xBEEF
    /\ 0 <= 0xBEEF < 65536
    /\ firstn 12 pkt = spec_header 0xBEEF
    /\ field16 pkt 0 = 0xBEEF
    /\ field16 pkt 2 = 0x0100
    /\ field16 pkt 4 = 1
    /\ field16 pkt 6 = 0
    /\ field16 pkt 8 = 0
    /\ field16 pkt 10 = 0
    /\ skipn 12 pkt = spec_question example_com
    /\ (example_com = example_com ->
        skipn 12 pkt =
        [x07; x65; x78; x61; x6d; x70; x6c; x65; x03; x63; x6f; x6d; x00;
         x00; x01; x00; x01]).
Proof.
  exact (first_call_packet silent resolver false example_com 0 0
           example_com_ascii example_com_labels).
Defined.

(** ** The transaction identifier *)

Lemma two_bytes_of_id a b id :
  256 * byte_val a + byte_val b = id ->
  a = byte_of (id / 256) /\ b = byte_of (id mod 256).
Proof.
  intros E. pose proof (byte_val_range a). pose proof (byte_val_range b).
  assert (id / 256 = byte_val a /\ id mod 256 = byte_val b) as [-> ->].
  { subst id. split.
    - rewrite Z.mul_comm, Z.div_add_l by lia. rewrite Z.div_small; lia.
    - rewrite Z.add_comm, Z.mul_comm, Z.mod_add by lia.
      apply Z.mod_small. lia. }
  now rewrite !byte_of_byte_val.
Qed.

(** A buffer that passes the validation begins with the two bytes of the
    expected identifier, most significant first. *)
Lemma check_response_id buf rid a :
  check_response buf rid = Some (Ok (PBytes a)) ->
  firstn 2 buf = [byte_of (rid / 256); byte_of (rid mod 256)].
Proof.
  unfold check_response.
  destruct (Z.eqb_spec (int_from_bytes (slice buf 0 2) "l") rid) as [Hid|];
    cbn [negb]; [|discriminate].
  destruct (Z.eqb_spec (int_from_bytes (slice buf 2 4) "l") 33152)
    as [Hfl|]; cbn [negb]; [|discriminate].
  intros _.
  destruct buf as [|x [|y [|z rest]]].
  - discriminate Hfl.
  - discriminate Hfl.
  - discriminate Hfl.
  - rewrite slice_0_2 in Hid. simpl firstn in *.
    rewrite int_from_bytes_two in Hid.
    destruct (two_bytes_of_id _ _ _ Hid) as [-> ->]. reflexivity.
Qed.

(** Mismatch of the identifier is the first thing the validation
    rejects. *)
Lemma check_response_mismatch buf rid :
  field16 buf 0 <> rid -> check_response buf rid = Some (Ok (PInt (-1))).
Proof.
  unfold field16, check_response. change (0 + 2) with 2.
  rewrite <- int_from_bytes_l_big. intros Hne.
  destruct (Z.eqb_spec (int_from_bytes (slice buf 0 2) "l") rid);
    [contradiction|reflexivity].
Qed.

(** When the loop, entered with [-1], ends with an address, the packet
    buffer holds the datagram that passed the validation. *)
Lemma retry_accepts E fuel : forall retries s a s',
  retry E fuel retries (PInt (-1)) s = Some (Ok (PBytes a), s') ->
  check_response (_pkt_buf (self s')) (_request_id (self s))
  = Some (Ok (PBytes a)).
Proof.
  induction fuel as [|fuel IH]; intros retries s a s' Hr.
  - simpl in Hr. destruct (retries <? 3); discriminate.
  - destruct (Z.ltb_spec retries 3) as [Hlt|Hge].
    + rewrite retry_step in Hr by assumption.
      destruct (parse_cases E s) as (n & t & [Hp|(r & Hc & Hp)]).
      * rewrite (bind_ok _ _ _ _ _ Hp) in Hr. apply IH in Hr. exact Hr.
      * destruct r as [[z|b]|e].
        -- rewrite (bind_ok _ _ _ _ _ Hp) in Hr.
           pose proof (check_response_values _ _ _ Hc) as Hz.
           simpl in Hz. subst z. apply IH in Hr. exact Hr.
        -- rewrite (bind_ok _ _ _ _ _ Hp) in Hr.
           rewrite retry_stop_value in Hr by reflexivity.
           injection Hr as <- <-. exact Hc.
        -- rewrite (bind_raise _ _ _ _ _ Hp) in Hr. discriminate.
    + rewrite retry_stop_count in Hr by assumption. discriminate.
Qed.

Lemma field16_id_bytes id rest :
  0 <= id < 65536 ->
  field16 (byte_of (id / 256) :: byte_of (id mod 256) :: rest) 0 = id.
Proof.
  intros Hid. rewrite field16_two.
  assert (0 <= id / 256 < 256)
    by (split; [apply Z.div_pos; lia | apply Z.div_lt_upper_bound; lia]).
  assert (0 <= id mod 256 < 256) by (apply Z.mod_pos_bound; lia).
  rewrite !byte_val_byte_of by assumption.
  symmetry. apply Z_div_mod_eq_full.
Qed.

Lemma finish_ok o v s' :
  finish o = Some (Ok v, s') ->
  exists s1, o = Some (Ok v, s1) /\ s' = closed s1.
Proof.
  destruct o as [[[v1|e] s1]|]; simpl; intros [= <- <-] || discriminate.
  eauto.
Qed.

(** The first call on a client, whatever the host name: a response that
    is accepted -- the call returns an address -- begins with the two bytes of the 16-bit transaction identifier exactly
    as the query carried them in its bytes 0 and 1, most significant byte
    first.  And an attempt whose datagram carries another identifier in
    these bytes yields [-1], whatever the rest of the datagram holds. *)
Theorem first_call_transaction_id `{TextCodec} :
  (forall E server debug hostname clk dr addr s',
      let s0 := mkState (__init__ (Some server) debug) clk dr in
      gethostbyname E hostname s0 = Some (Ok (PBytes addr), s') ->
      exists query,
        sent (_sock (self s')) = [query]
        /\ check_response (_pkt_buf (self s')) (next_id E s0)
           = Some (Ok (PBytes addr))
        /\ firstn 2 (_pkt_buf (self s')) = firstn 2 query
        /\ firstn 2 query = [byte_of (next_id E s0 / 256);
                             byte_of (next_id E s0 mod 256)]
        /\ field16 query 0 = next_id E s0
        /\ field16 (_pkt_buf (self s')) 0 = next_id E s0)
  /\ (forall E s r s',
         _parse_dns_response E s = Some (r, s') ->
         field16 (recv_at E (recvs (_sock (self s)))) 0
         <> _request_id (self s) ->
         r = Ok (PInt (-1))).
Proof.
  split.
  - intros E server debug hostname clk dr addr s' s0 Hg.
    destruct (gethostbyname_cases E hostname s0 server eq_refl)
      as [q [(e & s1 & He & _)|Hc]].
    + rewrite He in Hg. discriminate.
    + rewrite Hc in Hg.
      destruct (finish_ok _ _ _ Hg) as (s1 & Hr & ->).
      pose proof (retry_accepts _ _ _ _ _ _ Hr) as Hacc.
      destruct (retry_total E 3 0 (PInt (-1))
                  (dispatched s0 server hostname (next_id E s0)
                     (_pkt_buf (self s0) ++ spec_header (next_id E s0) ++ q)))
        as (r' & s1' & Hr' & Hs); [simpl; lia|].
      rewrite Hr in Hr'. injection Hr' as <- <-.
      destruct (after_call (Ok (PBytes addr)) _ _ Hs) as (Hsent & _).
      cbv zeta in Hsent.
      pose proof (next_id_range E s0) as Hid.
      pose proof (check_response_id _ _ _ Hacc) as Hfirst.
      exists (spec_header (next_id E s0) ++ q).
      split; [rewrite Hsent; reflexivity|].
      split; [exact Hacc|].
      split; [exact Hfirst|].
      split; [reflexivity|].
      split; [now apply header_fields|].
      change (_pkt_buf (self (closed s1))) with (_pkt_buf (self s1)) in *.
      change (_request_id
                (self (dispatched s0 server hostname (next_id E s0)
                   (_pkt_buf (self s0) ++ spec_header (next_id E s0) ++ q))))
        with (next_id E s0) in *.
      destruct (_pkt_buf (self s1)) as [|x [|y rest]]; try discriminate.
      injection Hfirst as -> ->.
      now apply field16_id_bytes.
  - intros E s r s' Hp Hne.
    destruct (parse_cases E s) as (n & t & [Hq|(r1 & Hc & Hq)]);
      rewrite Hq in Hp; injection Hp as <- <-; [reflexivity|].
    rewrite (check_response_mismatch _ _ Hne) in Hc. now injection Hc.
Qed.

(** ** Attempts without data *)

(** C3, as the code has it.  An attempt in which no poll reports data
    until the test of the deadline comes out true returns [-1], the value of
    a failed validation, and receives nothing.  It has polled 23 times and
    slept 1050 milliseconds, or, when the float difference at the second
    itself comes out above [1.0], polled 22 times and slept 1000
    milliseconds.  The retry loop treats such an attempt like any other
    failed attempt: while fewer than three attempts have been made it goes
    on to a further attempt, and with the third attempt made it ends with
    [-1]. *)
Theorem C3_timeout_is_retried E s :
  (forall k, (k < 22)%nat ->
             available_at E (k + polls (_sock (self s))) <= 0) ->
  exists n : nat,
    (n = 22 \/ n = 23)%nat
    /\ let s1 := advance s n (50 * (Z.of_nat n - 2)) in
       _parse_dns_response E s = Some (Ok (PInt (-1)), s1)
       /\ (forall fuel retries,
              retries < 3 ->
              retry E (S fuel) retries (PInt (-1)) s
              = retry E fuel (retries + 1) (PInt (-1)) s1)
       /\ (forall fuel,
              retry E fuel 3 (PInt (-1)) s1
              = Some (Ok (PInt TIMED_OUT), s1)).
Proof.
  intros Hq. pose proof (parse_quiet E s Hq) as Hp.
  destruct (timed_out_advance E s) as (n & Hn & Ht). rewrite Ht in Hp.
  exists n. split; [exact Hn|]. cbv zeta.
  split; [exact Hp|split].
  - intros fuel retries Hlt. rewrite retry_step by assumption.
    now rewrite (bind_ok _ _ _ _ _ Hp).
  - intros fuel. now apply retry_stop_count.
Qed.

Lemma C3_timeout_is_retried_witness :
  let s := dispatched (fresh (Some resolver)) resolver example_com 0xBEEF
             (spec_header 0xBEEF ++ spec_question example_com) in
  exists n : nat,
    (n = 22 \/ n = 23)%nat
    /\ let s1 := advance s n (50 * (Z.of_nat n - 2)) in
       _parse_dns_response silent s = Some (Ok (PInt (-1)), s1)
       /\ (forall fuel retries,
              retries < 3 ->
              retry silent (S fuel) retries (PInt (-1)) s
              = retry silent fuel (retries + 1) (PInt (-1)) s1)
       /\ (forall fuel,
              retry silent fuel 3 (PInt (-1)) s1
              = Some (Ok (PInt TIMED_OUT), s1)).
Proof.
  intros s. apply (C3_timeout_is_retried silent s).
  intros k _. simpl. lia.
Defined.

(** Three attempts without data in a row. *)
Lemma retry_quiet E s :
  (forall k, (k < 68)%nat ->
             available_at E (k + polls (_sock (self s))) <= 0) ->
  retry E 3 0 (PInt (-1)) s
  = Some (Ok (PInt (-1)), timed_out E (timed_out E (timed_out E s))).
Proof.
  intros Hq.
  rewrite retry_step by lia.
  erewrite bind_ok by (apply parse_quiet; intros k Hk; apply Hq; lia).
  destruct (timed_out_advance E s) as (n1 & Hn1 & Ht1).
  rewrite retry_step by lia.
  erewrite bind_ok.
  2:{ apply parse_quiet. intros k Hk. rewrite Ht1.
      change (polls (_sock (self (advance s n1 (50 * (Z.of_nat n1 - 2))))))
        with (n1 + polls (_sock (self s)))%nat.
      replace (k + (n1 + polls (_sock (self s))))%nat
        with ((k + n1) + polls (_sock (self s)))%nat by lia.
      apply Hq. lia. }
  destruct (timed_out_advance E (timed_out E s)) as (n2 & Hn2 & Ht2).
  rewrite retry_step by lia.
  erewrite bind_ok.
  2:{ apply parse_quiet. intros k Hk. rewrite Ht2, Ht1.
      rewrite advance_advance.
      match goal with
      | |- context [polls (_sock (self (advance s ?n ?t)))] =>
          change (polls (_sock (self (advance s n t))))
            with (n + polls (_sock (self s)))%nat
      end.
      replace (k + (n1 + n2 + polls (_sock (self s))))%nat
        with ((k + (n1 + n2)) + polls (_sock (self s)))%nat by lia.
      apply Hq. lia. }
  rewrite retry_stop_count by lia.
  reflexivity.
Qed.

(** Three such attempts take 66 to 69 polls; per poll behind the first two
    of an attempt there is one sleep. *)
Lemma timed_out_thrice E s :
  exists n : nat,
    (66 <= n <= 69)%nat
    /\ timed_out E (timed_out E (timed_out E s))
       = advance s n (50 * (Z.of_nat n - 6)).
Proof.
  destruct (timed_out_advance E s) as (n1 & Hn1 & ->).
  destruct (timed_out_advance E (advance s n1 (50 * (Z.of_nat n1 - 2))))
    as (n2 & Hn2 & ->).
  destruct (timed_out_advance E
              (advance (advance s n1 (50 * (Z.of_nat n1 - 2))) n2
                       (50 * (Z.of_nat n2 - 2))))
    as (n3 & Hn3 & ->).
  rewrite !advance_advance.
  exists (n1 + n2 + n3)%nat. split; [lia|].
  f_equal; lia.
Qed.

(** C9, as the code has it.  When the poll for available bytes reports
    nothing throughout the call -- on each of the polls its three attempts
    look at -- [gethostbyname] (resolver address set, 7-bit host name with
    labels of at most 255 bytes) ends after exactly three attempts with the
    timeout code [-1]: 66 to 69 polls, 3000 to 3150 milliseconds, nothing
    received, the socket closed once.  It does not wait forever.  Nothing
    for longer than the deadline of one attempt is not enough for this
    outcome: see the run below. *)
Theorem C9_no_data_terminates `{TextCodec} E hostname s server :
  _dns_server (self s) = Some server ->
  Forall is_ascii hostname ->
  Forall (fun l : bytes => (length l <= 255)%nat)
         (split Byte.eqb x2e hostname) ->
  (forall k, (k < 68)%nat ->
             available_at E (k + polls (_sock (self s))) <= 0) ->
  exists s' (n : nat),
    gethostbyname E hostname s = Some (Ok (PInt TIMED_OUT), s')
    /\ (66 <= n <= 69)%nat
    /\ polls (_sock (self s')) = (n + polls (_sock (self s)))%nat
    /\ recvs (_sock (self s')) = recvs (_sock (self s))
    /\ clock s' = clock s + 50 * (Z.of_nat n - 6)
    /\ closes (_sock (self s')) = S (closes (_sock (self s)))
    /\ is_open (_sock (self s')) = false.
Proof.
  intros Hs Ha Hl Hq.
  rewrite (gethostbyname_ascii E hostname s server Hs Ha Hl).
  rewrite retry_quiet by exact Hq.
  match goal with
  | |- context [timed_out E (timed_out E (timed_out E ?s0))] =>
      destruct (timed_out_thrice E s0) as (n & Hn & ->)
  end.
  eexists _, n. split; [reflexivity|].
  split; [exact Hn|].
  cbn. repeat split; reflexivity.
Qed.

Lemma C9_no_data_terminates_witness :
  exists s' (n : nat),
    gethostbyname silent example_com (fresh (Some resolver))
    = Some (Ok (PInt TIMED_OUT), s')
    /\ (66 <= n <= 69)%nat
    /\ polls (_sock (self s')) = (n + 0)%nat
    /\ recvs (_sock (self s')) = 0%nat
    /\ clock s' = 0 + 50 * (Z.of_nat n - 6)
    /\ closes (_sock (self s')) = 1%nat
    /\ is_open (_sock (self s')) = false.
Proof.
  apply (C9_no_data_terminates silent example_com (fresh (Some resolver))
           resolver eq_refl example_com_ascii example_com_labels).
  intros k _. simpl. lia.
Defined.

(** C9, refuted as stated.  The poll reports nothing for 40 polls, which
    is for longer than the deadline of an attempt: the first attempt times
    out after 1050 milliseconds.  The call does not end with a timeout: the
    reply is there during the second attempt, and the call returns the
    address. *)
Lemma C9_counterexample :
  let E := late 40 (example_reply [xbe; xef] x01) in
  (forall k, (k < 40)%nat -> available_at E k = 0)
  /\ exists s',
       gethostbyname E example_com (fresh (Some resolver))
       = Some (Ok (PBytes [x5d; xb8; xd8; x22]), s')
       /\ polls (_sock (self s')) = 41%nat
       /\ recvs (_sock (self s')) = 1%nat
       /\ 1000 < clock s'.
Proof.
  intros E. split.
  - intros k Hk. unfold E, late. cbn [available_at].
    destruct (Nat.ltb_spec k 40); [reflexivity|lia].
  - eexists. split; [vm_compute; reflexivity|].
    repeat split; reflexivity.
Qed.

(** ** Sample runs *)

(** The reply to [example.com] for the identifier [0xBEEF], there at the
    first poll: the call returns 93.184.216.34. *)
Lemma example_resolves :
  exists s',
    gethostbyname (prompt (example_reply [xbe; xef] x01)) example_com
                  (fresh (Some resolver))
    = Some (Ok (PBytes [x5d; xb8; xd8; x22]), s')
    /\ polls (_sock (self s')) = 1%nat
    /\ recvs (_sock (self s')) = 1%nat
    /\ closes (_sock (self s')) = 1%nat.
Proof.
  eexists. split; [vm_compute; reflexivity|].
  repeat split; reflexivity.
Qed.

Lemma first_call_transaction_id_witness :
  (exists query,
      sent (_sock (self example_resolved)) = [query]
      /\ check_response (_pkt_buf (self example_resolved)) 0xBEEF
         = Some (Ok (PBytes [x5d; xb8; xd8; x22]))
      /\ firstn 2 (_pkt_buf (self example_resolved)) = firstn 2 query
      /\ firstn 2 query = [xbe; xef]
      /\ field16 query 0 = 0xBEEF
      /\ field16 (_pkt_buf (self example_resolved)) 0 = 0xBEEF)
  /\ Ok (PInt (-1)) = Ok (PInt (-1)) :> Res pyval.
Proof.
  split.
  - apply (proj1 (@first_call_transaction_id ascii_codec)
             (prompt (example_reply [xbe; xef] x01)) resolver false
             example_com 0 0%nat [x5d; xb8; xd8; x22] example_resolved).
    vm_compute. reflexivity.
  - apply (proj2 (@first_call_transaction_id ascii_codec)
             (prompt (example_reply [x12; x34] x01))
             (dispatched (fresh (Some resolver)) resolver example_com 0xBEEF
                (spec_header 0xBEEF ++ spec_question example_com))
             (Ok (PInt (-1)))
             (received
                (polled
                   (dispatched (fresh (Some resolver)) resolver example_com
                      0xBEEF
                      (spec_header 0xBEEF ++ spec_question example_com)))
                (example_reply [x12; x34] x01))).
    + vm_compute. reflexivity.
    + vm_compute. discriminate.
Defined.

(** C3, refuted as stated.  The datagram arrives only after the first
    attempt has timed out: none of the 23 polls of that attempt reports
    data and the attempt ends with [-1] at 1050 milliseconds.  The call
    does not end there with the timeout code: a second attempt follows,
    receives the reply and the call returns the address. *)
Lemma C3_counterexample :
  let E := late 23 (example_reply [xbe; xef] x01) in
  let s1 := dispatched (fresh (Some resolver)) resolver example_com 0xBEEF
              (spec_header 0xBEEF ++ spec_question example_com) in
  (forall k, (k < 23)%nat -> available_at E k = 0)
  /\ _parse_dns_response E s1 = Some (Ok (PInt (-1)), advance s1 23 1050)
  /\ exists s',
       gethostbyname E example_com (fresh (Some resolver))
       = Some (Ok (PBytes [x5d; xb8; xd8; x22]), s')
       /\ polls (_sock (self s')) = 24%nat
       /\ recvs (_sock (self s')) = 1%nat
       /\ clock s' = 1050.
Proof.
  intros E s1. split; [|split].
  - intros k Hk. unfold E, late. cbn [available_at].
    destruct (Nat.ltb_spec k 23); [reflexivity|lia].
  - vm_compute. reflexivity.
  - eexists. split; [vm_compute; reflexivity|].
    repeat split; reflexivity.
Qed.

(** ** The socket at the end of a call *)

(** Every return of [gethostbyname] behind the check of the resolver
    address -- address found, three failed attempts -- has called [close]
    exactly once and leaves the socket closed. *)
Lemma gethostbyname_closes `{TextCodec} E hostname s server v s' :
  _dns_server (self s) = Some server ->
  gethostbyname E hostname s = Some (Ok v, s') ->
  closes (_sock (self s')) = S (closes (_sock (self s)))
  /\ is_open (_sock (self s')) = false.
Proof.
  intros Hs Hg.
  destruct (gethostbyname_cases E hostname s server Hs)
    as [q [(e & s1 & He & _)|Hc]].
  - rewrite He in Hg. discriminate.
  - rewrite Hc in Hg. destruct (finish_ok _ _ _ Hg) as (s1 & Hr & ->).
    destruct (retry_total E 3 0 (PInt (-1))
                (dispatched s server hostname (next_id E s)
                   (_pkt_buf (self s) ++ spec_header (next_id E s) ++ q)))
      as (r' & s1' & Hr' & Hsame); [simpl; lia|].
    rewrite Hr in Hr'. injection Hr' as <- <-.
    destruct Hsame as (_ & _ & _ & _ & Hcl & _).
    split; [cbn; now rewrite Hcl|reflexivity].
Qed.

(** C4, where the code departs from it.  On a client constructed without
    a resolver address [gethostbyname] returns [INVALID_SERVER] and leaves
    the state as it was: the socket acquired by the constructor is still
    open and [close] has not been called. *)
Theorem C4_no_server_skips_close `{TextCodec} E hostname debug clk dr :
  let s0 := mkState (__init__ None debug) clk dr in
  gethostbyname E hostname s0 = Some (Ok (PInt INVALID_SERVER), s0)
  /\ is_open (_sock (self s0)) = true
  /\ closes (_sock (self s0)) = 0%nat.
Proof.
  intros s0. split; [|split; reflexivity].
  now apply gethostbyname_no_server.
Qed.

(** ** One value for every failure *)

Lemma geb_1_ltb x : negb (x >=? 1) = (x <? 1).
Proof.
  rewrite Z.geb_leb.
  destruct (Z.leb_spec 1 x), (Z.ltb_spec x 1); simpl; lia || reflexivity.
Qed.

(** The validation of the code and the sequence of checks of the
    specification agree on which buffers fail, and every failure the
    specification names, the overrun of the name apart, is the one value
    [-1] in the code. *)
Lemma first_failure_rejected buf rid k :
  spec_first_failure buf rid = Some k ->
  k <> MalformedName ->
  check_response buf rid = Some (Ok (PInt (-1))).
Proof.
  unfold spec_first_failure, check_response, field16, TYPE_A, CLASS_IN,
    DATA_LEN.
  rewrite !geb_1_ltb.
  change (0 + 2) with 2. change (2 + 2) with 4. change (4 + 2) with 6.
  change (6 + 2) with 8.
  rewrite <- !int_from_bytes_l_big.
  repeat match goal with
         | |- (if ?c then _ else _) = _ -> _ =>
             destruct c; cbn [negb]; [reflexivity|]
         end.
  destruct (skip_name (S (length buf)) buf 12 1) as [[ptr|e]|];
    [| intros [= <-]; congruence | intros [= <-]; congruence].
  cbv zeta.
  replace (find buf [xc0; x0c] + 2 + 2) with (find buf [xc0; x0c] + 4)
    by lia.
  replace (find buf [xc0; x0c] + 4 + 2) with (find buf [xc0; x0c] + 6)
    by lia.
  replace (find buf [xc0; x0c] + 10 + 2) with (find buf [xc0; x0c] + 12)
    by lia.
  rewrite <- !int_from_bytes_l_big.
  repeat match goal with
         | |- (if ?c then _ else _) = _ -> _ =>
             destruct c; cbn [negb]; [reflexivity|]
         end.
  discriminate.
Qed.

(** C5, as the code has it.  An attempt knows one failure value: whether no
    datagram came within the deadline, or the datagram it received fails
    any of the checks the specification names (identifier, flags, question
    count, answer count, query type, query class, answer type, answer
    class, data length), [_parse_dns_response] returns [-1]; and a value it
    returns is either this [-1] or the address bytes of a datagram that
    fails no check. *)
Theorem C5_one_failure_value E s r s' :
  _parse_dns_response E s = Some (r, s') ->
  (recvs (_sock (self s')) = recvs (_sock (self s)) -> r = Ok (PInt (-1)))
  /\ (forall k,
         recvs (_sock (self s')) = S (recvs (_sock (self s))) ->
         spec_first_failure (_pkt_buf (self s')) (_request_id (self s))
         = Some k ->
         k <> MalformedName ->
         r = Ok (PInt (-1)))
  /\ (forall v, r = Ok v ->
         v = PInt (-1)
         \/ exists a, v = PBytes a
                      /\ recvs (_sock (self s')) = S (recvs (_sock (self s)))).
Proof.
  intros Hp.
  destruct (parse_cases E s) as (n & t & [Hq|(r1 & Hc & Hq)]);
    rewrite Hq in Hp; injection Hp as <- <-.
  - split; [reflexivity|split; [reflexivity|]].
    intros v [= <-]. now left.
  - split; [|split].
    + cbn. intros Hrec. exfalso. apply (n_Sn _ (eq_sym Hrec)).
    + intros k _ Hk Hm.
      change (_pkt_buf (self (received (advance s n t)
                                       (recv_at E (recvs (_sock (self s)))))))
        with (recv_at E (recvs (_sock (self s)))) in Hk.
      rewrite (first_failure_rejected _ _ _ Hk Hm) in Hc.
      now injection Hc.
    + intros v ->. pose proof (check_response_values _ _ _ Hc) as Hv.
      destruct v as [z|a]; simpl in Hv.
      * left. now subst z.
      * right. exists a. split; reflexivity.
Qed.

Lemma C5_one_failure_value_witness :
  let s := dispatched (fresh (Some resolver)) resolver example_com 0xBEEF
             (spec_header 0xBEEF ++ spec_question example_com) in
  let data := example_reply [xbe; xef] x00 in
  let r := Ok (PInt (-1)) in
  let s' := received (polled s) data in
  (recvs (_sock (self s')) = recvs (_sock (self s)) -> r = Ok (PInt (-1)))
  /\ (forall k,
         recvs (_sock (self s')) = S (recvs (_sock (self s))) ->
         spec_first_failure (_pkt_buf (self s')) (_request_id (self s))
         = Some k ->
         k <> MalformedName ->
         r = Ok (PInt (-1)))
  /\ (forall v, r = Ok v ->
         v = PInt (-1)
         \/ exists a, v = PBytes a
                      /\ recvs (_sock (self s')) = S (recvs (_sock (self s)))).
Proof.
  intros s data r s'.
  apply (C5_one_failure_value (prompt data) s r s').
  vm_compute. reflexivity.
Defined.

(** C5, refuted as stated.  Three attempts that fail for three different
    reasons -- a reply with another identifier, a reply that announces no
    answer, no reply at all -- hand the caller one and the same value. *)
Lemma C5_counterexample :
  let s := dispatched (fresh (Some resolver)) resolver example_com 0xBEEF
             (spec_header 0xBEEF ++ spec_question example_com) in
  let other_id := example_reply [x12; x34] x01 in
  let no_answer := example_reply [xbe; xef] x00 in
  spec_first_failure other_id 0xBEEF = Some IdMismatch
  /\ spec_first_failure no_answer 0xBEEF = Some NoAnswer
  /\ _parse_dns_response (prompt other_id) s
     = Some (Ok (PInt (-1)), received (polled s) other_id)
  /\ _parse_dns_response (prompt no_answer) s
     = Some (Ok (PInt (-1)), received (polled s) no_answer)
  /\ _parse_dns_response silent s
     = Some (Ok (PInt (-1)), advance s 23 1050).
Proof.
  intros s other_id no_answer.
  repeat split; vm_compute; reflexivity.
Qed.

(** ** The walk and the end of the buffer *)

Lemma visits_lower buf p : visits buf p -> 12 <= p.
Proof.
  induction 1 as [|p b _ IH _ _]; [lia|].
  pose proof (byte_val_range b). lia.
Qed.

Lemma skip_name_visits fuel : forall buf ptr name_len r,
  0 < name_len ->
  visits buf ptr ->
  skip_name fuel buf ptr name_len = Some r ->
  match r with
  | Ok q => exists p, visits buf p /\ p < Z.of_nat (length buf)
                      /\ nth_error buf (Z.to_nat p) = Some x00
                      /\ q = p + 1
  | Raise e => e = IndexError
               /\ exists p, visits buf p /\ Z.of_nat (length buf) <= p
  end.
Proof.
  induction fuel as [|fuel IH]; intros buf ptr name_len r Hn Hv H;
    simpl in H.
  - destruct (Z.gtb_spec name_len 0); [discriminate|lia].
  - destruct (Z.gtb_spec name_len 0); [|lia].
    pose proof (visits_lower _ _ Hv) as Hp.
    destruct (getitem buf ptr) as [b|e] eqn:G.
    + destruct (getitem_ok _ _ _ (ltac:(lia) : 0 <= ptr) G) as [Hlt Hnth].
      pose proof (byte_val_range b).
      destruct (Z.eqb_spec (byte_val b) 0) as [Hz|Hz].
      * injection H as <-. exists ptr.
        repeat split; try assumption.
        rewrite Hnth. f_equal. apply byte_val_inj. now rewrite Hz.
      * apply (IH buf _ _ r) in H; [assumption|lia|].
        now apply (visits_next buf ptr b).
    + injection H as <-.
      destruct (getitem_raise _ _ _ (ltac:(lia) : 0 <= ptr) G) as [-> Hge].
      split; [reflexivity|]. now exists ptr.
Qed.

(** For every received buffer the walk from offset 12 comes to an end.  It
    reads a length byte only at positions inside the buffer, and when it
    ends in order it stands just behind the first zero length byte it has
    read.  Otherwise its position has come to the end of the buffer or past
    it, and indexing the buffer there has raised [IndexError]. *)
Lemma walk_outcome buf :
  exists r,
    skip_name (S (length buf)) buf 12 1 = Some r
    /\ match r with
       | Ok q => exists p, visits buf p /\ p < Z.of_nat (length buf)
                           /\ nth_error buf (Z.to_nat p) = Some x00
                           /\ q = p + 1
       | Raise e => e = IndexError
                    /\ exists p, visits buf p /\ Z.of_nat (length buf) <= p
       end.
Proof.
  destruct (skip_name_total (S (length buf)) buf 12 1) as [r Hr]; try lia.
  exists r. split; [assumption|].
  apply (skip_name_visits (S (length buf)) buf 12 1 r);
    [lia|constructor|assumption].
Qed.

(** A buffer of 12 bytes or fewer has no byte at offset 12. *)
Lemma walk_short buf :
  (length buf <= 12)%nat ->
  skip_name (S (length buf)) buf 12 1 = Some (Raise IndexError).
Proof.
  intros Hlen. cbn [skip_name]. change (1 >? 0) with true. cbv iota.
  unfold getitem. change (12 <? 0) with false. cbv iota.
  destruct (Z.ltb_spec 12 (Z.of_nat (length buf))); [lia|].
  rewrite andb_false_r. reflexivity.
Qed.

(** C6, where the code departs from it.  The walk over the question name
    has no bound: [name_len = self._pkt_buf[ptr]] is not guarded.  It does
    come to an end on every buffer, and the length bytes it obtains all lie
    inside the buffer.  But it does index past the end: when the length
    bytes take its position to the end of the buffer or past it -- on every
    buffer of 12 bytes or fewer, which can pass the four header checks, and
    on a label that announces more bytes than are left -- the index
    operation raises [IndexError].  The exception is not caught:
    [gethostbyname] does not return [-1], as for every other malformed
    response, and it leaves the socket open with [close] not called. *)
Theorem C6_walk_overruns :
  (forall buf,
      exists r,
        skip_name (S (length buf)) buf 12 1 = Some r
        /\ match r with
           | Ok q => exists p, visits buf p /\ p < Z.of_nat (length buf)
                               /\ nth_error buf (Z.to_nat p) = Some x00
                               /\ q = p + 1
           | Raise e => e = IndexError
                        /\ exists p, visits buf p
                                     /\ Z.of_nat (length buf) <= p
           end)
  /\ (forall buf,
         (length buf <= 12)%nat ->
         skip_name (S (length buf)) buf 12 1 = Some (Raise IndexError))
  /\ length header_only = 12%nat
  /\ field16 header_only 0 = 0xBEEF
  /\ field16 header_only 2 = 0x8180
  /\ field16 header_only 4 = 1
  /\ field16 header_only 6 = 1
  /\ getitem header_only 12 = Raise IndexError
  /\ skip_name (S (length short_label)) short_label 12 1
     = Some (Raise IndexError)
  /\ (exists s',
         gethostbyname (prompt header_only) example_com
                       (fresh (Some resolver))
         = Some (Raise IndexError, s')
         /\ is_open (_sock (self s')) = true
         /\ closes (_sock (self s')) = 0%nat)
  /\ (exists s',
         gethostbyname (prompt short_label) example_com
                       (fresh (Some resolver))
         = Some (Raise IndexError, s')
         /\ is_open (_sock (self s')) = true
         /\ closes (_sock (self s')) = 0%nat).
Proof.
  split; [exact walk_outcome|].
  split; [exact walk_short|].
  repeat (split; [vm_compute; reflexivity|]).
  split; (eexists; split; [vm_compute; reflexivity|]; split; reflexivity).
Qed.

(** ** The length of the address *)

Lemma find_from_lower pat b : forall i, 0 <= i -> -1 <= find_from b pat i.
Proof.
  induction b as [|x b IH]; intros i Hi; cbn [find_from].
  - destruct (starts_with pat []); lia.
  - destruct (starts_with pat (x :: b)); [lia|]. apply IH. lia.
Qed.

(** An address the validation returns has at most four bytes, and four
    when the buffer reaches 16 bytes behind the place the scan found. *)
Lemma address_length buf rid a :
  check_response buf rid = Some (Ok (PBytes a)) ->
  (length a <= 4)%nat
  /\ (find buf [xc0; x0c] + 16 <= Z.of_nat (length buf) ->
      length a = 4%nat).
Proof.
  intros Hc. pose proof (check_response_values _ _ _ Hc) as ->.
  pose proof (find_from_lower [xc0; x0c] buf 0 (Z.le_refl 0)) as Hidx.
  fold (find buf [xc0; x0c]) in Hidx.
  set (idx := find buf [xc0; x0c]) in *.
  split.
  - assert (Z.of_nat (length (slice buf (idx + 12) (idx + 16)))
            <= idx + 16 - (idx + 12))
      by (apply slice_length_le; lia).
    lia.
  - intros Hlen.
    assert (Z.of_nat (length (slice buf (idx + 12) (idx + 16)))
            = idx + 16 - (idx + 12))
      by (apply slice_length_in; lia).
    lia.
Qed.

(** C7, where the code departs from it.  The reply to [example.com] cut
    off two bytes into the address passes every check -- RDLENGTH still
    reads 4 -- and [gethostbyname] returns the two bytes that are there. *)
Theorem C7_partial_address :
  spec_first_failure cut_reply 0xBEEF = None
  /\ exists s',
       gethostbyname (prompt cut_reply) example_com (fresh (Some resolver))
       = Some (Ok (PBytes [x5d; xb8]), s')
       /\ length [x5d; xb8] = 2%nat.
Proof.
  split; [vm_compute; reflexivity|].
  eexists. split; [vm_compute; reflexivity|reflexivity].
Qed.

(** ** The packet buffer from call to call *)

(** Building the query only appends: after header and question the buffer
    is what it was, then the header, then question bytes. *)
Lemma build_appends `{TextCodec} E s r s' :
  (_build_dns_header E ;; _build_dns_question) s = Some (r, s') ->
  exists q,
    _pkt_buf (self s')
    = _pkt_buf (self s) ++ spec_header (next_id E s) ++ q.
Proof.
  intros Hb. rewrite (bind_ok _ _ _ _ _ (build_header_run E s)) in Hb.
  destruct (build_question_appends _ _ _ Hb) as [q ->].
  exists q. cbn. now rewrite <- app_assoc.
Qed.

(** C8, where the code departs from it.  Two calls on one client, no reply
    to either.  The first sends the 29 bytes of its query.  The second
    appends its header and question to the buffer the first has left: the
    packet it sends is the first query followed by the second, 58 bytes
    that begin with the header of the call before. *)
Theorem C8_second_call_keeps_old_bytes :
  let q1 := spec_header 0xBEEF ++ spec_question example_com in
  let q2 := spec_header 0xBEF0 ++ spec_question example_com in
  exists s1 s2,
    gethostbyname silent example_com (fresh (Some resolver))
    = Some (Ok (PInt (-1)), s1)
    /\ sent (_sock (self s1)) = [q1]
    /\ _pkt_buf (self s1) = q1
    /\ gethostbyname silent example_com s1 = Some (Ok (PInt (-1)), s2)
    /\ _request_id (self s2) = 0xBEF0
    /\ sent (_sock (self s2)) = [q1; q1 ++ q2]
    /\ firstn 12 (q1 ++ q2) = spec_header 0xBEEF
    /\ length (q1 ++ q2) = 58%nat.
Proof.
  intros q1 q2. eexists _, _.
  split; [vm_compute; reflexivity|].
  split; [reflexivity|].
  split; [reflexivity|].
  split; [vm_compute; reflexivity|].
  repeat split; reflexivity.
Qed.

(** A call that finds the buffer of an earlier call that got no reply. *)
Lemma second_call_sends `{TextCodec} E server debug host1 host2 clk dr :
  Forall is_ascii host1 ->
  Forall (fun l : bytes => (length l <= 255)%nat)
         (split Byte.eqb x2e host1) ->
  Forall is_ascii host2 ->
  Forall (fun l : bytes => (length l <= 255)%nat)
         (split Byte.eqb x2e host2) ->
  (forall k, (k < 68)%nat -> available_at E k <= 0) ->
  let s0 := mkState (__init__ (Some server) debug) clk dr in
  exists s1,
    gethostbyname E host1 s0 = Some (Ok (PInt (-1)), s1)
    /\ _pkt_buf (self s1) = spec_header (next_id E s0) ++ spec_question host1
    /\ _request_id (self s1) = next_id E s0
    /\ exists sr,
         gethostbyname E host2 s1
         = finish (retry E 3 0 (PInt (-1)) sr)
         /\ _request_id (self sr) = next_id E s1
         /\ sent (_sock (self sr))
            = [spec_header (next_id E s0) ++ spec_question host1;
               (spec_header (next_id E s0) ++ spec_question host1)
               ++ spec_header (next_id E s1) ++ spec_question host2].
Proof.
  intros Ha1 Hl1 Ha2 Hl2 Hq s0.
  rewrite (gethostbyname_ascii E host1 s0 server eq_refl Ha1 Hl1).
  rewrite retry_quiet
    by (intros k Hk; cbn; rewrite Nat.add_0_r; apply Hq; exact Hk).
  match goal with
  | |- context [timed_out E (timed_out E (timed_out E ?sd))] =>
      destruct (timed_out_thrice E sd) as (n & Hn & ->)
  end.
  cbn [finish]. eexists. split; [reflexivity|].
  split; [reflexivity|]. split; [reflexivity|].
  eexists. split.
  - apply (gethostbyname_ascii E host2 _ server); [reflexivity|assumption..].
  - split; reflexivity.
Qed.

(** C1, where the code departs from it.  The packet a call sends is the
    packet buffer as the call found it, followed by the header and the
    question, and the buffer is emptied only when the client is
    constructed.  The first call on a client sends the packet of the claim
    (lemma [first_call_packet]).  A later call does not: after a call
    that got no reply, the packet of the next call begins with the 12
    header bytes of the call before, under the identifier of the call
    before and not the one just drawn, and what follows these 12 bytes is
    the old question, then the new header, then the new question.  For two
    calls for [example.com] the packet has 58 bytes, and the bytes behind
    its first 12 are not [07 65 78 61 6D 70 6C 65 03 63 6F 6D 00 00 01 00
    01]. *)
Theorem C1_packet_on_later_call :
  (forall (C : TextCodec) E server debug host1 host2 clk dr,
      Forall is_ascii host1 ->
      Forall (fun l : bytes => (length l <= 255)%nat)
             (split Byte.eqb x2e host1) ->
      Forall is_ascii host2 ->
      Forall (fun l : bytes => (length l <= 255)%nat)
             (split Byte.eqb x2e host2) ->
      (forall k, (k < 68)%nat -> available_at E k <= 0) ->
      let s0 := mkState (__init__ (Some server) debug) clk dr in
      exists s1 r s2 pkt,
        gethostbyname E host1 s0 = Some (Ok (PInt (-1)), s1)
        /\ gethostbyname E host2 s1 = Some (r, s2)
        /\ sent (_sock (self s2))
           = [spec_header (next_id E s0) ++ spec_question host1; pkt]
        /\ _request_id (self s2) = next_id E s1
        /\ firstn 12 pkt = spec_header (next_id E s0)
        /\ field16 pkt 0 = next_id E s0
        /\ skipn 12 pkt
           = spec_question host1 ++ spec_header (next_id E s1)
             ++ spec_question host2)
  /\ (let q1 := spec_header 0xBEEF ++ spec_question example_com in
      let q2 := spec_header 0xBEF0 ++ spec_question example_com in
      exists s1 s2 pkt,
        gethostbyname silent example_com (fresh (Some resolver))
        = Some (Ok (PInt (-1)), s1)
        /\ gethostbyname silent example_com s1 = Some (Ok (PInt (-1)), s2)
        /\ sent (_sock (self s2)) = [q1; pkt]
        /\ length pkt = 58%nat
        /\ _request_id (self s2) = 0xBEF0
        /\ field16 pkt 0 = 0xBEEF
        /\ firstn 12 pkt = spec_header 0xBEEF
        /\ firstn 12 pkt <> spec_header 0xBEF0
        /\ skipn 12 pkt = spec_question example_com ++ q2
        /\ skipn 12 pkt
           <> [x07; x65; x78; x61; x6d; x70; x6c; x65; x03; x63; x6f; x6d;
               x00; x00; x01; x00; x01]).
Proof.
  split.
  - intros C E server debug host1 host2 clk dr Ha1 Hl1 Ha2 Hl2 Hq s0.
    destruct (second_call_sends E server debug host1 host2 clk dr
                Ha1 Hl1 Ha2 Hl2 Hq)
      as (s1 & H1 & _ & _ & sr & H2 & Hrid & Hsent).
    fold s0 in H1, Hrid, Hsent.
    destruct (finish_retry E sr) as (r & s2 & _ & Hsame & Hf).
    rewrite Hf in H2.
    destruct (after_call r _ _ Hsame) as (Hsent' & Hrid' & _).
    cbv zeta in Hsent', Hrid'.
    pose proof (next_id_range E s0) as Hid.
    destruct (header_fields (next_id E s0)
                (spec_question host1 ++ spec_header (next_id E s1)
                 ++ spec_question host2) Hid)
      as (F0 & F1 & F2 & _).
    exists s1, r, (match r with Ok _ => closed s2 | Raise _ => s2 end),
      ((spec_header (next_id E s0) ++ spec_question host1)
       ++ spec_header (next_id E s1) ++ spec_question host2).
    split; [exact H1|]. split; [exact H2|].
    split; [rewrite Hsent'; exact Hsent|].
    split; [rewrite Hrid'; exact Hrid|].
    rewrite <- !app_assoc. repeat split; assumption.
  - intros q1 q2. eexists _, _, _.
    split; [vm_compute; reflexivity|].
    split; [vm_compute; reflexivity|].
    split; [reflexivity|].
    repeat split; try reflexivity; vm_compute; discriminate.
Qed.

(** C2, where the code departs from it.  The identifier a response must
    carry is the one drawn for the call; the identifier transmitted is what
    stands in bytes 0 and 1 of the packet sent.  On the first call on a
    client the two agree (lemma [first_call_transaction_id]).  On a call
    that follows a call without reply they do not: the packet begins with
    the old header, so its bytes 0 and 1 carry the identifier of the call
    before, while a response is accepted only under the identifier just
    drawn.  With [0xBEEF] drawn for the first call and [0xBEF0] for the
    second, the second call transmits [BE EF], accepts the response that
    begins [BE F0], and turns down the response that echoes [BE EF]. *)
Theorem C2_id_on_later_call :
  (forall (C : TextCodec) E server debug host1 host2 clk dr addr s1 s2,
      Forall is_ascii host1 ->
      Forall (fun l : bytes => (length l <= 255)%nat)
             (split Byte.eqb x2e host1) ->
      Forall is_ascii host2 ->
      Forall (fun l : bytes => (length l <= 255)%nat)
             (split Byte.eqb x2e host2) ->
      (forall k, (k < 68)%nat -> available_at E k <= 0) ->
      let s0 := mkState (__init__ (Some server) debug) clk dr in
      gethostbyname E host1 s0 = Some (Ok (PInt (-1)), s1) ->
      gethostbyname E host2 s1 = Some (Ok (PBytes addr), s2) ->
      exists q1 pkt,
        sent (_sock (self s2)) = [q1; pkt]
        /\ field16 pkt 0 = next_id E s0
        /\ check_response (_pkt_buf (self s2)) (next_id E s1)
           = Some (Ok (PBytes addr))
        /\ field16 (_pkt_buf (self s2)) 0 = next_id E s1)
  /\ (let q1 := spec_header 0xBEEF ++ spec_question example_com in
      let E1 := late 69 (example_reply [xbe; xf0] x01) in
      let E2 := late 69 (example_reply [xbe; xef] x01) in
      (exists s1 s2 pkt,
          gethostbyname E1 example_com (fresh (Some resolver))
          = Some (Ok (PInt (-1)), s1)
          /\ gethostbyname E1 example_com s1
             = Some (Ok (PBytes [x5d; xb8; xd8; x22]), s2)
          /\ sent (_sock (self s2)) = [q1; pkt]
          /\ firstn 2 pkt = [xbe; xef]
          /\ firstn 2 (_pkt_buf (self s2)) = [xbe; xf0])
      /\ (exists s1 s2 pkt,
             gethostbyname E2 example_com (fresh (Some resolver))
             = Some (Ok (PInt (-1)), s1)
             /\ gethostbyname E2 example_com s1 = Some (Ok (PInt (-1)), s2)
             /\ sent (_sock (self s2)) = [q1; pkt]
             /\ firstn 2 pkt = [xbe; xef]
             /\ firstn 2 (_pkt_buf (self s2)) = [xbe; xef]
             /\ recvs (_sock (self s2)) = 3%nat)).
Proof.
  split.
  - intros C E server debug host1 host2 clk dr addr s1 s2
      Ha1 Hl1 Ha2 Hl2 Hq s0 H1 H2.
    destruct (second_call_sends E server debug host1 host2 clk dr
                Ha1 Hl1 Ha2 Hl2 Hq)
      as (s1' & H1' & _ & _ & sr & H2' & Hrid & Hsent).
    fold s0 in H1', Hrid, Hsent.
    rewrite H1 in H1'. injection H1' as <-.
    rewrite H2' in H2.
    destruct (finish_retry E sr) as (r & s2x & Hr & Hsame & Hf).
    rewrite Hf in H2. injection H2 as -> <-.
    pose proof (retry_accepts _ _ _ _ _ _ Hr) as Hacc.
    rewrite Hrid in Hacc.
    destruct (after_call (Ok (PBytes addr)) _ _ Hsame) as (Hsent' & _).
    cbv zeta in Hsent'.
    pose proof (next_id_range E s0) as Hid0.
    pose proof (next_id_range E s1) as Hid1.
    pose proof (check_response_id _ _ _ Hacc) as Hfirst.
    change (_pkt_buf (self (closed s2x))) with (_pkt_buf (self s2x)).
    eexists _, _. split; [rewrite Hsent'; exact Hsent|].
    split.
    + rewrite <- app_assoc.
      now apply (header_fields (next_id E s0)).
    + split; [exact Hacc|].
      destruct (_pkt_buf (self s2x)) as [|x [|y rest]]; try discriminate.
      injection Hfirst as -> ->.
      now apply field16_id_bytes.
  - intros q1 E1 E2. split.
    + eexists _, _, _.
      split; [vm_compute; reflexivity|].
      split; [vm_compute; reflexivity|].
      split; [reflexivity|]. split; reflexivity.
    + eexists _, _, _.
      split; [vm_compute; reflexivity|].
      split; [vm_compute; reflexivity|].
      split; [reflexivity|]. repeat split; reflexivity.
Qed.

(** ** A response without the pointer [C0 0C] *)


Lemma slice_beyond b i j :
  0 <= i -> 0 <= j -> Z.of_nat (length b) <= i -> slice b i j = [].
Proof.
  intros Hi Hj Hlen.
  destruct (slice_nonneg b i j Hi) as [E|E]; [|lia].
  rewrite E. rewrite (Z.min_r i) by lia.
  rewrite Nat2Z.id, skipn_all. now rewrite firstn_nil.
Qed.

(** When a datagram is there at the first poll, the attempt is [recv]
    followed by the validation. *)
Lemma parse_ready E s :
  0 < available_at E (polls (_sock (self s))) ->
  _parse_dns_response E s =
  match check_response (recv_at E (recvs (_sock (self s))))
                       (_request_id (self s)) with
  | Some r => Some (r, received (polled s)
                                (recv_at E (recvs (_sock (self s)))))
  | None => None
  end.
Proof.
  intros Hav. rewrite parse_unfold, wait_ready by assumption. reflexivity.
Qed.

(** The validation behind the checks of header and question, with the
    place of the answer given by the scan. *)
Lemma check_response_answer buf rid ptr :
  field16 buf 0 = rid ->
  field16 buf 2 = 0x8180 ->
  1 <= field16 buf 4 ->
  1 <= field16 buf 6 ->
  skip_name (S (length buf)) buf 12 1 = Some (Ok ptr) ->
  field16 buf ptr = 1 ->
  field16 buf (ptr + 2) = 1 ->
  let idx := find buf [xc0; x0c] in
  check_response buf rid =
  Some (Ok (if (int_from_bytes (slice buf (idx + 2) (idx + 4)) "big" =? 1)
               && (int_from_bytes (slice buf (idx + 4) (idx + 6)) "big" =? 1)
               && (int_from_bytes (slice buf (idx + 10) (idx + 12)) "big" =? 4)
            then PBytes (slice buf (idx + 12) (idx + 16))
            else PInt (-1))).
Proof.
  unfold field16, check_response, TYPE_A, CLASS_IN, DATA_LEN.
  change (0 + 2) with 2. change (2 + 2) with 4. change (4 + 2) with 6.
  change (6 + 2) with 8.
  rewrite <- !int_from_bytes_l_big.
  intros -> -> H4 H6 -> -> ->. cbv zeta.
  rewrite !geb_1_ltb.
  destruct (Z.ltb_spec (int_from_bytes (slice buf 4 6) "l") 1); [lia|].
  destruct (Z.ltb_spec (int_from_bytes (slice buf 6 8) "l") 1); [lia|].
  rewrite Z.eqb_refl. cbn [negb Z.eqb Pos.eqb].
  repeat match goal with
         | |- context [?x =? ?y] => destruct (x =? y)
         end; reflexivity.
Qed.



Lemma slice_four a b c d rest :
  slice (a :: b :: c :: d :: rest) 1 3 = [b; c]
  /\ slice (a :: b :: c :: d :: rest) 2 4 = [c; d].
Proof.
  unfold slice, clamp. cbn [Z.ltb Z.compare].
  assert (4 <= Z.of_nat (length (a :: b :: c :: d :: rest)))
    by (simpl length; lia).
  rewrite !Z.min_l by lia. split; reflexivity.
Qed.

(** Such a buffer is in fact never accepted: bytes 1-2, read as the answer
    TYPE, end in the high byte [0x81] of the flags that the buffer had to
    show before, and so never read 1. *)
Lemma no_pointer_never_accepted buf rid a :
  find buf [xc0; x0c] = -1 ->
  check_response buf rid <> Some (Ok (PBytes a)).
Proof.
  intros Hfind. unfold check_response, TYPE_A.
  destruct (int_from_bytes (slice buf 0 2) "l" =? rid); cbn [negb];
    [|discriminate].
  destruct (Z.eqb_spec (int_from_bytes (slice buf 2 4) "l") 33152)
    as [Hfl|]; cbn [negb]; [|discriminate].
  destruct (int_from_bytes (slice buf 4 6) "l" >=? 1); cbn [negb];
    [|discriminate].
  destruct (int_from_bytes (slice buf 6 8) "l" >=? 1); cbn [negb];
    [|discriminate].
  destruct (skip_name (S (length buf)) buf 12 1) as [[ptr|e]|];
    [|discriminate|discriminate].
  destruct (int_from_bytes (slice buf ptr (ptr + 2)) "l" =? 1); cbn [negb];
    [|discriminate].
  destruct (int_from_bytes (slice buf (ptr + 2) (ptr + 2 + 2)) "l" =? 1);
    cbn [negb]; [|discriminate].
  cbv zeta. rewrite Hfind. change (-1 + 2) with 1. change (-1 + 4) with 3.
  destruct (Z.eqb_spec (int_from_bytes (slice buf 1 3) "l") 1) as [Hty|];
    cbn [negb]; [|discriminate].
  exfalso.
  destruct buf as [|x [|y [|z [|w rest]]]].
  - discriminate Hfl.
  - discriminate Hfl.
  - discriminate Hfl.
  - change (slice [x; y; z] 2 4) with [z] in Hfl.
    rewrite int_from_bytes_one in Hfl.
    pose proof (byte_val_range z). lia.
  - destruct (slice_four x y z w rest) as [E13 E24].
    rewrite E13, int_from_bytes_two in Hty.
    rewrite E24, int_from_bytes_two in Hfl.
    pose proof (byte_val_range y). pose proof (byte_val_range z).
    pose proof (byte_val_range w). lia.
Qed.

(** An attempt on a datagram without the pair [C0 0C] never returns an
    address: whatever it returns is [-1]. *)
Lemma no_pointer_rejected E s v s' :
  _parse_dns_response E s = Some (Ok v, s') ->
  find (recv_at E (recvs (_sock (self s)))) [xc0; x0c] = -1 ->
  v = PInt (-1).
Proof.
  intros Hp Hfind.
  destruct (parse_cases E s) as (n & t & [Hq|(r1 & Hc & Hq)]);
    rewrite Hq in Hp; injection Hp as Hr Hs'; subst; [reflexivity|].
  pose proof (check_response_values _ _ _ Hc) as Hv.
  destruct v as [z|a]; simpl in Hv; [now subst z|].
  exfalso. exact (no_pointer_never_accepted _ _ a Hfind Hc).
Qed.

Lemma no_pointer_rejected_witness : PInt (-1) = PInt (-1).
Proof.
  apply (no_pointer_rejected (prompt no_pointer)
           (dispatched (fresh (Some resolver)) resolver example_com 0xBEEF
              (spec_header 0xBEEF ++ spec_question example_com))
           (PInt (-1))
           (received
              (polled
                 (dispatched (fresh (Some resolver)) resolver example_com
                    0xBEEF (spec_header 0xBEEF ++ spec_question example_com)))
              no_pointer)).
  - vm_compute. reflexivity.
  - vm_compute. reflexivity.
Defined.

Lemma gethostbyname_closes_witness :
  closes (_sock (self example_resolved)) = 1%nat
  /\ is_open (_sock (self example_resolved)) = false.
Proof.
  apply (@gethostbyname_closes ascii_codec
           (prompt (example_reply [xbe; xef] x01)) example_com
           (fresh (Some resolver)) resolver (PBytes [x5d; xb8; xd8; x22])
           example_resolved).
  - reflexivity.
  - vm_compute. reflexivity.
Defined.

(** ** Termination *)

(** [gethostbyname] always comes to an end, with a value or an exception:
    no loop of it outlasts its fuel, whatever the surroundings answer. *)
Lemma gethostbyname_total `{TextCodec} E hostname s :
  exists r s', gethostbyname E hostname s = Some (r, s').
Proof.
  destruct (_dns_server (self s)) as [server|] eqn:Hs.
  - destruct (gethostbyname_cases E hostname s server Hs)
      as [q [(e & s1 & He & _)|Hc]].
    + eauto.
    + rewrite Hc.
      destruct (finish_retry E
                  (dispatched s server hostname (next_id E s)
                     (_pkt_buf (self s) ++ spec_header (next_id E s) ++ q)))
        as (r & s1 & _ & _ & Hf).
      rewrite Hf. eauto.
  - rewrite gethostbyname_no_server by assumption. eauto.
Qed.

(** ** What becomes of a response without the pointer *)






(** * Further properties of the resolver *)

(** ** More on slices and indexing *)

Lemma slice_app_r a b i j :
  0 <= i -> 0 <= j ->
  slice (a ++ b) (Z.of_nat (length a) + i) (Z.of_nat (length a) + j)
  = slice b i j.
Proof.
  intros Hi Hj.
  destruct (slice_nonneg (a ++ b) (Z.of_nat (length a) + i)
              (Z.of_nat (length a) + j)) as [E|E]; [lia| |lia].
  destruct (slice_nonneg b i j Hi) as [E'|E']; [|lia].
  rewrite E, E', length_app, Nat2Z.inj_add.
  replace (Z.min (Z.of_nat (length a) + j)
                 (Z.of_nat (length a) + Z.of_nat (length b)))
    with (Z.of_nat (length a) + Z.min j (Z.of_nat (length b))) by lia.
  replace (Z.min (Z.of_nat (length a) + i)
                 (Z.of_nat (length a) + Z.of_nat (length b)))
    with (Z.of_nat (length a) + Z.min i (Z.of_nat (length b))) by lia.
  replace (Z.to_nat (Z.of_nat (length a) + Z.min i (Z.of_nat (length b))))
    with (length a + Z.to_nat (Z.min i (Z.of_nat (length b))))%nat by lia.
  rewrite skipn_app, skipn_all2 by lia.
  replace (length a + Z.to_nat (Z.min i (Z.of_nat (length b))) - length a)%nat
    with (Z.to_nat (Z.min i (Z.of_nat (length b)))) by lia.
  cbn [app]. f_equal. lia.
Qed.

Lemma getitem_app_at pre x rest :
  getitem (pre ++ x :: rest) (Z.of_nat (length pre)) = Ok x.
Proof.
  unfold getitem.
  destruct (Z.ltb_spec (Z.of_nat (length pre)) 0); [lia|].
  rewrite length_app. cbn [length].
  destruct (Z.leb_spec 0 (Z.of_nat (length pre))); [|lia].
  destruct (Z.ltb_spec (Z.of_nat (length pre))
              (Z.of_nat (length pre + S (length rest)))); [|lia].
  cbn [andb]. rewrite Nat2Z.id, nth_error_app2 by lia.
  now rewrite Nat.sub_diag.
Qed.

(** ** The walk over a name the builder wrote *)

Lemma skip_name_S fuel buf ptr name_len :
  skip_name (S fuel) buf ptr name_len =
  if name_len >? 0 then
    match getitem buf ptr with
    | Raise e => Some (Raise e)
    | Ok b =>
        if byte_val b =? 0 then Some (Ok (ptr + 1))
        else skip_name fuel buf (ptr + (byte_val b + 1)) (byte_val b)
    end
  else Some (Ok ptr).
Proof. reflexivity. Qed.

Lemma skip_name_fuel_more fuel : forall buf ptr name_len r,
  skip_name fuel buf ptr name_len = Some r ->
  skip_name (S fuel) buf ptr name_len = Some r.
Proof.
  induction fuel as [|fuel IH]; intros buf ptr name_len r H.
  - simpl in H. destruct (name_len >? 0) eqn:E; [discriminate|].
    simpl. now rewrite E.
  - cbn [skip_name] in H |- *.
    destruct (name_len >? 0); [|assumption].
    destruct (getitem buf ptr) as [b|e]; [|assumption].
    destruct (byte_val b =? 0); [assumption|].
    now apply IH.
Qed.

Lemma skip_name_fuel_le fuel fuel' buf ptr name_len r :
  (fuel <= fuel')%nat ->
  skip_name fuel buf ptr name_len = Some r ->
  skip_name fuel' buf ptr name_len = Some r.
Proof.
  induction 1 as [|fuel' _ IH]; [trivial|].
  intros H. apply skip_name_fuel_more. now apply IH.
Qed.

(** Over labels that are not empty and whose length fits the length byte
    the walk steps from label to label and stops behind the zero byte that
    ends the name. *)
Lemma skip_name_labels labels : forall pre rest name_len,
  0 < name_len ->
  Forall (fun l : bytes => (1 <= length l <= 255)%nat) labels ->
  skip_name (S (length labels))
    (pre ++ flat_map (fun l => byte_of (Z.of_nat (length l)) :: l) labels
         ++ x00 :: rest)
    (Z.of_nat (length pre)) name_len
  = Some (Ok (Z.of_nat (length pre)
              + Z.of_nat (length (flat_map
                   (fun l => byte_of (Z.of_nat (length l)) :: l) labels))
              + 1)).
Proof.
  induction labels as [|l labels IH]; intros pre rest name_len Hn Hl.
  - cbn [flat_map app length]. rewrite skip_name_S.
    destruct (Z.gtb_spec name_len 0); [|lia].
    rewrite getitem_app_at.
    change (byte_val x00 =? 0) with true. cbv iota. do 2 f_equal. lia.
  - inversion Hl as [|? ? Hl1 Hl2]; subst.
    cbn [flat_map]. cbn [length]. rewrite skip_name_S.
    destruct (Z.gtb_spec name_len 0); [|lia].
    rewrite <- !app_assoc. cbn [app].
    rewrite getitem_app_at.
    rewrite byte_val_byte_of by lia.
    destruct (Z.eqb_spec (Z.of_nat (length l)) 0); [lia|].
    specialize (IH (pre ++ byte_of (Z.of_nat (length l)) :: l) rest
                   (Z.of_nat (length l))).
    rewrite <- app_assoc in IH. cbn [app] in IH.
    replace (Z.of_nat (length pre) + (Z.of_nat (length l) + 1))
      with (Z.of_nat (length (pre ++ byte_of (Z.of_nat (length l)) :: l)))
      by (rewrite length_app; cbn [length]; lia).
    rewrite IH by (assumption || lia).
    do 2 f_equal.
    rewrite !length_app. cbn [length]. rewrite length_app. lia.
Qed.

(** ** A reply as a resolver sends it *)

(** The scan passes over bytes other than [C0]. *)
Lemma find_from_skip a : forall c i,
  Forall (fun b => b <> xc0) a ->
  find_from (a ++ xc0 :: x0c :: c) [xc0; x0c] i = i + Z.of_nat (length a).
Proof.
  induction a as [|x a IH]; intros c i Ha.
  - cbn. lia.
  - inversion Ha as [|? ? Hx Ha']; subst.
    cbn [app find_from starts_with].
    destruct (Byte.eqb xc0 x) eqn:E.
    + apply Byte.byte_dec_bl in E. congruence.
    + rewrite IH by assumption. cbn [length]. lia.
Qed.

Lemma labels_length_le (labels : list bytes) :
  (length labels
   <= length (flat_map (fun l => byte_of (Z.of_nat (length l)) :: l) labels))%nat.
Proof.
  induction labels as [|l labels IH]; [simpl; lia|].
  change (flat_map (fun l => byte_of (Z.of_nat (length l)) :: l) (l :: labels))
    with ((byte_of (Z.of_nat (length l)) :: l)
          ++ flat_map (fun l => byte_of (Z.of_nat (length l)) :: l) labels).
  rewrite length_app. cbn [length]. lia.
Qed.

Lemma byte_ne_c0 b : byte_val b <> 192 -> b <> xc0.
Proof. intros H ->. apply H. reflexivity. Qed.

Lemma name_no_c0 labels :
  Forall plain_label labels ->
  Forall (fun b => b <> xc0)
         (flat_map (fun l => byte_of (Z.of_nat (length l)) :: l) labels).
Proof.
  induction 1 as [|l labels [Hlen Hasc] _ IH]; [constructor|].
  change (flat_map (fun l => byte_of (Z.of_nat (length l)) :: l) (l :: labels))
    with (byte_of (Z.of_nat (length l))
          :: l ++ flat_map (fun l => byte_of (Z.of_nat (length l)) :: l) labels).
  constructor.
  - apply byte_ne_c0. rewrite byte_val_byte_of by lia. lia.
  - apply Forall_app. split; [|assumption].
    eapply Forall_impl; [|exact Hasc].
    intros b Hb. apply byte_ne_c0. unfold is_ascii in Hb. unfold byte_val. lia.
Qed.

Lemma id_bytes_value id :
  0 <= id < 65536 ->
  int_from_bytes [byte_of (id / 256); byte_of (id mod 256)] "l" = id.
Proof.
  intros Hid. rewrite int_from_bytes_two.
  assert (0 <= id / 256 < 256)
    by (split; [apply Z.div_pos; lia | apply Z.div_lt_upper_bound; lia]).
  assert (0 <= id mod 256 < 256) by (apply Z.mod_pos_bound; lia).
  rewrite !byte_val_byte_of by assumption.
  symmetry. apply Z_div_mod_eq_full.
Qed.

Lemma slice_in_app pre mid post i j :
  0 <= i -> i <= j -> j <= Z.of_nat (length mid) ->
  slice (pre ++ mid ++ post) (Z.of_nat (length pre) + i)
        (Z.of_nat (length pre) + j)
  = slice mid i j.
Proof.
  intros Hi Hij Hj. rewrite slice_app_r by lia. now apply slice_app_l.
Qed.

Lemma question_no_c0 hostname :
  Forall plain_label (split Byte.eqb x2e hostname) ->
  Forall (fun b => b <> xc0) (spec_question hostname).
Proof.
  intros Hl. unfold spec_question.
  apply Forall_app. split; [now apply name_no_c0|].
  repeat constructor; discriminate.
Qed.

Lemma find_behind_id hi lo t c :
  ~ (hi = xc0 /\ lo = x0c) ->
  Forall (fun b => b <> xc0) t ->
  find (hi :: lo :: x81 :: t ++ xc0 :: x0c :: c) [xc0; x0c]
  = 3 + Z.of_nat (length t).
Proof.
  intros Hid Ht. unfold find. cbn [find_from starts_with].
  destruct (Byte.eqb xc0 hi) eqn:E1.
  - apply Byte.byte_dec_bl in E1. subst hi.
    destruct (Byte.eqb x0c lo) eqn:E2.
    + apply Byte.byte_dec_bl in E2. subst lo. exfalso. now apply Hid.
    + destruct (Byte.eqb xc0 lo);
        change (Byte.eqb x0c x81) with false; cbv iota;
        change (Byte.eqb xc0 x81) with false; cbv iota;
        rewrite find_from_skip by assumption; lia.
  - destruct (Byte.eqb xc0 lo);
      change (Byte.eqb x0c x81) with false; cbv iota;
      change (Byte.eqb xc0 x81) with false; cbv iota;
      rewrite find_from_skip by assumption; lia.
Qed.

Lemma id_not_pointer id :
  0 <= id < 65536 -> id <> 0xC00C ->
  ~ (byte_of (id / 256) = xc0 /\ byte_of (id mod 256) = x0c).
Proof.
  intros Hid Hne [E1 E2].
  assert (0 <= id / 256 < 256)
    by (split; [apply Z.div_pos; lia | apply Z.div_lt_upper_bound; lia]).
  assert (0 <= id mod 256 < 256) by (apply Z.mod_pos_bound; lia).
  apply (f_equal byte_val) in E1, E2.
  rewrite byte_val_byte_of in E1, E2 by assumption.
  change (byte_val xc0) with 192 in E1. change (byte_val x0c) with 12 in E2.
  pose proof (Z_div_mod_eq_full id 256). lia.
Qed.

(** A reply that echoes the question the builder wrote and goes on with
    the pointer [C0 0C]: the checks of header and question pass, the walk
    ends behind the name, and the scan finds the pointer where the answer
    section begins. *)
Lemma reply_layout id hostname rest :
  0 <= id < 65536 -> id <> 0xC00C ->
  Forall plain_label (split Byte.eqb x2e hostname) ->
  let buf := reply_header id ++ spec_question hostname
             ++ xc0 :: x0c :: rest in
  let q := Z.of_nat (length (reply_header id ++ spec_question hostname)) in
  field16 buf 0 = id
  /\ field16 buf 2 = 0x8180
  /\ 1 <= field16 buf 4
  /\ 1 <= field16 buf 6
  /\ skip_name (S (length buf)) buf 12 1 = Some (Ok (q - 4))
  /\ field16 buf (q - 4) = 1
  /\ field16 buf (q - 4 + 2) = 1
  /\ find buf [xc0; x0c] = q.
Proof.
  intros Hid Hne Hl R q.
  set (enc := fun l : bytes => byte_of (Z.of_nat (length l)) :: l).
  set (labels := split Byte.eqb x2e hostname) in *.
  set (N := flat_map enc labels).
  set (H := reply_header id) in *.
  set (A := xc0 :: x0c :: rest) in *.
  assert (R = H ++ spec_question hostname ++ A) as E1 by reflexivity.
  assert (R = (H ++ N ++ [x00]) ++ [x00; x01; x00; x01] ++ A) as E2.
  { rewrite E1.
    change (spec_question hostname) with (N ++ [x00; x00; x01; x00; x01]).
    now rewrite <- !app_assoc. }
  assert (R = H ++ N ++ x00 :: ([x00; x01; x00; x01] ++ A)) as E4.
  { rewrite E2. now rewrite <- !app_assoc. }
  set (p := Z.of_nat (length (H ++ N ++ [x00]))).
  assert (q - 4 = p) as ->.
  { unfold q, p.
    change (spec_question hostname) with (N ++ [x00; x00; x01; x00; x01]).
    rewrite !length_app. cbn [length]. lia. }
  unfold field16.
  change (0 + 2) with 2. change (2 + 2) with 4. change (4 + 2) with 6.
  change (6 + 2) with 8. rewrite <- !int_from_bytes_l_big.
  repeat split.
  - rewrite E1, slice_app_l by (cbn; lia).
    change (slice H 0 2) with [byte_of (id / 256); byte_of (id mod 256)].
    now apply id_bytes_value.
  - rewrite E1, slice_app_l by (cbn; lia). reflexivity.
  - rewrite E1, slice_app_l by (cbn; lia). discriminate.
  - rewrite E1, slice_app_l by (cbn; lia). discriminate.
  - apply (skip_name_fuel_le (S (length labels))).
    + assert (length labels <= length N)%nat by apply labels_length_le.
      rewrite E4, !length_app. lia.
    + rewrite E4. change 12 with (Z.of_nat (length H)).
      unfold N, enc. rewrite skip_name_labels.
      * do 2 f_equal. unfold p, N, enc. rewrite !length_app. cbn [length].
        rewrite !Nat2Z.inj_add. change (Z.of_nat 1) with 1.
        rewrite Z.add_assoc. reflexivity.
      * lia.
      * eapply Forall_impl; [|exact Hl]. intros l [Hlen _]. lia.
  - rewrite E2. replace p with (p + 0) at 1 by lia. unfold p.
    rewrite slice_in_app by (cbn; lia). reflexivity.
  - rewrite E2. replace (p + 2 + 2) with (p + 4) by lia. unfold p.
    rewrite slice_in_app by (cbn; lia). reflexivity.
  - unfold q. rewrite E1. unfold H, reply_header, A.
    change (find
              (byte_of (id / 256) :: byte_of (id mod 256) :: x81
               :: ([x80; x00; x01; x00; x01; x00; x00; x00; x00]
                   ++ spec_question hostname)
               ++ xc0 :: x0c :: rest)
              [xc0; x0c]
            = Z.of_nat
                (length
                   (byte_of (id / 256) :: byte_of (id mod 256) :: x81
                    :: [x80; x00; x01; x00; x01; x00; x00; x00; x00]
                    ++ spec_question hostname))).
    rewrite find_behind_id.
    + cbn [length]. rewrite !length_app. cbn [length]. lia.
    + now apply id_not_pointer.
    + apply Forall_app. split; [repeat constructor; discriminate|].
      now apply question_no_c0.
Qed.

(** On such a reply the validation comes down to the record behind the
    first pointer: TYPE, CLASS and RDLENGTH are its bytes 0-1, 2-3 and 8-9,
    counted behind the pointer, and the address its bytes 10-13. *)
Lemma check_response_first_record id hostname rest :
  0 <= id < 65536 -> id <> 0xC00C ->
  Forall plain_label (split Byte.eqb x2e hostname) ->
  check_response
    (reply_header id ++ spec_question hostname ++ xc0 :: x0c :: rest) id
  = Some (Ok (if (field16 rest 0 =? 1) && (field16 rest 2 =? 1)
                 && (field16 rest 8 =? 4)
              then PBytes (slice rest 10 14)
              else PInt (-1))).
Proof.
  intros Hid Hne Hl.
  destruct (reply_layout id hostname rest Hid Hne Hl)
    as (H0 & H2 & H4 & H6 & Hw & Hq1 & Hq2 & Hf).
  rewrite (check_response_answer _ _ _ H0 H2 H4 H6 Hw Hq1 Hq2).
  cbv zeta. rewrite Hf.
  set (pre := reply_header id ++ spec_question hostname).
  assert (forall i j, 0 <= i -> 0 <= j ->
            slice (reply_header id ++ spec_question hostname
                   ++ xc0 :: x0c :: rest)
                  (Z.of_nat (length pre) + (2 + i))
                  (Z.of_nat (length pre) + (2 + j))
            = slice rest i j) as Hs.
  { intros i j Hi Hj.
    change (reply_header id ++ spec_question hostname ++ xc0 :: x0c :: rest)
      with (reply_header id ++ spec_question hostname
            ++ [xc0; x0c] ++ rest).
    rewrite app_assoc. fold pre.
    rewrite slice_app_r by lia.
    change 2 with (Z.of_nat (length [xc0; x0c])).
    now rewrite slice_app_r by lia. }
  unfold field16.
  replace (Z.of_nat (length pre) + 2) with (Z.of_nat (length pre) + (2 + 0))
    by lia.
  replace (Z.of_nat (length pre) + 4) with (Z.of_nat (length pre) + (2 + 2))
    by lia.
  replace (Z.of_nat (length pre) + 6) with (Z.of_nat (length pre) + (2 + 4))
    by lia.
  replace (Z.of_nat (length pre) + 10)
    with (Z.of_nat (length pre) + (2 + 8)) by lia.
  replace (Z.of_nat (length pre) + 12)
    with (Z.of_nat (length pre) + (2 + 10)) by lia.
  replace (Z.of_nat (length pre) + 16)
    with (Z.of_nat (length pre) + (2 + 14)) by lia.
  rewrite !Hs by lia.
  reflexivity.
Qed.

(** The validation accepts a reply whose first record is an A record of
    class IN with four bytes of data, and hands back these four bytes; the
    identifier [0xC00C] is the exception, see below. *)
Lemma check_response_valid_reply id hostname ttl addr rest :
  0 <= id < 65536 -> id <> 0xC00C ->
  Forall plain_label (split Byte.eqb x2e hostname) ->
  length ttl = 4%nat -> length addr = 4%nat ->
  check_response (valid_reply id hostname ttl addr rest) id
  = Some (Ok (PBytes addr)).
Proof.
  intros Hid Hne Hl Httl Haddr.
  destruct ttl as [|t1 [|t2 [|t3 [|t4 [|]]]]]; try discriminate Httl.
  destruct addr as [|a1 [|a2 [|a3 [|a4 [|]]]]]; try discriminate Haddr.
  change (valid_reply id hostname [t1; t2; t3; t4] [a1; a2; a3; a4] rest)
    with (reply_header id ++ spec_question hostname
          ++ xc0 :: x0c
             :: [x00; x01; x00; x01; t1; t2; t3; t4; x00; x04;
                 a1; a2; a3; a4] ++ rest).
  rewrite check_response_first_record by assumption.
  unfold field16. rewrite !slice_app_l by (cbn; lia).
  reflexivity.
Qed.

(** ** When an attempt receives *)

(** Data reported at the poll after [m] quiet ones, short of the second. *)
Lemma wait_arrival E m : forall fuel start packet_sz s,
  (m < fuel)%nat ->
  packet_sz <= 0 ->
  0 <= clock s - start ->
  clock s - start + 50 * Z.of_nat m < 1000 ->
  (forall k, (k < m)%nat ->
             available_at E (k + polls (_sock (self s))) <= 0) ->
  0 < available_at E (m + polls (_sock (self s))) ->
  wait_for_packet E fuel start packet_sz s
  = Some (Ok false, advance s (S m) (50 * Z.of_nat (S m))).
Proof.
  induction m as [|m IH]; intros fuel start packet_sz s Hf Hz He Hd Hq Ha;
    (destruct fuel as [|fuel]; [lia|]);
    rewrite wait_step by assumption;
    rewrite deadline_early by lia.
  - rewrite wait_ready by exact Ha. reflexivity.
  - rewrite (IH fuel start _ (advance s 1 50)).
    + rewrite advance_advance. f_equal. f_equal. f_equal. lia.
    + lia.
    + apply (Hq 0%nat). lia.
    + change (clock (advance s 1 50)) with (clock s + 50). lia.
    + change (clock (advance s 1 50)) with (clock s + 50). lia.
    + intros k Hk.
      change (polls (_sock (self (advance s 1 50))))
        with (S (polls (_sock (self s)))).
      replace (k + S (polls (_sock (self s))))%nat
        with (S k + polls (_sock (self s)))%nat by lia.
      apply Hq. lia.
    + change (polls (_sock (self (advance s 1 50))))
        with (S (polls (_sock (self s)))).
      replace (m + S (polls (_sock (self s))))%nat
        with (S m + polls (_sock (self s)))%nat by lia.
      exact Ha.
Qed.

(** An attempt whose poll number [j], counted from 0 and at most 20,
    is the first to report data receives one datagram after [j] sleeps and
    ends with the outcome of validating it.  Poll 20 is the last one made
    short of the second; at the second itself the test of the deadline can
    go either way. *)
Lemma parse_arrival E s j :
  (j <= 20)%nat ->
  (forall k, (k < j)%nat ->
             available_at E (k + polls (_sock (self s))) <= 0) ->
  0 < available_at E (j + polls (_sock (self s))) ->
  _parse_dns_response E s =
  match check_response (recv_at E (recvs (_sock (self s))))
                       (_request_id (self s)) with
  | Some r => Some (r, received (advance s (S j) (50 * Z.of_nat j))
                                (recv_at E (recvs (_sock (self s)))))
  | None => None
  end.
Proof.
  intros Hj Hq Ha. destruct j as [|j].
  - rewrite parse_ready by exact Ha. now rewrite polled_advance.
  - rewrite parse_unfold.
    rewrite (wait_arrival E j wait_fuel (clock s) _ (polled s)).
    + rewrite polled_advance, advance_advance.
      replace (0 + 50 * Z.of_nat (S j)) with (50 * Z.of_nat (S j)) by lia.
      reflexivity.
    + unfold wait_fuel. lia.
    + apply (Hq 0%nat). lia.
    + change (clock (polled s)) with (clock s). lia.
    + change (clock (polled s)) with (clock s). lia.
    + intros k Hk.
      change (polls (_sock (self (polled s))))
        with (S (polls (_sock (self s)))).
      replace (k + S (polls (_sock (self s))))%nat
        with (S k + polls (_sock (self s)))%nat by lia.
      apply Hq. lia.
    + change (polls (_sock (self (polled s))))
        with (S (polls (_sock (self s)))).
      replace (j + S (polls (_sock (self s))))%nat
        with (S j + polls (_sock (self s)))%nat by lia.
      exact Ha.
Qed.

(** ** Labels, again *)

Lemma split_nonempty {A} (eqb : A -> A -> bool) sep l : split eqb sep l <> [].
Proof.
  destruct l as [|c t]; simpl; [discriminate|].
  destruct (eqb c sep); [discriminate|].
  destruct (split eqb sep t); discriminate.
Qed.

Lemma split_Forall_inv {A} (P : A -> Prop) eqb sep l :
  (forall a, eqb a sep = true -> a = sep) ->
  P sep ->
  Forall (Forall P) (split eqb sep l) -> Forall P l.
Proof.
  intros Heq Hsep. induction l as [|c t IH]; intros Hs; [constructor|].
  simpl in Hs. destruct (eqb c sep) eqn:E.
  - apply Heq in E. subst c. inversion Hs; subst. constructor; auto.
  - destruct (split eqb sep t) as [|w ws] eqn:Et.
    + now destruct (split_nonempty eqb sep t).
    + inversion Hs as [|? ? Hcw Hws]; subst.
      inversion Hcw; subst. constructor; [assumption|].
      apply IH. constructor; assumption.
Qed.

Lemma plain_labels_ascii hostname :
  Forall plain_label (split Byte.eqb x2e hostname) ->
  Forall is_ascii hostname
  /\ Forall (fun l : bytes => (length l <= 255)%nat)
            (split Byte.eqb x2e hostname).
Proof.
  intros Hl. split.
  - apply (split_Forall_inv is_ascii Byte.eqb x2e).
    + intros a Ha. now apply Byte.byte_dec_bl.
    + unfold is_ascii. reflexivity.
    + eapply Forall_impl; [|exact Hl]. now intros l [_ Hl'].
  - eapply Forall_impl; [|exact Hl]. intros l [Hlen _]. lia.
Qed.

(** ** From the query to the address *)

(** Builder and parser fit together.  The host name has labels of 1 to 63
    bytes of 7-bit text, and the first datagram, reported by poll number
    [j] of the first attempt ([j] counted from 0 and at most 20, that is
    short of the second), is a reply as a resolver sends it: the identifier
    of the query, the question as [_build_dns_question] wrote it, one A
    record behind the pointer [C0 0C].  Then [gethostbyname] returns the
    four address bytes of that record, after [j] sleeps, [j + 1] polls and
    one reception, and closes the socket.  The identifier must not be
    [0xC00C]. *)
Theorem resolves_valid_reply `{TextCodec} E hostname s server ttl addr rest j :
  _dns_server (self s) = Some server ->
  Forall plain_label (split Byte.eqb x2e hostname) ->
  next_id E s <> 0xC00C ->
  length ttl = 4%nat ->
  length addr = 4%nat ->
  (j <= 20)%nat ->
  (forall k, (k < j)%nat ->
             available_at E (k + polls (_sock (self s))) <= 0) ->
  0 < available_at E (j + polls (_sock (self s))) ->
  recv_at E (recvs (_sock (self s)))
  = valid_reply (next_id E s) hostname ttl addr rest ->
  exists s',
    gethostbyname E hostname s = Some (Ok (PBytes addr), s')
    /\ clock s' = clock s + 50 * Z.of_nat j
    /\ polls (_sock (self s')) = (S j + polls (_sock (self s)))%nat
    /\ recvs (_sock (self s')) = S (recvs (_sock (self s)))
    /\ closes (_sock (self s')) = S (closes (_sock (self s)))
    /\ is_open (_sock (self s')) = false.
Proof.
  intros Hs Hl Hne Httl Haddr Hj Hq Ha Hrecv.
  destruct (plain_labels_ascii hostname Hl) as [Hasc Hlen].
  rewrite (gethostbyname_ascii E hostname s server Hs Hasc Hlen).
  set (s1 := dispatched s server hostname (next_id E s) _).
  rewrite retry_step by lia.
  rewrite (bind_ok _ _ s1 (PBytes addr)
             (received (advance s1 (S j) (50 * Z.of_nat j))
                       (recv_at E (recvs (_sock (self s1)))))).
  - rewrite retry_stop_value by reflexivity.
    eexists. split; [reflexivity|]. cbn. repeat split; reflexivity.
  - rewrite (parse_arrival E s1 j Hj Hq Ha).
    change (recv_at E (recvs (_sock (self s1))))
      with (recv_at E (recvs (_sock (self s)))).
    change (_request_id (self s1)) with (next_id E s).
    rewrite Hrecv.
    rewrite check_response_valid_reply;
      [reflexivity|apply next_id_range|assumption..].
Qed.

Lemma example_com_plain :
  Forall plain_label (split Byte.eqb x2e example_com).
Proof.
  repeat constructor; simpl; lia.
Qed.

Lemma resolves_valid_reply_witness :
  exists s',
    gethostbyname (late 3 (example_reply [xbe; xef] x01)) example_com
                  (fresh (Some resolver))
    = Some (Ok (PBytes [x5d; xb8; xd8; x22]), s')
    /\ clock s' = 0 + 50 * Z.of_nat 3
    /\ polls (_sock (self s')) = (4 + 0)%nat
    /\ recvs (_sock (self s')) = 1%nat
    /\ closes (_sock (self s')) = 1%nat
    /\ is_open (_sock (self s')) = false.
Proof.
  apply (@resolves_valid_reply ascii_codec
           (late 3 (example_reply [xbe; xef] x01)) example_com
           (fresh (Some resolver)) resolver [x00; x00; x00; x3c]
           [x5d; xb8; xd8; x22] [] 3%nat).
  - reflexivity.
  - exact example_com_plain.
  - vm_compute. discriminate.
  - reflexivity.
  - reflexivity.
  - lia.
  - intros k Hk. unfold late. cbn [available_at].
    destruct (Nat.ltb_spec (k + polls (_sock (self (fresh (Some resolver)))))
                           3); [lia|].
    simpl in *. lia.
  - vm_compute. reflexivity.
  - vm_compute. reflexivity.
Defined.

(** ** The identifier [0xC00C] *)

(** A buffer that carries the identifier [0xC00C] begins with the very
    pair the scan looks for: the scan stops at index 0, the answer TYPE is
    read from bytes 2-3, the flags [0x8180], and the buffer is turned
    down. *)
Lemma check_response_pointer_id buf a :
  check_response buf 0xC00C <> Some (Ok (PBytes a)).
Proof.
  intros Hc. pose proof (check_response_id _ _ _ Hc) as Hid.
  change [byte_of (49164 / 256); byte_of (49164 mod 256)] with [xc0; x0c]
    in Hid.
  destruct buf as [|x [|y rest]]; try discriminate Hid.
  injection Hid as -> ->.
  revert Hc. unfold check_response, TYPE_A.
  destruct (int_from_bytes (slice (xc0 :: x0c :: rest) 0 2) "l" =? 49164);
    cbn [negb]; [|discriminate].
  destruct (Z.eqb_spec
              (int_from_bytes (slice (xc0 :: x0c :: rest) 2 4) "l") 33152)
    as [Hfl|]; cbn [negb]; [|discriminate].
  destruct (int_from_bytes (slice (xc0 :: x0c :: rest) 4 6) "l" >=? 1);
    cbn [negb]; [|discriminate].
  destruct (int_from_bytes (slice (xc0 :: x0c :: rest) 6 8) "l" >=? 1);
    cbn [negb]; [|discriminate].
  destruct (skip_name (S (length (xc0 :: x0c :: rest))) (xc0 :: x0c :: rest)
              12 1) as [[ptr|e]|]; [|discriminate|discriminate].
  destruct (int_from_bytes (slice (xc0 :: x0c :: rest) ptr (ptr + 2)) "l"
            =? 1); cbn [negb]; [|discriminate].
  destruct (int_from_bytes
              (slice (xc0 :: x0c :: rest) (ptr + 2) (ptr + 2 + 2)) "l" =? 1);
    cbn [negb]; [|discriminate].
  cbv zeta.
  change (find (xc0 :: x0c :: rest) [xc0; x0c]) with 0.
  change (0 + 2) with 2. change (0 + 4) with 4.
  rewrite Hfl. discriminate.
Qed.

(** What the loop hands back when it was entered with [-1]: an address,
    [-1], or the [IndexError] of the walk. *)
Lemma retry_values E fuel : forall retries s r s',
  retry E fuel retries (PInt (-1)) s = Some (r, s') ->
  match r with
  | Ok (PInt z) => z = -1
  | Ok (PBytes a) =>
      check_response (_pkt_buf (self s')) (_request_id (self s))
      = Some (Ok (PBytes a))
  | Raise e => e = IndexError
  end.
Proof.
  induction fuel as [|fuel IH]; intros retries s r s' Hr.
  - simpl in Hr. destruct (retries <? 3); [discriminate|].
    injection Hr as <- <-. reflexivity.
  - destruct (Z.ltb_spec retries 3) as [Hlt|Hge].
    + rewrite retry_step in Hr by assumption.
      destruct (parse_cases E s) as (n & t & [Hp|(r1 & Hc & Hp)]).
      * rewrite (bind_ok _ _ _ _ _ Hp) in Hr. apply IH in Hr. exact Hr.
      * pose proof (check_response_values _ _ _ Hc) as Hv.
        destruct r1 as [[z|b]|e]; simpl in Hv.
        -- subst z. rewrite (bind_ok _ _ _ _ _ Hp) in Hr.
           apply IH in Hr. exact Hr.
        -- rewrite (bind_ok _ _ _ _ _ Hp) in Hr.
           rewrite retry_stop_value in Hr by reflexivity.
           injection Hr as <- <-. exact Hc.
        -- rewrite (bind_raise _ _ _ _ _ Hp) in Hr.
           injection Hr as <- <-. exact Hv.
    + rewrite retry_stop_count in Hr by assumption.
      injection Hr as <- <-. reflexivity.
Qed.

(** When the random source hands out [0xC00C] as the identifier, the call
    cannot succeed, whatever the resolver sends: every datagram with this
    identifier is turned down, and so the call ends with [-1] or with an
    exception. *)
Theorem pointer_id_never_resolves `{TextCodec} E hostname s server :
  _dns_server (self s) = Some server ->
  next_id E s = 0xC00C ->
  exists r s',
    gethostbyname E hostname s = Some (r, s')
    /\ (r = Ok (PInt (-1)) \/ exists e, r = Raise e).
Proof.
  intros Hs Hid.
  destruct (gethostbyname_cases E hostname s server Hs)
    as [q [(e & s1 & He & _)|Hc]].
  - exists (Raise e), s1. split; [exact He|right; eauto].
  - rewrite Hc.
    destruct (finish_retry E
                (dispatched s server hostname (next_id E s)
                   (_pkt_buf (self s) ++ spec_header (next_id E s) ++ q)))
      as (r & s1 & Hr & _ & Hf).
    rewrite Hf. eexists _, _. split; [reflexivity|].
    pose proof (retry_values _ _ _ _ _ _ Hr) as Hv.
    destruct r as [[z|a]|e].
    + left. now subst z.
    + exfalso. cbn [dispatched self _request_id] in Hv. rewrite Hid in Hv.
      exact (check_response_pointer_id _ _ Hv).
    + right. eauto.
Qed.

Lemma pointer_id_never_resolves_witness :
  exists r s',
    gethostbyname (fixed_id 0xC00C (example_reply [xc0; x0c] x01))
                  example_com (fresh (Some resolver)) = Some (r, s')
    /\ (r = Ok (PInt (-1)) \/ exists e, r = Raise e).
Proof.
  apply (@pointer_id_never_resolves ascii_codec
           (fixed_id 0xC00C (example_reply [xc0; x0c] x01)) example_com
           (fresh (Some resolver)) resolver).
  - reflexivity.
  - reflexivity.
Defined.

(** ** What a call may use up *)

Lemma within_refl s : within 0 0 0 s s.
Proof.
  unfold within. split; [apply same_call_refl|]. lia.
Qed.

Lemma within_trans p r t p' r' t' s1 s2 s3 :
  within p r t s1 s2 -> within p' r' t' s2 s3 ->
  within (p + p') (r + r') (t + t') s1 s3.
Proof.
  intros (Hs & Hp & Hr & Hc) (Hs' & Hp' & Hr' & Hc').
  split; [eapply same_call_trans; eassumption|]. lia.
Qed.

Lemma within_weaken p r t p' r' t' s s' :
  (p <= p')%nat -> (r <= r')%nat -> t <= t' ->
  within p r t s s' -> within p' r' t' s s'.
Proof.
  intros Hp Hr Ht (Hs & Hp1 & Hr1 & Hc). split; [assumption|]. lia.
Qed.

Lemma within_advance s n t : 0 <= t -> within n 0 t s (advance s n t).
Proof.
  intros Ht. split; [apply same_call_advance|]. cbn. lia.
Qed.

Lemma within_received s data : within 0 1 0 s (received s data).
Proof.
  split; [apply same_call_received|]. cbn. lia.
Qed.

(** The polling loop entered [22 - m] rounds into the second polls at most
    [m] times and sleeps at most [m - 1] times. *)
Lemma wait_bound E fuel : forall m start packet_sz s,
  (1 <= m)%nat -> (m <= fuel)%nat ->
  clock s - start = 50 * (22 - Z.of_nat m) ->
  exists b n t,
    wait_for_packet E fuel start packet_sz s = Some (Ok b, advance s n t)
    /\ (n <= m)%nat /\ 0 <= t <= 50 * (Z.of_nat m - 1).
Proof.
  induction fuel as [|fuel IH]; intros m start packet_sz s Hm Hf Hc; [lia|].
  destruct (Z.leb_spec packet_sz 0) as [Hz|Hz].
  - rewrite wait_step by assumption.
    destruct (deadline_passed E start (clock s)) eqn:Hd.
    + exists true, 1%nat, 0. rewrite polled_advance.
      split; [reflexivity|lia].
    + apply deadline_not_passed in Hd.
      destruct (IH (m - 1)%nat start
                  (available_at E (polls (_sock (self s)))) (advance s 1 50))
        as (b & n & t & Hw & Hn & Ht).
      * lia.
      * lia.
      * change (clock (advance s 1 50)) with (clock s + 50). lia.
      * exists b, (1 + n)%nat, (50 + t).
        rewrite Hw, advance_advance. split; [reflexivity|lia].
  - exists false, 0%nat, 0. rewrite advance_0.
    split; [now apply wait_ready|lia].
Qed.

(** One attempt: at most 23 polls, one reception and 1050 milliseconds. *)
Lemma parse_bound E s :
  exists r s', _parse_dns_response E s = Some (r, s') /\ within 23 1 1050 s s'.
Proof.
  rewrite parse_unfold.
  destruct (wait_bound E wait_fuel 22 (clock s)
              (available_at E (polls (_sock (self s)))) (polled s))
    as (b & n & t & Hw & Hn & Ht).
  - lia.
  - unfold wait_fuel. lia.
  - change (clock (polled s)) with (clock s). lia.
  - rewrite Hw, polled_advance, advance_advance.
    assert (within 23 0 1050 s (advance s (1 + n) (0 + t))) as Hadv.
    { apply (within_weaken (1 + n) 0 (0 + t)); try lia.
      apply within_advance. lia. }
    destruct b.
    + eexists _, _. split; [reflexivity|].
      revert Hadv. apply within_weaken; lia.
    + cbn zeta.
      destruct (check_response_total
                  (recv_at E (recvs (_sock (self (advance s (1 + n) (0 + t))))))
                  (_request_id (self (advance s (1 + n) (0 + t)))))
        as [r Hr].
      rewrite Hr. eexists _, _. split; [reflexivity|].
      apply (within_trans 23 0 1050 0 1 0 _ _ _ Hadv).
      apply within_received.
Qed.

(** The loop with [k] attempts left. *)
Lemma retry_bound E fuel : forall (k : nat) retries addr s,
  retries = 3 - Z.of_nat k -> (k <= fuel)%nat ->
  exists r s',
    retry E fuel retries addr s = Some (r, s')
    /\ within (23 * k) k (1050 * Z.of_nat k) s s'.
Proof.
  induction fuel as [|fuel IH]; intros k retries addr s Hk Hf.
  - rewrite retry_stop_count by lia.
    eexists _, _. split; [reflexivity|].
    apply (within_weaken 0 0 0); try lia. apply within_refl.
  - cbn [retry]. destruct ((retries <? 3) && py_eq addr (PInt (-1))) eqn:Hc.
    + apply andb_prop in Hc. destruct Hc as [Hlt _].
      apply Z.ltb_lt in Hlt.
      destruct (parse_bound E s) as (r1 & s1 & Hp & Hw1).
      destruct r1 as [addr1|e].
      * rewrite (bind_ok _ _ _ _ _ Hp).
        destruct (IH (k - 1)%nat (retries + 1) addr1 s1)
          as (r & s' & Hr & Hw'); [lia|lia|].
        rewrite Hr. eexists _, _. split; [reflexivity|].
        pose proof (within_trans _ _ _ _ _ _ _ _ _ Hw1 Hw') as Hw.
        revert Hw. apply within_weaken; lia.
      * rewrite (bind_raise _ _ _ _ _ Hp).
        eexists _, _. split; [reflexivity|].
        revert Hw1. apply within_weaken; lia.
    + eexists _, _. split; [reflexivity|].
      apply (within_weaken 0 0 0); try lia. apply within_refl.
Qed.

(** Whatever the host name, the client state and the surroundings, a call
    of [gethostbyname] ends, and by then it has polled at most 69 times,
    received at most 3 datagrams, slept at most 3150 milliseconds, sent at
    most one datagram and drawn at most one random number. *)
Theorem gethostbyname_bounds `{TextCodec} E hostname s :
  exists r s',
    gethostbyname E hostname s = Some (r, s')
    /\ (polls (_sock (self s')) <= 69 + polls (_sock (self s)))%nat
    /\ (recvs (_sock (self s')) <= 3 + recvs (_sock (self s)))%nat
    /\ clock s <= clock s' <= clock s + 3150
    /\ (length (sent (_sock (self s')))
        <= 1 + length (sent (_sock (self s))))%nat
    /\ (draws s' <= 1 + draws s)%nat.
Proof.
  destruct (_dns_server (self s)) as [server|] eqn:Hs.
  2:{ rewrite gethostbyname_no_server by assumption.
      eexists _, _. split; [reflexivity|]. lia. }
  pose proof (gethostbyname_cases E hostname s server Hs) as Hcases.
  rewrite (gethostbyname_unfold E hostname s server Hs) in *.
  match goal with
  | |- context [_build_dns_question ?s0] =>
      destruct (_build_dns_question s0) as [[[[]|e] s1]|] eqn:Q
  end.
  - destruct (build_question_appends _ _ _ Q) as [q ->].
    match goal with
    | |- context [retry E 3 0 (PInt (-1)) ?s0] =>
        destruct (retry_bound E 3 3 0 (PInt (-1)) s0)
          as (r & s2 & Hr & Hsame & Hp & Hrc & Hc); [reflexivity|lia|];
        rewrite Hr
    end.
    destruct Hsame as (_ & _ & _ & Hsent & _ & _ & _ & _ & _ & Hdr).
    cbn in Hp, Hrc, Hc, Hsent, Hdr.
    destruct r as [v|e]; cbn [finish]; eexists _, _;
      (split; [reflexivity|]); cbn; rewrite Hsent, Hdr, length_app;
      cbn [length]; lia.
  - destruct (build_question_appends _ _ _ Q) as [q ->].
    eexists _, _. split; [reflexivity|]. cbn. lia.
  - exfalso. destruct Hcases as [q [(e & s1 & He & _)|Hc]];
      [discriminate He|].
    destruct (finish_retry E
                (dispatched s server hostname (next_id E s)
                   (_pkt_buf (self s) ++ spec_header (next_id E s) ++ q)))
      as (r & s1 & _ & _ & Hf).
    rewrite Hf in Hc. discriminate Hc.
Qed.

(** ** Exceptions and the socket *)

(** An exception that leaves [gethostbyname] leaves the socket as it is:
    [close] is not called.  Either the exception came up while the question
    was built, and the socket has not been touched at all, or it is the
    [IndexError] of the walk over a received datagram, and the socket is
    left open with the query sent. *)
Theorem exception_skips_close `{TextCodec} E hostname s e s' :
  gethostbyname E hostname s = Some (Raise e, s') ->
  closes (_sock (self s')) = closes (_sock (self s))
  /\ (_sock (self s') = _sock (self s)
      \/ e = IndexError
         /\ is_open (_sock (self s')) = true
         /\ exists pkt,
              sent (_sock (self s')) = sent (_sock (self s)) ++ [pkt]).
Proof.
  intros Hg.
  destruct (_dns_server (self s)) as [server|] eqn:Hs.
  2:{ rewrite gethostbyname_no_server in Hg by assumption. discriminate Hg. }
  destruct (gethostbyname_cases E hostname s server Hs)
    as [q [(e1 & s1 & He & Hsock)|Hc]].
  - rewrite He in Hg. injection Hg as <- <-.
    split; [now rewrite Hsock|now left].
  - rewrite Hc in Hg.
    destruct (finish_retry E
                (dispatched s server hostname (next_id E s)
                   (_pkt_buf (self s) ++ spec_header (next_id E s) ++ q)))
      as (r & s1 & Hr & Hsame & Hf).
    rewrite Hf in Hg. injection Hg as -> Hs'.
    subst s'.
    pose proof (retry_values _ _ _ _ _ _ Hr) as Hv. cbn in Hv.
    destruct Hsame as (_ & _ & Hop & Hsent & Hcl & _).
    cbn in Hop, Hsent, Hcl.
    split; [exact Hcl|right].
    split; [exact Hv|]. split; [exact Hop|]. eauto.
Qed.

Lemma exception_skips_close_witness :
  closes (_sock (self example_failed)) = 0%nat
  /\ (_sock (self example_failed) = socket_new 1
      \/ IndexError = IndexError
         /\ is_open (_sock (self example_failed)) = true
         /\ exists pkt, sent (_sock (self example_failed)) = [] ++ [pkt]).
Proof.
  apply (@exception_skips_close ascii_codec (prompt header_only) example_com
           (fresh (Some resolver)) IndexError example_failed).
  vm_compute. reflexivity.
Defined.

(** ** Host names with an empty label *)

Lemma split_app_sep {A} (eqb : A -> A -> bool) sep a b :
  eqb sep sep = true ->
  split eqb sep (a ++ sep :: b) = split eqb sep a ++ split eqb sep b.
Proof.
  intros Hsep. induction a as [|c a IH]; simpl.
  - now rewrite Hsep.
  - rewrite IH. destruct (eqb c sep); [reflexivity|].
    destruct (split eqb sep a) as [|w ws] eqn:Ea; [|reflexivity].
    now destruct (split_nonempty eqb sep a).
Qed.

(** The question for [a.b] is the labels of [a] followed by the question
    for [b]. *)
Lemma spec_question_app a b :
  spec_question (a ++ x2e :: b)
  = wire_name (split Byte.eqb x2e a) ++ spec_question b.
Proof.
  unfold spec_question, wire_name.
  rewrite split_app_sep by reflexivity.
  now rewrite flat_map_app, <- app_assoc.
Qed.

(** A host name written with the dot of the root at its end, as in
    [example.com.], does not give the question of the name without it: the
    empty label behind the last dot is written as a label of its own, and
    the question holds one more zero byte in front of QTYPE. *)
Theorem trailing_dot_question `{TextCodec} s h :
  Forall is_ascii h ->
  Forall (fun l : bytes => (length l <= 255)%nat) (split Byte.eqb x2e h) ->
  let name := wire_name (split Byte.eqb x2e h) in
  let buf := _pkt_buf (self s) in
  _build_dns_question (hosting s h)
  = Some (Ok tt, upd_buf (hosting s h)
                         (buf ++ name ++ [x00; x00; x01; x00; x01]))
  /\ _build_dns_question (hosting s (h ++ [x2e]))
     = Some (Ok tt, upd_buf (hosting s (h ++ [x2e]))
                            (buf ++ name ++ [x00; x00; x00; x01; x00; x01])).
Proof.
  intros Ha Hl name buf. split.
  - rewrite build_question_ascii by assumption. reflexivity.
  - rewrite build_question_ascii.
    + cbn [hosting self _host with_host _pkt_buf].
      rewrite spec_question_app. reflexivity.
    + cbn [hosting self _host with_host]. apply Forall_app.
      split; [assumption|repeat constructor].
    + cbn [hosting self _host with_host].
      rewrite split_app_sep by reflexivity. apply Forall_app.
      split; [assumption|]. repeat constructor.
Qed.

Lemma trailing_dot_question_witness :
  let s := fresh (Some resolver) in
  _build_dns_question (hosting s example_com)
  = Some (Ok tt, upd_buf (hosting s example_com)
                   ([] ++ [x07; x65; x78; x61; x6d; x70; x6c; x65;
                           x03; x63; x6f; x6d]
                       ++ [x00; x00; x01; x00; x01]))
  /\ _build_dns_question (hosting s (example_com ++ [x2e]))
     = Some (Ok tt, upd_buf (hosting s (example_com ++ [x2e]))
                      ([] ++ [x07; x65; x78; x61; x6d; x70; x6c; x65;
                              x03; x63; x6f; x6d]
                          ++ [x00; x00; x00; x01; x00; x01])).
Proof.
  intros s.
  apply (@trailing_dot_question ascii_codec s example_com
           example_com_ascii example_com_labels).
Defined.

(** ** Datagrams that are turned down *)

(** With a datagram there at each poll, the loop looks at one datagram per
    attempt: [n] datagrams that the validation turns down are passed over,
    and the next one, if accepted, is the result. *)
Lemma retry_skips E n : forall fuel retries s a,
  retries + Z.of_nat n < 3 -> (n < fuel)%nat ->
  (forall i, (i <= n)%nat ->
             0 < available_at E (i + polls (_sock (self s)))) ->
  (forall i, (i < n)%nat ->
             check_response (recv_at E (i + recvs (_sock (self s))))
                            (_request_id (self s))
             = Some (Ok (PInt (-1)))) ->
  check_response (recv_at E (n + recvs (_sock (self s))))
                 (_request_id (self s))
  = Some (Ok (PBytes a)) ->
  exists s',
    retry E fuel retries (PInt (-1)) s = Some (Ok (PBytes a), s')
    /\ same_call s s'
    /\ polls (_sock (self s')) = (S n + polls (_sock (self s)))%nat
    /\ recvs (_sock (self s')) = (S n + recvs (_sock (self s)))%nat
    /\ clock s' = clock s
    /\ _pkt_buf (self s') = recv_at E (n + recvs (_sock (self s))).
Proof.
  induction n as [|n IH]; intros fuel retries s a Hr Hf Hav Hrej Hacc;
    (destruct fuel as [|fuel]; [lia|]);
    rewrite retry_step by lia;
    pose proof (parse_ready E s (Hav 0%nat (Nat.le_0_l _))) as Hp.
  - change (0 + recvs (_sock (self s)))%nat with (recvs (_sock (self s)))
      in Hacc.
    rewrite Hacc in Hp. rewrite (bind_ok _ _ _ _ _ Hp).
    rewrite retry_stop_value by reflexivity.
    eexists. split; [reflexivity|].
    split; [|cbn; repeat split; reflexivity].
    eapply same_call_trans; [|apply same_call_received].
    rewrite polled_advance. apply same_call_advance.
  - pose proof (Hrej 0%nat (Nat.lt_0_succ _)) as Hrej0.
    change (0 + recvs (_sock (self s)))%nat with (recvs (_sock (self s)))
      in Hrej0.
    rewrite Hrej0 in Hp. rewrite (bind_ok _ _ _ _ _ Hp).
    set (s1 := received (polled s) (recv_at E (recvs (_sock (self s))))).
    destruct (IH fuel (retries + 1) s1 a)
      as (s' & Hs' & Hsame & Hpo & Hre & Hcl & Hbuf).
    + lia.
    + lia.
    + intros i Hi.
      change (polls (_sock (self s1))) with (S (polls (_sock (self s)))).
      replace (i + S (polls (_sock (self s))))%nat
        with (S i + polls (_sock (self s)))%nat by lia.
      apply Hav. lia.
    + intros i Hi.
      change (recvs (_sock (self s1))) with (S (recvs (_sock (self s)))).
      change (_request_id (self s1)) with (_request_id (self s)).
      replace (i + S (recvs (_sock (self s))))%nat
        with (S i + recvs (_sock (self s)))%nat by lia.
      apply Hrej. lia.
    + change (recvs (_sock (self s1))) with (S (recvs (_sock (self s)))).
      change (_request_id (self s1)) with (_request_id (self s)).
      replace (n + S (recvs (_sock (self s))))%nat
        with (S n + recvs (_sock (self s)))%nat by lia.
      exact Hacc.
    + exists s'. split; [exact Hs'|].
      change (polls (_sock (self s1))) with (S (polls (_sock (self s))))
        in Hpo.
      change (recvs (_sock (self s1))) with (S (recvs (_sock (self s))))
        in Hre, Hbuf.
      change (clock s1) with (clock s) in Hcl.
      split; [|split; [lia|split; [lia|split; [exact Hcl|]]]].
      * eapply same_call_trans; [|exact Hsame].
        eapply same_call_trans; [|apply same_call_received].
        rewrite polled_advance. apply same_call_advance.
      * rewrite Hbuf. f_equal. lia.
Qed.

(** A call looks at the datagrams in the order of their arrival, one per
    attempt: when the first [n] of them, [n] at most 2, are turned down
    (a reply to an earlier query, say, with another identifier) and the
    next one is accepted, the call returns the address of that one; it has
    received [n + 1] datagrams and has not slept. *)
Theorem rejected_datagrams_skipped `{TextCodec} E hostname s server n a :
  _dns_server (self s) = Some server ->
  Forall is_ascii hostname ->
  Forall (fun l : bytes => (length l <= 255)%nat)
         (split Byte.eqb x2e hostname) ->
  (n <= 2)%nat ->
  (forall i, (i <= n)%nat ->
             0 < available_at E (i + polls (_sock (self s)))) ->
  (forall i, (i < n)%nat ->
             check_response (recv_at E (i + recvs (_sock (self s))))
                            (next_id E s)
             = Some (Ok (PInt (-1)))) ->
  check_response (recv_at E (n + recvs (_sock (self s)))) (next_id E s)
  = Some (Ok (PBytes a)) ->
  exists s',
    gethostbyname E hostname s = Some (Ok (PBytes a), s')
    /\ polls (_sock (self s')) = (S n + polls (_sock (self s)))%nat
    /\ recvs (_sock (self s')) = (S n + recvs (_sock (self s)))%nat
    /\ clock s' = clock s
    /\ _pkt_buf (self s') = recv_at E (n + recvs (_sock (self s)))
    /\ closes (_sock (self s')) = S (closes (_sock (self s))).
Proof.
  intros Hs Ha Hl Hn Hav Hrej Hacc.
  rewrite (gethostbyname_ascii E hostname s server Hs Ha Hl).
  set (s1 := dispatched s server hostname (next_id E s) _).
  destruct (retry_skips E n 3 0 s1 a)
    as (s' & Hr & Hsame & Hpo & Hre & Hcl & Hbuf);
    try assumption; try lia.
  rewrite Hr. cbn [finish]. eexists. split; [reflexivity|].
  destruct Hsame as (_ & _ & _ & _ & Hcloses & _).
  cbn. rewrite Hpo, Hre, Hcl, Hbuf, Hcloses. repeat split; reflexivity.
Qed.

Lemma rejected_datagrams_skipped_witness :
  let E := mkEnv (fun _ => 45)
                 (fun k => match k with
                           | O => example_reply [x12; x34] x01
                           | _ => example_reply [xbe; xef] x01
                           end)
                 sample_entropy (fun _ => false) in
  exists s',
    gethostbyname E example_com (fresh (Some resolver))
    = Some (Ok (PBytes [x5d; xb8; xd8; x22]), s')
    /\ polls (_sock (self s')) = 2%nat
    /\ recvs (_sock (self s')) = 2%nat
    /\ clock s' = 0
    /\ _pkt_buf (self s') = example_reply [xbe; xef] x01
    /\ closes (_sock (self s')) = 1%nat.
Proof.
  intros E.
  apply (@rejected_datagrams_skipped ascii_codec E example_com
           (fresh (Some resolver)) resolver 1%nat [x5d; xb8; xd8; x22]
           eq_refl example_com_ascii example_com_labels).
  - lia.
  - intros i _. reflexivity.
  - intros i Hi. assert (i = 0%nat) as -> by lia. vm_compute. reflexivity.
  - vm_compute. reflexivity.
Defined.

(** ** The first record decides *)

(** Of a reply that echoes the question and goes on with a record named
    by the pointer [C0 0C], the attempt looks at this first record only.
    Its TYPE, CLASS and RDLENGTH decide: with 1, 1 and 4 the attempt ends
    with the bytes that follow, otherwise with [-1], whatever records come
    behind it -- a reply that leads with a CNAME record is turned down
    although the address follows.  The name in the question of the reply
    is walked over, and not compared with the host asked for. *)
Theorem first_record_decides E s hostname rest j :
  (j <= 20)%nat ->
  (forall k, (k < j)%nat ->
             available_at E (k + polls (_sock (self s))) <= 0) ->
  0 < available_at E (j + polls (_sock (self s))) ->
  Forall plain_label (split Byte.eqb x2e hostname) ->
  0 <= _request_id (self s) < 65536 ->
  _request_id (self s) <> 0xC00C ->
  recv_at E (recvs (_sock (self s)))
  = reply_header (_request_id (self s)) ++ spec_question hostname
    ++ [xc0; x0c] ++ rest ->
  _parse_dns_response E s
  = Some (Ok (if (field16 rest 0 =? 1) && (field16 rest 2 =? 1)
                 && (field16 rest 8 =? 4)
              then PBytes (slice rest 10 14)
              else PInt (-1)),
          received (advance s (S j) (50 * Z.of_nat j))
                   (recv_at E (recvs (_sock (self s))))).
Proof.
  intros Hj Hq Ha Hl Hid Hne Hrecv.
  rewrite (parse_arrival E s j Hj Hq Ha).
  rewrite Hrecv at 1.
  change (reply_header (_request_id (self s)) ++ spec_question hostname
          ++ [xc0; x0c] ++ rest)
    with (reply_header (_request_id (self s)) ++ spec_question hostname
          ++ xc0 :: x0c :: rest).
  rewrite check_response_first_record by assumption.
  reflexivity.
Qed.

Lemma first_record_decides_witness :
  let s := dispatched (fresh (Some resolver)) resolver example_com 0xBEEF
             (spec_header 0xBEEF ++ spec_question example_com) in
  field16 cname_records 0 = 5
  /\ _parse_dns_response (prompt cname_reply) s
     = Some (Ok (PInt (-1)), received (advance s 1 0) cname_reply).
Proof.
  intros s. split; [reflexivity|].
  apply (first_record_decides (prompt cname_reply) s example_com
           cname_records 0%nat).
  - lia.
  - intros k Hk. lia.
  - vm_compute. reflexivity.
  - exact example_com_plain.
  - change (0 <= 48879 < 65536). lia.
  - change (48879 <> 49164). lia.
  - reflexivity.
Defined.

(** * Properties of the NTP helper *)

Lemma int_from_bytes_big_four a b c d :
  int_from_bytes [a; b; c; d] "big"
  = 16777216 * byte_val a + 65536 * byte_val b + 256 * byte_val c
    + byte_val d.
Proof.
  unfold int_from_bytes. cbn [String.eqb Ascii.eqb Bool.eqb fold_left]. lia.
Qed.

(** An integer read from at most four bytes is below [2 ^ 32]. *)
Lemma int_from_bytes_four_range b :
  (length b <= 4)%nat -> 0 <= int_from_bytes b "big" < 4294967296.
Proof.
  intros Hlen.
  destruct b as [|a [|b [|c [|d [|e rest]]]]];
    try (simpl in Hlen; lia);
    unfold int_from_bytes; cbn [String.eqb Ascii.eqb Bool.eqb fold_left];
    repeat match goal with
           | |- context [byte_val ?x] =>
               lazymatch goal with
               | _ : 0 <= byte_val x < 256 |- _ => fail
               | _ => pose proof (byte_val_range x)
               end
           end; lia.
Qed.

Lemma seconds_field_value n :
  0 <= n < 4294967296 -> int_from_bytes (Ntp.seconds_field n) "big" = n.
Proof.
  intros Hn. unfold Ntp.seconds_field. rewrite int_from_bytes_big_four.
  assert (0 <= n / 16777216 < 256)
    by (split; [apply Z.div_pos; lia | apply Z.div_lt_upper_bound; lia]).
  rewrite !byte_val_byte_of
    by (assumption || (apply Z.mod_pos_bound; lia)).
  pose proof (Z_div_mod_eq_full n 256).
  pose proof (Z_div_mod_eq_full (n / 256) 256).
  pose proof (Z_div_mod_eq_full (n / 256 / 256) 256).
  rewrite !Z.div_div in * by lia.
  change (256 * 256) with 65536 in *.
  change (65536 * 256) with 16777216 in *.
  assert (n / 16777216 mod 256 = n / 16777216) by (apply Z.mod_small; lia).
  lia.
Qed.

Section NtpFacts.
Variable struct_time : Type.
Variable localtime : Z -> struct_time.

(** The loop reads until a datagram is not empty and makes the time of
    that one. *)
Lemma read_time_arrival E k : forall fuel d data,
  (k < fuel)%nat ->
  (forall i, (i < k)%nat -> recv_at E (i + Ntp.recvs (Ntp._sock d)) = []) ->
  recv_at E (k + Ntp.recvs (Ntp._sock d)) = data ->
  data <> [] ->
  Ntp.read_time struct_time localtime E fuel d
  = Some (localtime (int_from_bytes (slice data 40 44) "big"
                     - Ntp.NTP_TO_UNIX_EPOCH + Ntp._utc d * 3600),
          let s := Ntp._sock d in
          Ntp.with_sock d
            (Ntp.mkSocket (Ntp.timeout s) (Ntp.bound s) (Ntp.sent_to s)
                          (S k + Ntp.recvs s))).
Proof.
  induction k as [|k IH]; intros fuel d data Hf Hq Hk Hne;
    (destruct fuel as [|fuel]; [lia|]); cbn [Ntp.read_time Ntp.sock_recv].
  - change (0 + Ntp.recvs (Ntp._sock d))%nat with (Ntp.recvs (Ntp._sock d))
      in Hk.
    rewrite Hk. destruct data as [|x data]; [contradiction|].
    reflexivity.
  - pose proof (Hq 0%nat (Nat.lt_0_succ _)) as H0.
    change (0 + Ntp.recvs (Ntp._sock d))%nat with (Ntp.recvs (Ntp._sock d))
      in H0.
    rewrite H0. cbn [Ntp.truthy].
    rewrite (IH fuel _ data).
    + cbn. f_equal. f_equal. unfold Ntp.with_sock. cbn.
      f_equal. f_equal. lia.
    + lia.
    + intros i Hi. cbn.
      replace (i + S (Ntp.recvs (Ntp._sock d)))%nat
        with (S i + Ntp.recvs (Ntp._sock d))%nat by lia.
      apply Hq. lia.
    + cbn.
      replace (k + S (Ntp.recvs (Ntp._sock d)))%nat
        with (S k + Ntp.recvs (Ntp._sock d))%nat by lia.
      exact Hk.
    + exact Hne.
Qed.

Lemma get_time_arrival E k fuel d data :
  (k < fuel)%nat ->
  (forall i, (i < k)%nat -> recv_at E (i + Ntp.recvs (Ntp._sock d)) = []) ->
  recv_at E (k + Ntp.recvs (Ntp._sock d)) = data ->
  data <> [] ->
  Ntp.get_time struct_time localtime E fuel d
  = Some (localtime (int_from_bytes (slice data 40 44) "big"
                     - Ntp.NTP_TO_UNIX_EPOCH + Ntp._utc d * 3600),
          Ntp.called d (S k)).
Proof.
  intros Hf Hq Hk Hne. unfold Ntp.get_time.
  rewrite (read_time_arrival E k fuel _ data); try assumption.
  reflexivity.
Qed.

End NtpFacts.

(** The seconds are bytes 40 to 43 of the first datagram that is not
    empty, most significant byte first, counted from 1900: with [n] in that
    field the call ends with [localtime(n - 2208988800 + utc * 3600)].  By
    then it has bound the socket to port 50001, sent its request packet
    once, to port 123 of the server, and read [k + 1] times; the request
    packet is as it was. *)
Theorem ntp_reads_seconds_field {struct_time} (localtime : Z -> struct_time)
  E k fuel d pre n post :
  (k < fuel)%nat ->
  (forall i, (i < k)%nat -> recv_at E (i + Ntp.recvs (Ntp._sock d)) = []) ->
  recv_at E (k + Ntp.recvs (Ntp._sock d))
  = pre ++ Ntp.seconds_field n ++ post ->
  length pre = 40%nat ->
  0 <= n < 4294967296 ->
  exists d',
    Ntp.get_time struct_time localtime E fuel d
    = Some (localtime (n - 2208988800 + Ntp._utc d * 3600), d')
    /\ Ntp.bound (Ntp._sock d') = Some (None, 50001)
    /\ Ntp.sent_to (Ntp._sock d')
       = Ntp.sent_to (Ntp._sock d)
         ++ [(Ntp._pkt_buf_ d, (Ntp._ntp_server d, 123))]
    /\ Ntp.recvs (Ntp._sock d') = (S k + Ntp.recvs (Ntp._sock d))%nat
    /\ Ntp._pkt_buf_ d' = Ntp._pkt_buf_ d.
Proof.
  intros Hf Hq Hk Hpre Hn.
  rewrite (get_time_arrival struct_time localtime E k fuel d _ Hf Hq Hk).
  - assert (slice (pre ++ Ntp.seconds_field n ++ post) 40 44
            = Ntp.seconds_field n) as ->.
    { change 40 with (Z.of_nat 40 + 0). change 44 with (Z.of_nat 40 + 4).
      rewrite <- Hpre, slice_in_app by (cbn; lia). reflexivity. }
    rewrite seconds_field_value by assumption.
    eexists. split; [reflexivity|]. repeat split; reflexivity.
  - destruct pre; [discriminate Hpre|discriminate].
Qed.

Lemma ntp_reads_seconds_field_witness :
  let d := Ntp.__init__ ntp_pool 2 false in
  let E := ntp_late 2 (repeat x00 40 ++ Ntp.seconds_field 3913056000
                       ++ repeat x00 4) in
  exists d',
    Ntp.get_time Z (fun cal => cal) E 3 d
    = Some (3913056000 - 2208988800 + 2 * 3600, d')
    /\ Ntp.bound (Ntp._sock d') = Some (None, 50001)
    /\ Ntp.sent_to (Ntp._sock d')
       = [] ++ [([x23] ++ repeat x00 55, (ntp_pool, 123))]
    /\ Ntp.recvs (Ntp._sock d') = 3%nat
    /\ Ntp._pkt_buf_ d' = [x23] ++ repeat x00 55.
Proof.
  intros d E.
  apply (ntp_reads_seconds_field (fun cal => cal) E 2 3 d (repeat x00 40)
           3913056000 (repeat x00 4)).
  - lia.
  - intros i Hi. unfold E, ntp_late. cbn [recv_at].
    destruct (Nat.ltb_spec (i + Ntp.recvs (Ntp._sock d)) 2);
      [reflexivity|]. simpl in *. lia.
  - reflexivity.
  - reflexivity.
  - lia.
Defined.

(** Whatever the datagram holds, the seconds handed to [localtime] lie
    between 1900-01-01 and 2036-02-07 06:28:15, shifted by the offset: the
    field has 32 bits and nothing is added for a later era. *)
Theorem ntp_time_range {struct_time} (localtime : Z -> struct_time)
  E k fuel d :
  (k < fuel)%nat ->
  (forall i, (i < k)%nat -> recv_at E (i + Ntp.recvs (Ntp._sock d)) = []) ->
  recv_at E (k + Ntp.recvs (Ntp._sock d)) <> [] ->
  exists cal,
    Ntp.get_time struct_time localtime E fuel d
    = Some (localtime cal, Ntp.called d (S k))
    /\ Ntp._utc d * 3600 - 2208988800 <= cal
       <= Ntp._utc d * 3600 + 2085978495.
Proof.
  intros Hf Hq Hne.
  rewrite (get_time_arrival struct_time localtime E k fuel d _ Hf Hq eq_refl
             Hne).
  eexists. split; [reflexivity|].
  set (data := recv_at E (k + Ntp.recvs (Ntp._sock d))).
  assert (length (slice data 40 44) <= 4)%nat as Hlen.
  { pose proof (slice_length_le data 40 44). lia. }
  pose proof (int_from_bytes_four_range _ Hlen).
  unfold Ntp.NTP_TO_UNIX_EPOCH. lia.
Qed.

Lemma ntp_time_range_witness :
  let d := Ntp.__init__ ntp_pool 0 false in
  let E := ntp_late 0 (repeat xff 48) in
  exists cal,
    Ntp.get_time Z (fun cal => cal) E 1 d = Some (cal, Ntp.called d 1)
    /\ 0 * 3600 - 2208988800 <= cal <= 0 * 3600 + 2085978495.
Proof.
  intros d E.
  apply (ntp_time_range (fun cal => cal) E 0 1 d).
  - lia.
  - intros i Hi. lia.
  - discriminate.
Defined.

(** The length of the datagram is not looked at.  One of 40 bytes or
    fewer has nothing at bytes 40 to 43; the seconds then read 0, and what
    [get_time] hands to [localtime] is the first second of 1900 shifted by
    the offset, whatever the datagram holds.  The call ends with what
    [localtime] makes of that. *)
Theorem ntp_short_datagram {struct_time} (localtime : Z -> struct_time)
  E k fuel d :
  (k < fuel)%nat ->
  (forall i, (i < k)%nat -> recv_at E (i + Ntp.recvs (Ntp._sock d)) = []) ->
  recv_at E (k + Ntp.recvs (Ntp._sock d)) <> [] ->
  (length (recv_at E (k + Ntp.recvs (Ntp._sock d))) <= 40)%nat ->
  Ntp.get_time struct_time localtime E fuel d
  = Some (localtime (Ntp._utc d * 3600 - 2208988800), Ntp.called d (S k)).
Proof.
  intros Hf Hq Hne Hlen.
  rewrite (get_time_arrival struct_time localtime E k fuel d _ Hf Hq eq_refl
             Hne).
  rewrite slice_beyond by lia.
  do 3 f_equal. unfold Ntp.NTP_TO_UNIX_EPOCH.
  change (int_from_bytes [] "big") with 0. lia.
Qed.

Lemma ntp_short_datagram_witness :
  let d := Ntp.__init__ ntp_pool 0 false in
  Ntp.get_time Z (fun cal => cal) (ntp_late 0 [x1c]) 1 d
  = Some (0 * 3600 - 2208988800, Ntp.called d 1).
Proof.
  intros d.
  apply (ntp_short_datagram (fun cal => cal) (ntp_late 0 [x1c]) 0 1 d).
  - lia.
  - intros i Hi. lia.
  - discriminate.
  - simpl. lia.
Defined.

Lemma read_time_quiet {struct_time} (localtime : Z -> struct_time) E fuel :
  forall d,
  (forall i, recv_at E (i + Ntp.recvs (Ntp._sock d)) = []) ->
  Ntp.read_time struct_time localtime E fuel d = None.
Proof.
  induction fuel as [|fuel IH]; intros d Hq; [reflexivity|].
  cbn [Ntp.read_time Ntp.sock_recv].
  pose proof (Hq 0%nat) as H0.
  change (0 + Ntp.recvs (Ntp._sock d))%nat with (Ntp.recvs (Ntp._sock d))
    in H0.
  rewrite H0. cbn [Ntp.truthy]. apply IH.
  intros i. cbn.
  replace (i + S (Ntp.recvs (Ntp._sock d)))%nat
    with (S i + Ntp.recvs (Ntp._sock d))%nat by lia.
  apply Hq.
Qed.

(** [get_time] has no deadline of its own.  As long as [recv] hands back
    nothing the loop goes on: no number of rounds brings the call to an
    end, and the timeout set on the socket does not enter into it. *)
Theorem ntp_never_gives_up {struct_time} (localtime : Z -> struct_time)
  E d :
  (forall i, recv_at E (i + Ntp.recvs (Ntp._sock d)) = []) ->
  forall fuel, Ntp.get_time struct_time localtime E fuel d = None.
Proof.
  intros Hq fuel. unfold Ntp.get_time. apply read_time_quiet. exact Hq.
Qed.

Lemma ntp_never_gives_up_witness :
  Ntp.get_time Z (fun cal => cal) silent 1000
               (Ntp.__init__ ntp_pool 0 false) = None.
Proof.
  apply (ntp_never_gives_up (fun cal => cal) silent
           (Ntp.__init__ ntp_pool 0 false)).
  intros i. reflexivity.
Defined.
